(** * emulators-ui: rendering backends and on-screen layer controls

    A shallow embedding of the 2D canvas backend ([src/graphics/_2d.ts]),
    of the WebGL backend (the source file that exports [webGl]) and of the
    layer controls ([src/controls/layers-control.ts]).

    Closures of the source are closure-converted: the variables a closure
    captures become fields of an explicit state record, and the closure
    itself becomes a function on that state.  Calls on browser objects
    (canvas context, WebGL context, DOM nodes, console) and on the emulator's
    [CommandInterface] are recorded in traces, in call order. *)

From Stdlib Require Import QArith String ZArith Lia.
From stdpp Require Import base list gmap strings.
From Equations Require Import Equations.

Local Open Scope nat_scope.
Set Warnings "-clear-no-such-hyp".

(** ** JavaScript numbers

    The source computes on JS numbers.  The operations it uses are gathered
    in an interface, so that the code is embedded once and read either over
    the rationals (instance [Q_JsNum]) or over any other carrier. *)

Class JsNum (num : Type) := {
  num_of_nat : nat -> num;
  num_half : num;
  num_sub : num -> num -> num;
  num_mul : num -> num -> num;
  num_div : num -> num -> num;
  num_gt : num -> num -> bool;
}.

Declare Scope num_scope.
Delimit Scope num_scope with num.
Infix "-" := num_sub : num_scope.
Infix "*" := num_mul : num_scope.
Infix "/" := num_div : num_scope.
Infix ">?" := num_gt (at level 70, no associativity) : num_scope.

#[export] Instance Q_JsNum : JsNum Q := {|
  num_of_nat n := inject_Z (Z.of_nat n);
  num_half := (1 # 2)%Q;
  num_sub := Qminus;
  num_mul := Qmult;
  num_div := Qdiv;
  num_gt a b := negb (Qle_bool a b);
|}.

(** A closure is identified by a handle: two evaluations of the same
    function expression give two distinct handles. *)
Definition handle := nat.

(** ** The canvas element *)

Inductive Css (num : Type) :=
| px (n : num)            (* [n + "px"] *)
| keyword (s : string).
Arguments px {num} n.
Arguments keyword {num} s.

Record Style (num : Type) := mkStyle {
  style_position : Css num;
  style_top : Css num;
  style_left : Css num;
  style_width : Css num;
  style_height : Css num;
}.
Arguments mkStyle {num}.
Arguments style_position {num}.
Arguments style_top {num}.
Arguments style_left {num}.
Arguments style_width {num}.
Arguments style_height {num}.

Record Canvas (num : Type) := mkCanvas {
  style : Style num;
  canvas_width : nat;       (* the [width] attribute: size of the bitmap *)
  canvas_height : nat;
  has_2d : bool;            (* [getContext("2d")] is not null *)
  has_webgl : bool;         (* [getContext("webgl")] is not null *)
}.
Arguments mkCanvas {num}.
Arguments style {num}.
Arguments canvas_width {num}.
Arguments canvas_height {num}.
Arguments has_2d {num}.
Arguments has_webgl {num}.

(** ** The emulator's command interface

    [CommandInterface] belongs to the external package [emulators]; the
    source only calls it.  The calls are recorded. *)

Inductive EventName := onFrameSize | onFrame | onExit.

Inductive Command (num : Type) :=
| sendKeyEvent (keyCode : Z) (pressed : bool)
| sendMouseMotion (x y : num).
Arguments sendKeyEvent {num}.
Arguments sendMouseMotion {num}.

Record CommandInterface (num : Type) := mkCi {
  ci_width : nat;                       (* [ci.width()] *)
  ci_height : nat;                      (* [ci.height()] *)
  subscriptions : list (EventName * handle);   (* [ci.events().onX(h)] *)
  commands : list (Command num);        (* [ci.sendX(...)] *)
}.
Arguments mkCi {num}.
Arguments ci_width {num}.
Arguments ci_height {num}.
Arguments subscriptions {num}.
Arguments commands {num}.

Definition subscribe {num} (e : EventName) (h : handle)
    (ci : CommandInterface num) : CommandInterface num :=
  mkCi (ci_width ci) (ci_height ci) (subscriptions ci ++ [(e, h)]) (commands ci).

Definition send {num} (c : Command num)
    (ci : CommandInterface num) : CommandInterface num :=
  mkCi (ci_width ci) (ci_height ci) (subscriptions ci) (commands ci ++ [c]).


(** What a backend has done to the command interface: [ci_init] after its
    set-up, [ci_later] at a later time. *)
Definition subscribed_only {num} (ci0 ci_init ci_later : CommandInterface num)
    (h_size h_frame h_exit : handle) : Prop :=
  subscriptions ci_init =
    subscriptions ci0 ++ [(onFrameSize, h_size); (onFrame, h_frame); (onExit, h_exit)]
  /\ ci_later = ci_init
  /\ commands ci_later = commands ci0.

(** ** Layers

    The fields of [Layers] ([src/dom/layers.ts]) that the three source files
    read or write. *)

Definition node := nat.

Record Layers (num : Type) := mkLayers {
  layers_width : num;
  layers_height : num;
  canvas : Canvas num;
  onResizeListeners : gset handle;
  mouseOverlay : list node;             (* children of the overlay, in order *)
  pointerButton : Z;
  keyboardToggles : nat;                (* calls of [toggleKeyboard] *)
  onKeyboardVisibility : gset handle;
}.
Arguments mkLayers {num}.
Arguments layers_width {num}.
Arguments layers_height {num}.
Arguments canvas {num}.
Arguments onResizeListeners {num}.
Arguments mouseOverlay {num}.
Arguments pointerButton {num}.
Arguments keyboardToggles {num}.
Arguments onKeyboardVisibility {num}.

Definition set_canvas {num} (c : Canvas num) (l : Layers num) : Layers num :=
  mkLayers (layers_width l) (layers_height l) c (onResizeListeners l)
    (mouseOverlay l) (pointerButton l) (keyboardToggles l)
    (onKeyboardVisibility l).

Definition set_onResizeListeners {num} (s : gset handle) (l : Layers num)
    : Layers num :=
  mkLayers (layers_width l) (layers_height l) (canvas l) s
    (mouseOverlay l) (pointerButton l) (keyboardToggles l)
    (onKeyboardVisibility l).

(** Modelled from the spec: [Layers.addOnResize] and [Layers.removeOnResize]
    of [src/dom/layers.ts], which is not among the sources.  The listeners
    are kept as a set: adding registers the handler, removing takes it out
    and leaves the other handlers alone. *)
Definition addOnResize {num} (h : handle) (l : Layers num) : Layers num :=
  set_onResizeListeners ({[h]} ∪ onResizeListeners l) l.

(** Modelled from the spec: [Layers.removeOnResize], see [addOnResize]. *)
Definition removeOnResize {num} (h : handle) (l : Layers num) : Layers num :=
  set_onResizeListeners (onResizeListeners l ∖ {[h]}) l.

(** ** The 2D canvas backend ([src/graphics/_2d.ts]) *)

Module _2d.

(** Storing [rgb[k]] in a [Uint8ClampedArray]: a byte is kept, and the
    [undefined] read past the end of [rgb] is stored as 0. *)
Definition toUint8Clamped (v : option Byte.byte) : Byte.byte :=
  match v with
  | Some b => b
  | None => Byte.x00
  end.

(** The [while] loop of the [onFrame] handler.  Each pass performs the four
    assignments with their post-increments; an assignment past the end of a
    typed array is ignored, as is stdpp's list insert. *)
Equations convert (rgb : list Byte.byte) (rgbOffset rgbaOffset : nat)
    (rgba : list Byte.byte) : list Byte.byte
    by wf (length rgba - rgbaOffset) lt :=
  convert rgb rgbOffset rgbaOffset rgba with decide (rgbaOffset < length rgba) := {
    | left _ =>
        convert rgb (rgbOffset + 3) (rgbaOffset + 4)
          (<[rgbaOffset + 3 := Byte.xff]>
            (<[rgbaOffset + 2 := toUint8Clamped (rgb !! (rgbOffset + 2))]>
              (<[rgbaOffset + 1 := toUint8Clamped (rgb !! (rgbOffset + 1))]>
                (<[rgbaOffset := toUint8Clamped (rgb !! rgbOffset)]> rgba))))
    | right _ => rgba
  }.
Next Obligation. rewrite !length_insert. lia. Qed.

(** Calls on the 2D context. *)
Inductive ContextCall :=
| putImageData (data : list Byte.byte) (sw sh : nat) (dx dy : nat).
    (* [context.putImageData(new ImageData(data, sw, sh), dx, dy)] *)

Section WithNum.
Context {num : Type} `{JsNum num}.
Local Open Scope num_scope.

(** The closures created by one call of [_2d]. *)
Record Closures := mkClosures {
  onResizeLayer_h : handle;
  onResizeFrame_h : handle;
  onFrame_h : handle;
  onExit_h : handle;
}.

(** The variables of one call of [_2d], with the objects it was given. *)
Record State := mkState {
  layers : Layers num;
  ci : CommandInterface num;
  closures : Closures;
  containerWidth : num;
  containerHeight : num;
  frameWidth : nat;
  frameHeight : nat;
  rgba : list Byte.byte;
  context : list ContextCall;
}.

Definition onResize (containerWidth containerHeight frameWidth frameHeight : num)
    (canvas : Canvas num) : Canvas num :=
  let aspect := frameWidth / frameHeight in
  let width := containerWidth in
  let height := containerWidth / aspect in
  let '(width, height) :=
    if height >? containerHeight
    then (containerHeight * aspect, containerHeight)
    else (width, height) in
  mkCanvas
    (mkStyle (keyword "relative")
       (px ((containerHeight - height) / num_of_nat 2))
       (px ((containerWidth - width) / num_of_nat 2))
       (px width)
       (px height))
    (canvas_width canvas) (canvas_height canvas)
    (has_2d canvas) (has_webgl canvas).

Definition call_onResize (s : State) : State :=
  mkState
    (set_canvas
       (onResize (containerWidth s) (containerHeight s)
          (num_of_nat (frameWidth s)) (num_of_nat (frameHeight s))
          (canvas (layers s)))
       (layers s))
    (ci s) (closures s) (containerWidth s) (containerHeight s)
    (frameWidth s) (frameHeight s) (rgba s) (context s).

Definition onResizeLayer (w h : num) (s : State) : State :=
  call_onResize
    (mkState (layers s) (ci s) (closures s) w h
       (frameWidth s) (frameHeight s) (rgba s) (context s)).

Definition onResizeFrame (w h : nat) (s : State) : State :=
  call_onResize
    (mkState
       (set_canvas
          (mkCanvas (style (canvas (layers s))) w h
             (has_2d (canvas (layers s))) (has_webgl (canvas (layers s))))
          (layers s))
       (ci s) (closures s) (containerWidth s) (containerHeight s)
       w h (replicate (w * h * 4)%nat Byte.x00) (context s)).

Definition onFrameHandler (rgb : list Byte.byte) (s : State) : State :=
  let rgba' := convert rgb 0 0 (rgba s) in
  mkState (layers s) (ci s) (closures s) (containerWidth s) (containerHeight s)
    (frameWidth s) (frameHeight s) rgba'
    (context s ++ [putImageData rgba' (frameWidth s) (frameHeight s) 0 0]).

Definition onExitHandler (s : State) : State :=
  mkState (removeOnResize (onResizeLayer_h (closures s)) (layers s))
    (ci s) (closures s) (containerWidth s) (containerHeight s)
    (frameWidth s) (frameHeight s) (rgba s) (context s).

Definition with_ci (c : CommandInterface num) (s : State) : State :=
  mkState (layers s) c (closures s) (containerWidth s) (containerHeight s)
    (frameWidth s) (frameHeight s) (rgba s) (context s).

(** The body of [_2d]; [None] is the thrown [Error] when the canvas has no
    2D context. *)
Definition _2d (layers0 : Layers num) (ci0 : CommandInterface num)
    (cl : Closures) : option State :=
  if has_2d (canvas layers0) then
    let s := mkState (addOnResize (onResizeLayer_h cl) layers0) ci0 cl
               (layers_width layers0) (layers_height layers0) 0 0 [] [] in
    let s := with_ci (subscribe onFrameSize (onResizeFrame_h cl) (ci s)) s in
    let s := with_ci (subscribe onFrame (onFrame_h cl) (ci s)) s in
    let s := onResizeFrame (ci_width ci0) (ci_height ci0) s in
    let s := with_ci (subscribe onExit (onExit_h cl) (ci s)) s in
    Some s
  else None.

(** What can happen to a backend once it is set up: the layers report a new
    size to their resize listeners, or the emulator fires one of its three
    events. *)
Inductive Event :=
| Resize (w h : num)
| FrameSize (w h : nat)
| Frame (rgb : list Byte.byte)
| Exit.

Definition step (s : State) (e : Event) : State :=
  match e with
  | Resize w h =>
      if decide (onResizeLayer_h (closures s) ∈ onResizeListeners (layers s))
      then onResizeLayer w h s else s
  | FrameSize w h => onResizeFrame w h s
  | Frame rgb => onFrameHandler rgb s
  | Exit => onExitHandler s
  end.

Definition run (s : State) (evs : list Event) : State := foldl step s evs.

(** The size of [rgba] follows the frame size. *)
Definition rgba_sized (s : State) : Prop :=
  length (rgba s) = (4 * (frameWidth s * frameHeight s))%nat.

End WithNum.

Arguments State num : clear implicits.
Arguments Event num : clear implicits.

End _2d.

(** ** The WebGL backend (the source file that exports [webGl]) *)

Module webGl.

Inductive ShaderType := VERTEX_SHADER | FRAGMENT_SHADER.

(** What the WebGL implementation answers to the status queries of
    [loadShader] and [initShaderProgram]. *)
Record GlContext := mkGlContext {
  COMPILE_STATUS : ShaderType -> bool;
  LINK_STATUS : bool;
}.

(** Calls on the WebGL context.  The texture, buffer and uniform set-up of
    the body of [webGl] and of [initBuffers] has no branch and takes no
    input; it is recorded as one call each. *)
Inductive GlCall :=
| compileShader (t : ShaderType)
| deleteShader (t : ShaderType)
| linkProgram
| initBuffers
| setupTexture
| texImage2D (w h : nat) (pixels : list Byte.byte)
| useProgram
| viewport (x y w h : nat)
| drawArrays (first count : nat).

(** [loadShader]: the second component is [false] when an [Error] is
    thrown, after [deleteShader]. *)
Definition loadShader (gl : GlContext) (t : ShaderType) (calls : list GlCall)
    : list GlCall * bool :=
  let calls := calls ++ [compileShader t] in
  if COMPILE_STATUS gl t then (calls, true)
  else (calls ++ [deleteShader t], false).

(** [initShaderProgram]: the second component is [false] when an [Error] is
    thrown. *)
Definition initShaderProgram (gl : GlContext) (calls : list GlCall)
    : list GlCall * bool :=
  let '(calls, ok) := loadShader gl VERTEX_SHADER calls in
  if ok then
    let '(calls, ok) := loadShader gl FRAGMENT_SHADER calls in
    if ok then
      let calls := calls ++ [linkProgram] in
      (calls, LINK_STATUS gl)
    else (calls, false)
  else (calls, false).

Section WithNum.
Context {num : Type} `{JsNum num}.
Local Open Scope num_scope.

(** The closures created by one call of [webGl]. *)
Record Closures := mkClosures {
  onResizeLayer_h : handle;
  onResizeFrame_h : handle;
  onFrame_h : handle;
  onExit_h : handle;
}.

Record State := mkState {
  layers : Layers num;
  ci : CommandInterface num;
  closures : Closures;
  containerWidth : num;
  containerHeight : num;
  frameWidth : nat;
  frameHeight : nat;
  gl : list GlCall;
}.

Definition onResize (containerWidth containerHeight frameWidth frameHeight : num)
    (canvas : Canvas num) : Canvas num :=
  let aspect := frameWidth / frameHeight in
  let width := containerWidth in
  let height := containerWidth / aspect in
  let '(width, height) :=
    if height >? containerHeight
    then (containerHeight * aspect, containerHeight)
    else (width, height) in
  mkCanvas
    (mkStyle (keyword "relative")
       (px ((containerHeight - height) / num_of_nat 2))
       (px ((containerWidth - width) / num_of_nat 2))
       (px width)
       (px height))
    (canvas_width canvas) (canvas_height canvas)
    (has_2d canvas) (has_webgl canvas).

Definition call_onResize (s : State) : State :=
  mkState
    (set_canvas
       (onResize (containerWidth s) (containerHeight s)
          (num_of_nat (frameWidth s)) (num_of_nat (frameHeight s))
          (canvas (layers s)))
       (layers s))
    (ci s) (closures s) (containerWidth s) (containerHeight s)
    (frameWidth s) (frameHeight s) (gl s).

Definition onResizeLayer (w h : num) (s : State) : State :=
  call_onResize
    (mkState (layers s) (ci s) (closures s) w h
       (frameWidth s) (frameHeight s) (gl s)).

Definition onResizeFrame (w h : nat) (s : State) : State :=
  call_onResize
    (mkState
       (set_canvas
          (mkCanvas (style (canvas (layers s))) w h
             (has_2d (canvas (layers s))) (has_webgl (canvas (layers s))))
          (layers s))
       (ci s) (closures s) (containerWidth s) (containerHeight s)
       w h (gl s ++ [viewport 0 0 w h])).

Definition onFrameHandler (rgb : list Byte.byte) (s : State) : State :=
  mkState (layers s) (ci s) (closures s) (containerWidth s) (containerHeight s)
    (frameWidth s) (frameHeight s)
    (gl s ++ [texImage2D (frameWidth s) (frameHeight s) rgb; drawArrays 0 6]).

Definition onExitHandler (s : State) : State :=
  mkState (removeOnResize (onResizeLayer_h (closures s)) (layers s))
    (ci s) (closures s) (containerWidth s) (containerHeight s)
    (frameWidth s) (frameHeight s) (gl s).

Definition with_ci (c : CommandInterface num) (s : State) : State :=
  mkState (layers s) c (closures s) (containerWidth s) (containerHeight s)
    (frameWidth s) (frameHeight s) (gl s).

(** The body of [webGl]; [None] is a thrown [Error]: no WebGL context, a
    shader that does not compile or a program that does not link. *)
Definition webGl (layers0 : Layers num) (ci0 : CommandInterface num)
    (cl : Closures) (ctx : GlContext) : option State :=
  if has_webgl (canvas layers0) then
    let '(calls, ok) := initShaderProgram ctx [] in
    if ok then
      let calls :=
        calls ++ [initBuffers; setupTexture;
                  texImage2D 1 1 [Byte.x00; Byte.x00; Byte.x00]; useProgram] in
      let s := mkState (addOnResize (onResizeLayer_h cl) layers0) ci0 cl
                 (layers_width layers0) (layers_height layers0) 0 0 calls in
      let s := with_ci (subscribe onFrameSize (onResizeFrame_h cl) (ci s)) s in
      let s := with_ci (subscribe onFrame (onFrame_h cl) (ci s)) s in
      let s := onResizeFrame (ci_width ci0) (ci_height ci0) s in
      let s := with_ci (subscribe onExit (onExit_h cl) (ci s)) s in
      Some s
    else None
  else None.

Inductive Event :=
| Resize (w h : num)
| FrameSize (w h : nat)
| Frame (rgb : list Byte.byte)
| Exit.

Definition step (s : State) (e : Event) : State :=
  match e with
  | Resize w h =>
      if decide (onResizeLayer_h (closures s) ∈ onResizeListeners (layers s))
      then onResizeLayer w h s else s
  | FrameSize w h => onResizeFrame w h s
  | Frame rgb => onFrameHandler rgb s
  | Exit => onExitHandler s
  end.

Definition run (s : State) (evs : list Event) : State := foldl step s evs.

End WithNum.

Arguments State num : clear implicits.
Arguments Event num : clear implicits.

End webGl.

(** ** The two backends side by side *)

(** The same event, as the WebGL backend receives it. *)
Definition event_to_webGl {num} (e : _2d.Event num) : webGl.Event num :=
  match e with
  | _2d.Resize w h => webGl.Resize w h
  | _2d.FrameSize w h => webGl.FrameSize w h
  | _2d.Frame rgb => webGl.Frame rgb
  | _2d.Exit => webGl.Exit
  end.

(** The two backends hold the same layers (with the canvas), the same sizes
    and the same resize listener. *)
Definition same_view {num} (s2 : _2d.State num) (sg : webGl.State num) : Prop :=
  _2d.layers s2 = webGl.layers sg /\
  _2d.containerWidth s2 = webGl.containerWidth sg /\
  _2d.containerHeight s2 = webGl.containerHeight sg /\
  _2d.frameWidth s2 = webGl.frameWidth sg /\
  _2d.frameHeight s2 = webGl.frameHeight sg /\
  _2d.onResizeLayer_h (_2d.closures s2) = webGl.onResizeLayer_h (webGl.closures sg).

(** The two backends show the same canvas and hold the same sizes, and the
    resize listener of the one is registered exactly when that of the other
    is.  The two listeners are two closures. *)
Definition same_display {num} (s2 : _2d.State num) (sg : webGl.State num) : Prop :=
  canvas (_2d.layers s2) = canvas (webGl.layers sg) /\
  _2d.containerWidth s2 = webGl.containerWidth sg /\
  _2d.containerHeight s2 = webGl.containerHeight sg /\
  _2d.frameWidth s2 = webGl.frameWidth sg /\
  _2d.frameHeight s2 = webGl.frameHeight sg /\
  (_2d.onResizeLayer_h (_2d.closures s2) ∈ onResizeListeners (_2d.layers s2) <->
   webGl.onResizeLayer_h (webGl.closures sg) ∈ onResizeListeners (webGl.layers sg)).

(** ** On-screen controls ([src/controls/layers-control.ts]) *)

Module LayersControl.

(** *** Configuration ([layers-config.ts], declarations only) *)

(** A control of the configuration.  The source reads the fields of the
    sub-interfaces ([LayerKeyControl], [LayerSwitchControl], ...) from the
    same object, whatever its [type] is. *)
Record LayerControl := mkLayerControl {
  type : string;
  row : nat;
  column : nat;
  symbol : string;
  mapTo : Z;                (* LayerKeyControl *)
  layerName : string;       (* LayerSwitchControl *)
  direction : string;       (* LayerScreenMoveControl *)
  button : Z;               (* LayerPointerButtonControl *)
}.

Record LayerConfig := mkLayerConfig {
  grid : string;
  title : string;
  controls : list LayerControl;
}.

Record LayersConfig := mkLayersConfig {
  layers : list LayerConfig;
}.

(** *** Property lookup on [factoryMapping]

    [factoryMapping] is an object literal with six own properties.  A
    lookup [factoryMapping[k]] that finds no own property goes on to
    [Object.prototype]. *)

Inductive ControlFactory :=
| createKeyControl_f
| createOptionsControl_f
| createKeyboardControl_f
| createSwitchControl_f
| createScreenMoveControl_f
| createPointerButtonControl_f.

Definition factoryMapping_own : list (string * ControlFactory) :=
  [ ("Key", createKeyControl_f);
    ("Options", createOptionsControl_f);
    ("Keyboard", createKeyboardControl_f);
    ("Switch", createSwitchControl_f);
    ("ScreenMove", createScreenMoveControl_f);
    ("PointerButton", createPointerButtonControl_f) ]%string.

(** The six keys of the mapping. *)
Definition six_keys : list string :=
  ["Key"; "Options"; "Keyboard"; "Switch"; "ScreenMove"; "PointerButton"]%string.

(** The property names of [Object.prototype]. *)
Definition Object_prototype : list string :=
  [ "constructor"; "hasOwnProperty"; "isPrototypeOf"; "propertyIsEnumerable";
    "toLocaleString"; "toString"; "valueOf"; "__proto__";
    "__defineGetter__"; "__defineSetter__";
    "__lookupGetter__"; "__lookupSetter__" ]%string.

Inductive Property :=
| own (f : ControlFactory)
| inherited (name : string)
| undefined.

Fixpoint assoc {A} (k : string) (l : list (string * A)) : option A :=
  match l with
  | [] => None
  | (k', v) :: l => if String.eqb k k' then Some v else assoc k l
  end.

(** [factoryMapping[type]] *)
Definition factoryMapping (type : string) : Property :=
  match assoc type factoryMapping_own with
  | Some f => own f
  | None =>
      if existsb (String.eqb type) Object_prototype then inherited type
      else undefined
  end.

(** [direction.indexOf(s)] *)
Definition indexOf (direction s : string) : Z :=
  match String.index 0 s direction with
  | Some n => Z.of_nat n
  | None => (-1)%Z
  end.

(** [s] occurs in [direction]. *)
Definition contains (direction s : string) : Prop :=
  exists p q : string, direction = (p ++ s ++ q)%string.

(** [l] is the first layer of [layers] whose title is [name]. *)
Definition first_titled (name : string) (layers : list LayerConfig)
    (l : LayerConfig) : Prop :=
  exists pre post : list LayerConfig,
    layers = pre ++ l :: post /\ title l = name /\
    Forall (fun x => title x <> name) pre.

Section WithNum.
Context {num : Type} `{JsNum num}.
Local Open Scope num_scope.

(** *** Grid ([grid.ts], declarations only) *)

Record Cell := mkCell {
  centerX : num;
  centerY : num;
}.

Record GridConfiguration := mkGridConfiguration {
  cells : list (list Cell);
  columnWidth : num;
  rowHeight : num;
  grid_width : num;
  grid_height : num;
}.

(** [getGrid(grid).getConfiguration(width, height)]; [None] when one of the
    two calls throws. *)
Variable getConfiguration : string -> num -> num -> option GridConfiguration.

(** *** Closures *)

(** The handlers passed to [createButton].  Each one keeps the variables it
    captures. *)
Inductive Handler :=
| key_onDown (keyControl : LayerControl)
| key_onUp (keyControl : LayerControl)
| keyboard_onUp
| switch_onUp (switchControl : LayerControl)
| screenMove_onDown (mX mY : num)
| screenMove_onUp
| pointerButton_onDown (pointerButtonControl : LayerControl)
| pointerButton_onUp.

(** The element returned by [createButton(symbol, handlers, size)], with the
    three style properties the factories set on it. *)
Record Button := mkButton {
  button_symbol : string;
  onDown : option Handler;
  onUp : option Handler;
  button_size : num;
  button_position : string;
  button_left : Css num;
  button_top : Css num;
}.

(** The values pushed on [unbindControls]: the closures returned by the six
    factories, and what a call of a member of [Object.prototype] returns. *)
Inductive Value :=
| unbind_button (b : node)
| unbind_keyboard (b : node) (onKeyboardVisibility_h : handle)
| unbind_options (id : nat)
| object_value (c : LayerControl)
| string_value (s : string).

(** Calls into parts of the repository and of the emulator that are outside
    the three files. *)
Inductive External :=
| keyboard_call
| mouse_call
| unbindKeyboard_call
| unbindMouse_call
| options_call (id : nat) (size top right : num)
| options_unbind_call (id : nat)
| setLayersConfig_call (layerName : string).

(** *** State *)

Record World := mkWorld {
  w_layers : Layers num;
  w_ci : CommandInterface num;
  elements : list Button;       (* the elements created so far; a node is
                                   the position of its element here *)
  console : list string;        (* [console.error] *)
  external : list External;
  layerConfig : option LayerConfig;   (* [None] is [undefined] *)
  onResize_h : handle;
  unbindControls : list Value;
}.

Definition with_layers (l : Layers num) (w : World) : World :=
  mkWorld l (w_ci w) (elements w) (console w) (external w) (layerConfig w)
    (onResize_h w) (unbindControls w).

Definition with_ci (c : CommandInterface num) (w : World) : World :=
  mkWorld (w_layers w) c (elements w) (console w) (external w) (layerConfig w)
    (onResize_h w) (unbindControls w).

Definition with_elements (e : list Button) (w : World) : World :=
  mkWorld (w_layers w) (w_ci w) e (console w) (external w) (layerConfig w)
    (onResize_h w) (unbindControls w).

Definition with_console (c : list string) (w : World) : World :=
  mkWorld (w_layers w) (w_ci w) (elements w) c (external w) (layerConfig w)
    (onResize_h w) (unbindControls w).

Definition with_external (e : list External) (w : World) : World :=
  mkWorld (w_layers w) (w_ci w) (elements w) (console w) e (layerConfig w)
    (onResize_h w) (unbindControls w).

Definition with_unbindControls (u : list Value) (w : World) : World :=
  mkWorld (w_layers w) (w_ci w) (elements w) (console w) (external w)
    (layerConfig w) (onResize_h w) u.

Definition set_mouseOverlay (o : list node) (l : Layers num) : Layers num :=
  mkLayers (layers_width l) (layers_height l) (canvas l) (onResizeListeners l)
    o (pointerButton l) (keyboardToggles l) (onKeyboardVisibility l).

Definition set_pointerButton (b : Z) (l : Layers num) : Layers num :=
  mkLayers (layers_width l) (layers_height l) (canvas l) (onResizeListeners l)
    (mouseOverlay l) b (keyboardToggles l) (onKeyboardVisibility l).

Definition set_keyboardToggles (n : nat) (l : Layers num) : Layers num :=
  mkLayers (layers_width l) (layers_height l) (canvas l) (onResizeListeners l)
    (mouseOverlay l) (pointerButton l) n (onKeyboardVisibility l).

Definition set_onKeyboardVisibility (s : gset handle) (l : Layers num)
    : Layers num :=
  mkLayers (layers_width l) (layers_height l) (canvas l) (onResizeListeners l)
    (mouseOverlay l) (pointerButton l) (keyboardToggles l) s.

(** *** Exceptions and state *)

(** [GridError] stands for whatever [getGrid] or [getConfiguration]
    throws. *)
Inductive Error := TypeError | NotFoundError | GridError.

Inductive Result (A : Type) :=
| Ok (a : A)
| Throw (e : Error).
Arguments Ok {A} a.
Arguments Throw {A} e.

Definition M (A : Type) : Type := World -> Result A * World.

Definition ret {A} (a : A) : M A := fun w => (Ok a, w).

Definition throw {A} (e : Error) : M A := fun w => (Throw e, w).

Definition bind {A B} (m : M A) (k : A -> M B) : M B :=
  fun w =>
    match m w with
    | (Ok a, w') => k a w'
    | (Throw e, w') => (Throw e, w')
    end.

Definition modify (f : World -> World) : M unit := fun w => (Ok tt, f w).

Definition get : M World := fun w => (Ok w, w).

Notation "x <- m ;; k" := (bind m (fun x => k))
  (at level 100, m at next level, right associativity).
Notation "m ;; k" := (bind m (fun _ => k))
  (at level 100, right associativity).

(** [for (const x of l) body(x)], for a body without [break]. *)
Fixpoint forOf {A} (l : list A) (body : A -> M unit) : M unit :=
  match l with
  | [] => ret tt
  | x :: l => body x ;; forOf l body
  end.

(** *** DOM and collaborators *)

(** [cells[row][column]], destructured: a row or a cell that is not there
    is [undefined], and reading a property of it throws. *)
Definition cell_at (gridConfig : GridConfiguration) (row column : nat) : M Cell :=
  match cells gridConfig !! row with
  | Some line =>
      match line !! column with
      | Some cell => ret cell
      | None => throw TypeError
      end
  | None => throw TypeError
  end.

(** Modelled from the spec: [createButton(symbol, handlers, size)] of
    [button.ts], which is not among the sources.  It returns a new element,
    kept here as the record of its arguments; the handlers are what a press
    ([onDown]) and a release ([onUp]) of the button run. *)
Definition createButton (symbol : string) (onDown onUp : option Handler)
    (size : num) : M node :=
  fun w =>
    (Ok (length (elements w)),
     with_elements
       (elements w ++ [mkButton symbol onDown onUp size "" (keyword "") (keyword "")])
       w).

(** The three assignments to [button.style]. *)
Definition set_button_style (b : node) (position : string) (left top : Css num)
    : M unit :=
  modify (fun w =>
    with_elements
      (alter (fun e => mkButton (button_symbol e) (onDown e) (onUp e)
                         (button_size e) position left top) b (elements w))
      w).

(** [layers.mouseOverlay.appendChild(b)] *)
Definition appendChild (b : node) : M unit :=
  modify (fun w =>
    with_layers
      (set_mouseOverlay
         (filter (fun n => n ≠ b) (mouseOverlay (w_layers w)) ++ [b])
         (w_layers w))
      w).

(** [layers.mouseOverlay.removeChild(b)]: throws when [b] is not a child. *)
Definition removeChild (b : node) : M unit :=
  fun w =>
    if decide (b ∈ mouseOverlay (w_layers w)) then
      (Ok tt,
       with_layers
         (set_mouseOverlay
            (filter (fun n => n ≠ b) (mouseOverlay (w_layers w)))
            (w_layers w))
         w)
    else (Throw NotFoundError, w).

Definition call_external (e : External) : M unit :=
  modify (fun w => with_external (external w ++ [e]) w).

(** *** The six factories *)

Definition createKeyControl (keyControl : LayerControl)
    (gridConfig : GridConfiguration) : M Value :=
  cell <- cell_at gridConfig (row keyControl) (column keyControl) ;;
  b <- createButton (symbol keyControl)
         (Some (key_onDown keyControl)) (Some (key_onUp keyControl))
         (columnWidth gridConfig) ;;
  set_button_style b "absolute"
    (px (centerX cell - columnWidth gridConfig / num_of_nat 2))
    (px (centerY cell - rowHeight gridConfig / num_of_nat 2)) ;;
  appendChild b ;;
  ret (unbind_button b).

Definition createOptionsControl (keyControl : LayerControl)
    (gridConfig : GridConfiguration) : M Value :=
  cell <- cell_at gridConfig (row keyControl) (column keyControl) ;;
  let top := centerY cell - rowHeight gridConfig / num_of_nat 2 in
  let left := centerX cell - columnWidth gridConfig / num_of_nat 2 in
  let right := grid_width gridConfig - left - columnWidth gridConfig in
  w <- get ;;
  let id := length (external w) in
  call_external (options_call id (columnWidth gridConfig) top right) ;;
  ret (unbind_options id).

Definition createKeyboardControl (keyboardControl : LayerControl)
    (gridConfig : GridConfiguration) : M Value :=
  cell <- cell_at gridConfig (row keyboardControl) (column keyboardControl) ;;
  b <- createButton "keyboard" None (Some keyboard_onUp)
         (columnWidth gridConfig) ;;
  modify (fun w =>
    with_layers
      (set_onKeyboardVisibility
         ({[b]} ∪ onKeyboardVisibility (w_layers w)) (w_layers w))
      w) ;;
  set_button_style b "absolute"
    (px (centerX cell - columnWidth gridConfig / num_of_nat 2))
    (px (centerY cell - rowHeight gridConfig / num_of_nat 2)) ;;
  appendChild b ;;
  ret (unbind_keyboard b b).

Definition createSwitchControl (switchControl : LayerControl)
    (gridConfig : GridConfiguration) : M Value :=
  cell <- cell_at gridConfig (row switchControl) (column switchControl) ;;
  b <- createButton (symbol switchControl) None
         (Some (switch_onUp switchControl)) (columnWidth gridConfig) ;;
  set_button_style b "absolute"
    (px (centerX cell - columnWidth gridConfig / num_of_nat 2))
    (px (centerY cell - rowHeight gridConfig / num_of_nat 2)) ;;
  appendChild b ;;
  ret (unbind_button b).

Definition createScreenMoveControl (screenMoveControl : LayerControl)
    (gridConfig : GridConfiguration) : M Value :=
  cell <- cell_at gridConfig (row screenMoveControl) (column screenMoveControl) ;;
  let mX := num_half in
  let mY := num_half in
  let mY := if (indexOf (direction screenMoveControl) "up" >=? 0)%Z
            then num_of_nat 0 else mY in
  let mY := if (indexOf (direction screenMoveControl) "down" >=? 0)%Z
            then num_of_nat 1 else mY in
  let mX := if (indexOf (direction screenMoveControl) "left" >=? 0)%Z
            then num_of_nat 0 else mX in
  let mX := if (indexOf (direction screenMoveControl) "right" >=? 0)%Z
            then num_of_nat 1 else mX in
  b <- createButton (symbol screenMoveControl)
         (Some (screenMove_onDown mX mY)) (Some screenMove_onUp)
         (columnWidth gridConfig) ;;
  set_button_style b "absolute"
    (px (centerX cell - columnWidth gridConfig / num_of_nat 2))
    (px (centerY cell - rowHeight gridConfig / num_of_nat 2)) ;;
  appendChild b ;;
  ret (unbind_button b).

Definition createPointerButtonControl (pointerButtonControl : LayerControl)
    (gridConfig : GridConfiguration) : M Value :=
  cell <- cell_at gridConfig (row pointerButtonControl)
            (column pointerButtonControl) ;;
  b <- createButton (symbol pointerButtonControl)
         (Some (pointerButton_onDown pointerButtonControl))
         (Some pointerButton_onUp) (columnWidth gridConfig) ;;
  set_button_style b "absolute"
    (px (centerX cell - columnWidth gridConfig / num_of_nat 2))
    (px (centerY cell - rowHeight gridConfig / num_of_nat 2)) ;;
  appendChild b ;;
  ret (unbind_button b).

(** *** Button handlers *)

Definition fire (h : Handler) (w : World) : World :=
  match h with
  | key_onDown keyControl =>
      with_ci (send (sendKeyEvent (mapTo keyControl) true) (w_ci w)) w
  | key_onUp keyControl =>
      with_ci (send (sendKeyEvent (mapTo keyControl) false) (w_ci w)) w
  | keyboard_onUp =>
      with_layers
        (set_keyboardToggles (S (keyboardToggles (w_layers w))) (w_layers w)) w
  | switch_onUp switchControl =>
      with_external
        (external w ++ [setLayersConfig_call (layerName switchControl)]) w
  | screenMove_onDown mX mY =>
      with_ci (send (sendMouseMotion mX mY) (w_ci w)) w
  | screenMove_onUp =>
      with_ci (send (sendMouseMotion num_half num_half) (w_ci w)) w
  | pointerButton_onDown pointerButtonControl =>
      with_layers
        (set_pointerButton (button pointerButtonControl) (w_layers w)) w
  | pointerButton_onUp =>
      with_layers (set_pointerButton 0%Z (w_layers w)) w
  end.

(** *** Calls *)

(** [factory(next, layers, ci, gridConfig, dosInstance)] for an own property
    of [factoryMapping]. *)
Definition call_factory (f : ControlFactory) (next : LayerControl)
    (gridConfig : GridConfiguration) : M Value :=
  match f with
  | createKeyControl_f => createKeyControl next gridConfig
  | createOptionsControl_f => createOptionsControl next gridConfig
  | createKeyboardControl_f => createKeyboardControl next gridConfig
  | createSwitchControl_f => createSwitchControl next gridConfig
  | createScreenMoveControl_f => createScreenMoveControl next gridConfig
  | createPointerButtonControl_f => createPointerButtonControl next gridConfig
  end.

(** The same call when the lookup found a member of [Object.prototype].
    The call has no receiver.  [Object(next)] returns [next];
    [toString] answers for [undefined]; the other members convert their
    missing receiver to an object, which throws, and [__proto__] is not a
    function. *)
Definition call_inherited (name : string) (next : LayerControl) : M Value :=
  if String.eqb name "constructor" then ret (object_value next)
  else if String.eqb name "toString" then ret (string_value "[object Undefined]")
  else throw TypeError.

(** [next()] for an element of [unbindControls]. *)
Definition call_unbind (next : Value) : M unit :=
  match next with
  | unbind_button b => removeChild b
  | unbind_keyboard b h =>
      removeChild b ;;
      modify (fun w =>
        with_layers
          (set_onKeyboardVisibility
             (onKeyboardVisibility (w_layers w) ∖ {[h]}) (w_layers w))
          w)
  | unbind_options id => call_external (options_unbind_call id)
  | object_value _ => throw TypeError
  | string_value _ => throw TypeError
  end.

(** *** [initLayerConfig] *)

(** The body of the second loop of [onResize]. *)
Definition onResize_body (gridConfig : GridConfiguration) (next : LayerControl)
    : M unit :=
  match factoryMapping (type next) with
  | undefined =>
      modify (fun w =>
        with_console
          (console w ++
             ["Factory for control '" ++ type next ++ "' is not defined"]%string)
          w)
  | own f =>
      unbind <- call_factory f next gridConfig ;;
      modify (fun w => with_unbindControls (unbindControls w ++ [unbind]) w)
  | inherited name =>
      unbind <- call_inherited name next ;;
      modify (fun w => with_unbindControls (unbindControls w ++ [unbind]) w)
  end.

Definition onResize (width height : num) : M unit :=
  w <- get ;;
  forOf (unbindControls w) call_unbind ;;
  modify (with_unbindControls []) ;;
  match layerConfig w with
  | None => throw TypeError
  | Some layerConfig =>
      match getConfiguration (grid layerConfig) width height with
      | None => throw GridError
      | Some gridConfig =>
          forOf (controls layerConfig) (onResize_body gridConfig)
      end
  end.

(** The closure returned by [initLayerConfig]. *)
Definition dispose : M unit :=
  modify (fun w => with_layers (removeOnResize (onResize_h w) (w_layers w)) w) ;;
  call_external unbindKeyboard_call ;;
  call_external unbindMouse_call ;;
  w <- get ;;
  forOf (unbindControls w) call_unbind.

(** [initLayerConfig(layerConfig, layers, ci, dosInstance)].  [elements0]
    are the elements that exist before the call and [onResize_h] names the
    [onResize] closure of this call. *)
Definition initLayerConfig (layerConfig : option LayerConfig)
    (layers : Layers num) (ci : CommandInterface num)
    (elements0 : list Button) (onResize_h : handle) : Result unit * World :=
  (call_external keyboard_call ;;
   call_external mouse_call ;;
   modify (fun w => with_layers (addOnResize onResize_h (w_layers w)) w) ;;
   onResize (layers_width layers) (layers_height layers))
  (mkWorld layers ci elements0 [] [] layerConfig onResize_h []).

(** *** Invariant of [unbindControls] *)

(** The node that an element of [unbindControls] removes from the overlay
    when it is called. *)
Definition unbind_node (v : Value) : option node :=
  match v with
  | unbind_button b => Some b
  | unbind_keyboard b _ => Some b
  | _ => None
  end.

(** The element of [unbindControls] is one of the closures that the
    factories return. *)
Definition is_unbind (v : Value) : Prop :=
  match v with
  | object_value _ => False
  | string_value _ => False
  | _ => True
  end.

(** [v] is the kind of closure that the factory [f] returns. *)
Definition made_by (f : ControlFactory) (v : Value) : Prop :=
  match f with
  | createOptionsControl_f => exists id, v = unbind_options id
  | createKeyboardControl_f => exists b, v = unbind_keyboard b b
  | _ => exists b, v = unbind_button b
  end.

(** [v] is the kind of closure that the factory for the type of [c]
    returns. *)
Definition made_for (c : LayerControl) (v : Value) : Prop :=
  match factoryMapping (type c) with
  | own f => made_by f v
  | _ => False
  end.

(** Every element of [unbindControls] is an unbind closure, and the buttons
    they remove are distinct children of the overlay, created earlier. *)
Definition bound (w : World) : Prop :=
  Forall is_unbind (unbindControls w) /\
  NoDup (omap unbind_node (unbindControls w)) /\
  forall b, b ∈ omap unbind_node (unbindControls w) ->
            b ∈ mouseOverlay (w_layers w) /\ b < length (elements w).

(** *** [initLayersControl] *)

(** The [for] loop of [initLayersControl], with its [break]. *)
Fixpoint select_loop (layerName : string) (layers : list LayerConfig)
    (selectedLayer : option LayerConfig) : option LayerConfig :=
  match layers with
  | [] => selectedLayer
  | next :: layers =>
      if String.eqb (title next) layerName then Some next
      else select_loop layerName layers selectedLayer
  end.

(** The layer that [initLayersControl] passes on; [None] is [undefined]. *)
Definition selectLayer (layersConfig : LayersConfig)
    (layerName : option string) : option LayerConfig :=
  let selectedLayer := layers layersConfig !! 0 in
  match layerName with
  | Some layerName => select_loop layerName (layers layersConfig) selectedLayer
  | None => selectedLayer
  end.

Definition initLayersControl (layers0 : Layers num) (layersConfig : LayersConfig)
    (ci : CommandInterface num) (elements0 : list Button) (onResize_h : handle)
    (layerName : option string) : Result unit * World :=
  initLayerConfig (selectLayer layersConfig layerName) layers0 ci
    elements0 onResize_h.

End WithNum.

Arguments Cell num : clear implicits.
Arguments GridConfiguration num : clear implicits.
Arguments Handler num : clear implicits.
Arguments Button num : clear implicits.
Arguments External num : clear implicits.
Arguments World num : clear implicits.
Arguments M num A : clear implicits.
Arguments Ok {A} a.
Arguments Throw {A} e.

End LayersControl.

(** ** Reading a canvas placement back *)

(** The four lengths that [onResize] writes to [canvas.style]. *)
Record Placement (num : Type) := mkPlacement {
  displayed_width : num;
  displayed_height : num;
  top_offset : num;
  left_offset : num;
}.
Arguments mkPlacement {num}.
Arguments displayed_width {num}.
Arguments displayed_height {num}.
Arguments top_offset {num}.
Arguments left_offset {num}.

Definition placement {num} (c : Canvas num) : option (Placement num) :=
  match style c with
  | mkStyle _ (px t) (px l) (px w) (px h) => Some (mkPlacement w h t l)
  | _ => None
  end.

(** Letterboxing as a property of a placement over the rationals: the canvas
    fits the container, keeps the aspect ratio of the frame as a quotient,
    and is centred. *)
Definition letterboxed (containerWidth containerHeight frameWidth frameHeight : Q)
    (p : Placement Q) : Prop :=
  (displayed_width p <= containerWidth /\
   displayed_height p <= containerHeight /\
   displayed_width p / displayed_height p == frameWidth / frameHeight /\
   top_offset p == (containerHeight - displayed_height p) / 2 /\
   left_offset p == (containerWidth - displayed_width p) / 2)%Q.

(** The same with the aspect ratio as a proportion, and as a quotient where
    the displayed height is not zero. *)
Definition letterboxed_proportion
    (containerWidth containerHeight frameWidth frameHeight : Q)
    (p : Placement Q) : Prop :=
  (displayed_width p <= containerWidth /\
   displayed_height p <= containerHeight /\
   displayed_width p * frameHeight == displayed_height p * frameWidth /\
   (~ displayed_height p == 0 ->
    displayed_width p / displayed_height p == frameWidth / frameHeight) /\
   top_offset p == (containerHeight - displayed_height p) / 2 /\
   left_offset p == (containerWidth - displayed_width p) / 2)%Q.

(** ** Notions for the properties of the backends *)

(** The RGBA bytes of [n] pixels of [rgb], from pixel [i] on: the three
    colour bytes as a [Uint8ClampedArray] stores them, then 255. *)
Fixpoint pixels (rgb : list Byte.byte) (i n : nat) : list Byte.byte :=
  match n with
  | 0 => []
  | S n =>
      _2d.toUint8Clamped (rgb !! (3 * i)) ::
      _2d.toUint8Clamped (rgb !! (3 * i + 1)) ::
      _2d.toUint8Clamped (rgb !! (3 * i + 2)) ::
      Byte.xff :: pixels rgb (S i) n
  end.


(** The last [viewport(0, 0, w, h)] among the calls on the WebGL context. *)
Definition last_viewport (calls : list webGl.GlCall) : option (nat * nat) :=
  foldl (fun acc c =>
           match c with
           | webGl.viewport _ _ w h => Some (w, h)
           | _ => acc
           end) None calls.

(** The same for the WebGL backend, whose viewport also has the size of the
    frame. *)
Definition placed_webGl {num} `{JsNum num} (s : webGl.State num) : Prop :=
  canvas (webGl.layers s) =
    webGl.onResize (webGl.containerWidth s) (webGl.containerHeight s)
      (num_of_nat (webGl.frameWidth s)) (num_of_nat (webGl.frameHeight s))
      (canvas (webGl.layers s)) /\
  canvas_width (canvas (webGl.layers s)) = webGl.frameWidth s /\
  canvas_height (canvas (webGl.layers s)) = webGl.frameHeight s /\
  last_viewport (webGl.gl s) = Some (webGl.frameWidth s, webGl.frameHeight s).

(** The canvas touches the container on one axis and is centred, inside
    it, on the other. *)
Definition fills_one_axis (containerWidth containerHeight : Q)
    (p : Placement Q) : Prop :=
  ((displayed_width p == containerWidth /\ left_offset p == 0 /\
    0 <= top_offset p) \/
   (displayed_height p == containerHeight /\ top_offset p == 0 /\
    0 <= left_offset p))%Q.

(** ** Notions for the properties of the controls *)

Section ControlNotions.
Import LayersControl.
Context {num : Type} `{JsNum num}.

(** [cells[row][column]], when there is such a cell. *)
Definition cell_of (gridConfig : GridConfiguration num) (row column : nat)
    : option (Cell num) :=
  match cells gridConfig !! row with
  | Some line => line !! column
  | None => None
  end.

(** The message that [onResize] logs for a type without factory. *)
Definition skip_message (type : string) : string :=
  ("Factory for control '" ++ type ++ "' is not defined")%string.

(** The state after a series of resize events, each handled by [onResize]
    whether the one before threw or not. *)
Definition resize_all
    (getConfiguration : string -> num -> num -> option (GridConfiguration num))
    (sizes : list (num * num)) (w : World num) : World num :=
  foldl (fun w size => (onResize getConfiguration size.1 size.2 w).2) w sizes.

(** What the controls never change from [w] to [w1]: the command interface
    and the fields of [layers] other than the overlay and the keyboard
    visibility listeners stay as they are, and the elements, the console
    and the calls to collaborators only grow at the end. *)
Definition untouched (w w1 : World num) : Prop :=
  w_ci w1 = w_ci w /\
  layers_width (w_layers w1) = layers_width (w_layers w) /\
  layers_height (w_layers w1) = layers_height (w_layers w) /\
  canvas (w_layers w1) = canvas (w_layers w) /\
  onResizeListeners (w_layers w1) = onResizeListeners (w_layers w) /\
  pointerButton (w_layers w1) = pointerButton (w_layers w) /\
  keyboardToggles (w_layers w1) = keyboardToggles (w_layers w) /\
  layerConfig w1 = layerConfig w /\
  onResize_h w1 = onResize_h w /\
  (exists new, elements w1 = elements w ++ new) /\
  (exists new, console w1 = console w ++ new) /\
  (exists new, external w1 = external w ++ new).

(** The overlay holds the children [before] that it had when the controls
    were set up, followed by the buttons of [unbindControls], in the order
    of their creation; these buttons are distinct elements created after
    the first [n0]. *)
Definition overlay_tracks (before : list node) (n0 : nat) (w : World num) : Prop :=
  mouseOverlay (w_layers w) = before ++ omap unbind_node (unbindControls w) /\
  Forall is_unbind (unbindControls w) /\
  NoDup (omap unbind_node (unbindControls w)) /\
  Forall (fun n => n < n0) before /\
  n0 <= length (elements w) /\
  Forall (fun b => n0 <= b < length (elements w))
    (omap unbind_node (unbindControls w)).

End ControlNotions.

(** ** Sample data *)

Module Sample.

Definition style0 : Style Q :=
  mkStyle (keyword "") (keyword "") (keyword "") (keyword "") (keyword "").

Definition canvas0 : Canvas Q := mkCanvas style0 300 150 true true.

Definition layers0 : Layers Q :=
  mkLayers 800%Q 600%Q canvas0 ∅ [] 0%Z 0 ∅.

Definition ci0 : CommandInterface Q := mkCi 320 200 [] [].

Definition closures2d : _2d.Closures := _2d.mkClosures 1 2 3 4.

Definition closuresGl : webGl.Closures := webGl.mkClosures 5 6 7 8.

Definition gl0 : webGl.GlContext := webGl.mkGlContext (fun _ => true) true.

(** A frame of two pixels by one. *)
Definition ci1 : CommandInterface Q := mkCi 2 1 [] [].

Definition fallback2d : _2d.State Q :=
  _2d.mkState layers0 ci1 closures2d 0%Q 0%Q 0 0 [] [].

Definition state2d : _2d.State Q :=
  match _2d._2d layers0 ci1 closures2d with
  | Some s => s
  | None => fallback2d
  end.

Definition fallbackGl : webGl.State Q :=
  webGl.mkState layers0 ci1 closuresGl 0%Q 0%Q 0 0 [].

Definition stateGl : webGl.State Q :=
  match webGl.webGl layers0 ci1 closuresGl gl0 with
  | Some s => s
  | None => fallbackGl
  end.

Definition rgb1 : list Byte.byte :=
  [Byte.x01; Byte.x02; Byte.x03; Byte.x04; Byte.x05; Byte.x06].

(** A grid of one cell, whatever the grid type and the size. *)
Definition getConfiguration (grid : string) (width height : Q)
    : option (LayersControl.GridConfiguration Q) :=
  Some (LayersControl.mkGridConfiguration
          [[LayersControl.mkCell 400%Q 300%Q]] 100%Q 100%Q width height).

Definition gridConfig : LayersControl.GridConfiguration Q :=
  LayersControl.mkGridConfiguration
    [[LayersControl.mkCell 400%Q 300%Q]] 100%Q 100%Q 800%Q 600%Q.

Definition control (type : string) : LayersControl.LayerControl :=
  LayersControl.mkLayerControl type 0 0 "A" 65%Z "other" "up-left" 2%Z.

Definition layer (title : string) (types : list string)
    : LayersControl.LayerConfig :=
  LayersControl.mkLayerConfig "square" title (control <$> types).

Definition world (types : list string) : LayersControl.World Q :=
  LayersControl.mkWorld layers0 ci0 [] [] [] (Some (layer "main" types)) 9 [].

End Sample.

(** A canvas that gives a 2D context and no WebGL context. *)
Module Sample2d.

Definition canvas0 : Canvas Q := mkCanvas Sample.style0 300 150 true false.

Definition layers0 : Layers Q :=
  mkLayers 800%Q 600%Q canvas0 ∅ [] 0%Z 0 ∅.

Definition state2d : _2d.State Q :=
  match _2d._2d layers0 Sample.ci1 Sample.closures2d with
  | Some s => s
  | None => Sample.fallback2d
  end.

End Sample2d.

(** * Properties *)

(** ** Canvas placement *)

Section Placement.
Context {num : Type} `{JsNum num}.

Lemma onResize_webGl_2d (cw ch fw fh : num) (c : Canvas num) :
  webGl.onResize cw ch fw fh c = _2d.onResize cw ch fw fh c.
Proof. reflexivity. Qed.

(** C2: for every container size and frame size, [onResize] of [_2d] and
    [onResize] of [webGl] write the same displayed width, height, top offset
    and left offset (and leave the same canvas altogether). *)
Theorem onResize_same_placement (cw ch fw fh : num) (c : Canvas num) :
  placement (_2d.onResize cw ch fw fh c) = placement (webGl.onResize cw ch fw fh c)
  /\ is_Some (placement (_2d.onResize cw ch fw fh c))
  /\ _2d.onResize cw ch fw fh c = webGl.onResize cw ch fw fh c.
Proof.
  split; [now rewrite <- onResize_webGl_2d|]. split; [|reflexivity].
  unfold _2d.onResize, placement. simpl.
  destruct (num_gt _ _); simpl; eauto.
Qed.

Lemma step_same_view (s2 : _2d.State num) (sg : webGl.State num)
    (e : _2d.Event num) :
  same_view s2 sg -> same_view (_2d.step s2 e) (webGl.step sg (event_to_webGl e)).
Proof.
  destruct s2, sg. unfold same_view. simpl.
  intros (-> & -> & -> & -> & -> & Hh).
  destruct e as [w h|w h|rgb|]; simpl; rewrite ?Hh.
  - destruct (decide _); simpl; auto 10.
  - auto 10.
  - auto 10.
  - auto 10.
Qed.

(** After the same events the two backends show the same canvas. *)
Lemma run_same_view (evs : list (_2d.Event num)) :
  forall (s2 : _2d.State num) (sg : webGl.State num),
    same_view s2 sg ->
    same_view (_2d.run s2 evs) (webGl.run sg (event_to_webGl <$> evs)).
Proof.
  induction evs as [|e evs IH]; intros s2 sg Hv; [exact Hv|].
  apply IH, step_same_view, Hv.
Qed.

Lemma init_same_view (layers0 : Layers num) (ci0 : CommandInterface num)
    (cl2 : _2d.Closures) (clg : webGl.Closures) (ctx : webGl.GlContext)
    (s2 : _2d.State num) (sg : webGl.State num) :
  _2d.onResizeLayer_h cl2 = webGl.onResizeLayer_h clg ->
  _2d._2d layers0 ci0 cl2 = Some s2 ->
  webGl.webGl layers0 ci0 clg ctx = Some sg ->
  same_view s2 sg.
Proof.
  intros Hh. unfold _2d._2d, webGl.webGl.
  destruct (has_2d _); [|discriminate].
  destruct (has_webgl _); [|discriminate].
  destruct (webGl.initShaderProgram ctx []) as [calls [|]]; [|discriminate].
  intros [= <-] [= <-]. unfold same_view. simpl. rewrite Hh. auto 10.
Qed.

End Placement.

Section Letterbox.
Local Open Scope Q_scope.

Lemma aspect_pos (fw fh : Q) : 0 < fw -> 0 < fh -> 0 < fw / fh.
Proof.
  intros Hw Hh. apply Qlt_shift_div_l; [assumption|]. now rewrite Qmult_0_l.
Qed.

Lemma onResize_placement_Q (cw ch fw fh : Q) (c : Canvas Q) :
  placement (_2d.onResize cw ch fw fh c) =
  Some (if Qle_bool (cw / (fw / fh)) ch
        then mkPlacement cw (cw / (fw / fh))
               ((ch - cw / (fw / fh)) / 2) ((cw - cw) / 2)
        else mkPlacement (ch * (fw / fh)) ch
               ((ch - ch) / 2) ((cw - ch * (fw / fh)) / 2)).
Proof.
  unfold _2d.onResize, placement. simpl.
  destruct (Qle_bool (cw / (fw / fh)) ch); reflexivity.
Qed.

Lemma onResize_letterboxed (cw ch fw fh : Q) (c : Canvas Q) :
  0 < fw -> 0 < fh ->
  exists p, placement (_2d.onResize cw ch fw fh c) = Some p /\
            letterboxed_proportion cw ch fw fh p.
Proof.
  intros Hw Hh. rewrite onResize_placement_Q. eexists. split; [reflexivity|].
  pose proof (aspect_pos fw fh Hw Hh) as Ha.
  assert (Hw0 : ~ fw == 0) by (intros E; rewrite E in Hw; discriminate).
  assert (Hh0 : ~ fh == 0) by (intros E; rewrite E in Hh; discriminate).
  assert (Ha0 : ~ fw / fh == 0) by (intros E; rewrite E in Ha; discriminate).
  unfold letterboxed_proportion.
  destruct (Qle_bool (cw / (fw / fh)) ch) eqn:E; simpl.
  - apply Qle_bool_iff in E.
    repeat split; try reflexivity; try assumption.
    + apply Qle_refl.
    + field. split; assumption.
    + intros Hne. field. repeat split; try assumption.
      intros Hc. apply Hne. rewrite Hc. field. split; assumption.
  - assert (Hlt : ch < cw / (fw / fh)).
    { apply Qnot_le_lt. intros Hle. apply Qle_bool_iff in Hle. congruence. }
    repeat split; try reflexivity.
    + apply Qlt_le_weak.
      assert (Heq : cw / (fw / fh) * (fw / fh) == cw)
        by (field; split; assumption).
      rewrite <- Heq.
      apply Qmult_lt_compat_r; assumption.
    + apply Qle_refl.
    + field. assumption.
    + intros Hne. field. split; assumption.
Qed.

(** C5, amended: for every container size and every frame size with
    [frameWidth > 0] and [frameHeight > 0], over the rationals, [onResize]
    of either backend displays a canvas with [width <= containerWidth],
    [height <= containerHeight],
    [width * frameHeight = height * frameWidth] (so [width / height] is the
    aspect ratio of the frame wherever the displayed height is not zero),
    [top = (containerHeight - height) / 2] and
    [left = (containerWidth - width) / 2]. *)
Theorem onResize_letterbox_proportion (cw ch fw fh : Q) (c : Canvas Q) :
  0 < fw -> 0 < fh ->
  (exists p, placement (_2d.onResize cw ch fw fh c) = Some p /\
             letterboxed_proportion cw ch fw fh p) /\
  (exists p, placement (webGl.onResize cw ch fw fh c) = Some p /\
             letterboxed_proportion cw ch fw fh p).
Proof.
  intros Hw Hh. split; [|change (webGl.onResize cw ch fw fh c)
                               with (_2d.onResize cw ch fw fh c)];
    apply onResize_letterboxed; assumption.
Qed.

Lemma onResize_letterbox_proportion_witness :
  (0 < 320 /\ 0 < 200) /\
  (exists p, placement (_2d.onResize 800 600 320 200 Sample.canvas0) = Some p /\
             letterboxed_proportion 800 600 320 200 p) /\
  (exists p, placement (webGl.onResize 800 600 320 200 Sample.canvas0) = Some p /\
             letterboxed_proportion 800 600 320 200 p).
Proof.
  split; [split; reflexivity|].
  apply (onResize_letterbox_proportion 800 600 320 200 Sample.canvas0);
    reflexivity.
Defined.

(** C5 as stated fails for a container of width 0 and height 0 around a
    frame of 4 by 3: the displayed width and height are both 0, and their
    quotient is not 4/3. *)
Lemma onResize_letterboxed_counterexample :
  0 < 4 /\ 0 < 3 /\
  exists p, placement (_2d.onResize 0 0 4 3 Sample.canvas0) = Some p /\
            displayed_width p == 0 /\ displayed_height p == 0 /\
            ~ letterboxed 0 0 4 3 p.
Proof.
  split; [reflexivity|]. split; [reflexivity|].
  eexists. split; [reflexivity|]. simpl.
  split; [reflexivity|]. split; [reflexivity|].
  intros (_ & _ & Hratio & _). simpl in Hratio. discriminate Hratio.
Qed.

End Letterbox.

(** ** The frame loop of the 2D backend *)

Section FrameLoop.

Lemma convert_unfold rgb ro ra rgba :
  _2d.convert rgb ro ra rgba =
  if decide (ra < length rgba) then
    _2d.convert rgb (ro + 3) (ra + 4)
      (<[ra + 3 := Byte.xff]>
        (<[ra + 2 := _2d.toUint8Clamped (rgb !! (ro + 2))]>
          (<[ra + 1 := _2d.toUint8Clamped (rgb !! (ro + 1))]>
            (<[ra := _2d.toUint8Clamped (rgb !! ro)]> rgba))))
  else rgba.
Proof.
  simp convert.
  destruct (decide (ra < length rgba)) as [Hlt|Hge]; [|reflexivity].
  simpl. simp convert. reflexivity.
Qed.

Lemma quad_insert (a : nat) (v0 v1 v2 v3 : Byte.byte) (l : list Byte.byte) :
  a + 3 < length l ->
  let l' := <[a + 3 := v3]> (<[a + 2 := v2]> (<[a + 1 := v1]> (<[a := v0]> l))) in
  length l' = length l /\
  l' !! a = Some v0 /\ l' !! (a + 1) = Some v1 /\
  l' !! (a + 2) = Some v2 /\ l' !! (a + 3) = Some v3 /\
  (forall j, j < a -> l' !! j = l !! j).
Proof.
  intros Hlen l'. subst l'.
  split; [now rewrite !length_insert|].
  repeat split.
  - rewrite !list_lookup_insert_ne by lia.
    apply list_lookup_insert_eq. lia.
  - rewrite !list_lookup_insert_ne by lia.
    apply list_lookup_insert_eq. rewrite !length_insert. lia.
  - rewrite !list_lookup_insert_ne by lia.
    apply list_lookup_insert_eq. rewrite !length_insert. lia.
  - apply list_lookup_insert_eq. rewrite !length_insert. lia.
  - intros j Hj. now rewrite !list_lookup_insert_ne by lia.
Qed.

(** The loop invariant: started at pixel [k] of a buffer of [n] pixels, the
    loop leaves the pixels before [k] alone and fills every pixel from [k]
    on. *)
Lemma convert_from (rgb : list Byte.byte) (n d : nat) :
  forall (k : nat) (rgba : list Byte.byte),
    n - k = d -> k <= n -> length rgba = 4 * n ->
    let r := _2d.convert rgb (3 * k) (4 * k) rgba in
    length r = 4 * n /\
    (forall j, j < 4 * k -> r !! j = rgba !! j) /\
    (forall i, k <= i < n ->
       r !! (4 * i) = Some (_2d.toUint8Clamped (rgb !! (3 * i))) /\
       r !! (4 * i + 1) = Some (_2d.toUint8Clamped (rgb !! (3 * i + 1))) /\
       r !! (4 * i + 2) = Some (_2d.toUint8Clamped (rgb !! (3 * i + 2))) /\
       r !! (4 * i + 3) = Some Byte.xff).
Proof.
  induction d as [|d IH]; intros k rgba Hd Hk Hlen r; subst r;
    rewrite convert_unfold.
  - destruct (decide (4 * k < length rgba)) as [Hlt|_]; [lia|].
    split; [assumption|]. split; [reflexivity|]. intros i Hi. lia.
  - destruct (decide (4 * k < length rgba)) as [_|Hge]; [|lia].
    destruct (quad_insert (4 * k)
                (_2d.toUint8Clamped (rgb !! (3 * k)))
                (_2d.toUint8Clamped (rgb !! (3 * k + 1)))
                (_2d.toUint8Clamped (rgb !! (3 * k + 2)))
                Byte.xff rgba ltac:(lia))
      as (Hl' & H0 & H1 & H2 & H3 & Hold).
    set (rgba' := <[4 * k + 3 := _]> _) in *.
    replace (3 * k + 3) with (3 * S k) by lia.
    replace (4 * k + 4) with (4 * S k) by lia.
    destruct (IH (S k) rgba' ltac:(lia) ltac:(lia) ltac:(lia))
      as (Hlen' & Hkeep & Hfill).
    split; [assumption|]. split.
    + intros j Hj. rewrite Hkeep by lia. apply Hold. assumption.
    + intros i Hi. destruct (decide (i = k)) as [->|Hne].
      * rewrite !Hkeep by lia. auto.
      * apply Hfill. lia.
Qed.

Lemma convert_length (rgb rgba : list Byte.byte) (n : nat) :
  length rgba = 4 * n -> length (_2d.convert rgb 0 0 rgba) = 4 * n.
Proof.
  intros Hlen.
  destruct (convert_from rgb n n 0 rgba ltac:(lia) ltac:(lia) Hlen) as (Hr & _).
  exact Hr.
Qed.

Context {num : Type} `{JsNum num}.

Lemma rgba_sized_step (s : _2d.State num) (e : _2d.Event num) :
  _2d.rgba_sized s -> _2d.rgba_sized (_2d.step s e).
Proof.
  unfold _2d.rgba_sized. intros Hs. destruct e as [w h|w h|rgb|]; simpl.
  - destruct (decide _); [|assumption]. exact Hs.
  - rewrite length_replicate. lia.
  - apply convert_length. exact Hs.
  - exact Hs.
Qed.

Lemma rgba_sized_run (evs : list (_2d.Event num)) :
  forall s, _2d.rgba_sized s -> _2d.rgba_sized (_2d.run s evs).
Proof.
  induction evs as [|e evs IH]; intros s Hs; [exact Hs|].
  apply IH, rgba_sized_step, Hs.
Qed.

Lemma rgba_sized_init (layers0 : Layers num) (ci0 : CommandInterface num)
    (cl : _2d.Closures) (s0 : _2d.State num) :
  _2d._2d layers0 ci0 cl = Some s0 -> _2d.rgba_sized s0.
Proof.
  unfold _2d._2d. destruct (has_2d _); [|discriminate].
  intros [= <-]. unfold _2d.rgba_sized. simpl. rewrite length_replicate. lia.
Qed.

(** C3, amended: on a frame event the 2D backend fills [rgba] from [rgb]:
    for every pixel index [i < frameWidth * frameHeight] the alpha byte
    [rgba[4i+3]] is 255 and, for each colour channel [c] of 0, 1 and 2,
    [rgba[4i+c]] is [rgb[3i+c]] when [rgb] holds that byte and 0 when it
    does not; the image is then put at (0, 0).  The state is any state the
    backend reaches. *)
Theorem onFrame_rgb_to_rgba (layers0 : Layers num) (ci0 : CommandInterface num)
    (cl : _2d.Closures) (s0 : _2d.State num) (evs : list (_2d.Event num))
    (rgb : list Byte.byte) :
  _2d._2d layers0 ci0 cl = Some s0 ->
  let s := _2d.run s0 evs in
  let s' := _2d.step s (_2d.Frame rgb) in
  Byte.to_N Byte.xff = 255%N /\
  Byte.to_N Byte.x00 = 0%N /\
  (forall i, i < _2d.frameWidth s * _2d.frameHeight s ->
     _2d.rgba s' !! (4 * i + 3) = Some Byte.xff /\
     forall c, c < 3 ->
       (3 * i + c < length rgb ->
        _2d.rgba s' !! (4 * i + c) = rgb !! (3 * i + c)) /\
       (length rgb <= 3 * i + c ->
        _2d.rgba s' !! (4 * i + c) = Some Byte.x00)) /\
  _2d.context s' =
    _2d.context s ++
      [_2d.putImageData (_2d.rgba s') (_2d.frameWidth s) (_2d.frameHeight s) 0 0] /\
  _2d.frameWidth s' = _2d.frameWidth s /\
  _2d.frameHeight s' = _2d.frameHeight s.
Proof.
  intros Hinit s s'.
  assert (Hs : _2d.rgba_sized s)
    by (apply rgba_sized_run, (rgba_sized_init _ _ _ _ Hinit)).
  split; [reflexivity|]. split; [reflexivity|]. split; [|repeat split].
  intros i Hi.
  destruct (convert_from rgb (_2d.frameWidth s * _2d.frameHeight s) _ 0
              (_2d.rgba s) eq_refl ltac:(lia) Hs) as (_ & _ & Hfill).
  change (3 * 0) with 0 in Hfill. change (4 * 0) with 0 in Hfill.
  destruct (Hfill i ltac:(lia)) as (H0 & H1 & H2 & H3).
  split; [exact H3|].
  assert (Hbyte : forall c, c < 3 ->
            _2d.rgba s' !! (4 * i + c)
            = Some (_2d.toUint8Clamped (rgb !! (3 * i + c)))).
  { intros c Hc. subst s'. unfold _2d.step, _2d.onFrameHandler. cbn [_2d.rgba].
    destruct c as [|[|[|c]]]; [| | |lia].
    - replace (4 * i + 0) with (4 * i) by lia.
      replace (3 * i + 0) with (3 * i) by lia. exact H0.
    - exact H1.
    - exact H2. }
  intros c Hc. rewrite (Hbyte c Hc). split; intros Hlen.
  - destruct (lookup_lt_is_Some_2 rgb (3 * i + c) Hlen) as [b ->]. reflexivity.
  - rewrite (lookup_ge_None_2 rgb (3 * i + c)) by lia. reflexivity.
Qed.

End FrameLoop.

Lemma onFrame_rgb_to_rgba_witness :
  _2d._2d Sample.layers0 Sample.ci1 Sample.closures2d = Some Sample.state2d /\
  let s := _2d.run Sample.state2d [] in
  let s' := _2d.step s (_2d.Frame Sample.rgb1) in
  Byte.to_N Byte.xff = 255%N /\
  Byte.to_N Byte.x00 = 0%N /\
  (forall i, i < _2d.frameWidth s * _2d.frameHeight s ->
     _2d.rgba s' !! (4 * i + 3) = Some Byte.xff /\
     forall c, c < 3 ->
       (3 * i + c < length Sample.rgb1 ->
        _2d.rgba s' !! (4 * i + c) = Sample.rgb1 !! (3 * i + c)) /\
       (length Sample.rgb1 <= 3 * i + c ->
        _2d.rgba s' !! (4 * i + c) = Some Byte.x00)) /\
  _2d.context s' =
    _2d.context s ++
      [_2d.putImageData (_2d.rgba s') (_2d.frameWidth s) (_2d.frameHeight s) 0 0] /\
  _2d.frameWidth s' = _2d.frameWidth s /\
  _2d.frameHeight s' = _2d.frameHeight s.
Proof.
  split; [reflexivity|].
  apply (onFrame_rgb_to_rgba Sample.layers0 Sample.ci1 Sample.closures2d
           Sample.state2d [] Sample.rgb1).
  reflexivity.
Defined.


(** ** Subscriptions and the resize listener *)

Section Subscriptions.
Context {num : Type} {Hnum : JsNum num}.

Lemma step_2d_ci (s : _2d.State num) (e : _2d.Event num) :
  _2d.ci (_2d.step s e) = _2d.ci s.
Proof. destruct e; simpl; try reflexivity. destruct (decide _); reflexivity. Qed.

Lemma run_2d_ci (evs : list (_2d.Event num)) :
  forall s, _2d.ci (_2d.run s evs) = _2d.ci s.
Proof.
  induction evs as [|e evs IH]; intros s; [reflexivity|].
  unfold _2d.run in *. simpl. rewrite IH. apply step_2d_ci.
Qed.

Lemma step_2d_closures (s : _2d.State num) (e : _2d.Event num) :
  _2d.closures (_2d.step s e) = _2d.closures s.
Proof. destruct e; simpl; try reflexivity. destruct (decide _); reflexivity. Qed.

Lemma step_2d_listeners (s : _2d.State num) (e : _2d.Event num) :
  onResizeListeners (_2d.layers (_2d.step s e)) ∖ {[_2d.onResizeLayer_h (_2d.closures s)]}
  = onResizeListeners (_2d.layers s) ∖ {[_2d.onResizeLayer_h (_2d.closures s)]}.
Proof.
  destruct e; simpl; try reflexivity.
  - destruct (decide _); reflexivity.
  - set_solver.
Qed.

Lemma run_2d_listeners (evs : list (_2d.Event num)) :
  forall s,
    _2d.closures (_2d.run s evs) = _2d.closures s /\
    onResizeListeners (_2d.layers (_2d.run s evs)) ∖ {[_2d.onResizeLayer_h (_2d.closures s)]}
    = onResizeListeners (_2d.layers s) ∖ {[_2d.onResizeLayer_h (_2d.closures s)]}.
Proof.
  induction evs as [|e evs IH]; intros s; [split; reflexivity|].
  unfold _2d.run in *. simpl.
  destruct (IH (_2d.step s e)) as [Hc Hl].
  rewrite step_2d_closures in Hc, Hl. split; [exact Hc|].
  rewrite Hl. apply step_2d_listeners.
Qed.

Lemma step_webGl_ci (s : webGl.State num) (e : webGl.Event num) :
  webGl.ci (webGl.step s e) = webGl.ci s.
Proof. destruct e; simpl; try reflexivity. destruct (decide _); reflexivity. Qed.

Lemma run_webGl_ci (evs : list (webGl.Event num)) :
  forall s, webGl.ci (webGl.run s evs) = webGl.ci s.
Proof.
  induction evs as [|e evs IH]; intros s; [reflexivity|].
  unfold webGl.run in *. simpl. rewrite IH. apply step_webGl_ci.
Qed.

Lemma step_webGl_closures (s : webGl.State num) (e : webGl.Event num) :
  webGl.closures (webGl.step s e) = webGl.closures s.
Proof. destruct e; simpl; try reflexivity. destruct (decide _); reflexivity. Qed.

Lemma step_webGl_listeners (s : webGl.State num) (e : webGl.Event num) :
  onResizeListeners (webGl.layers (webGl.step s e)) ∖ {[webGl.onResizeLayer_h (webGl.closures s)]}
  = onResizeListeners (webGl.layers s) ∖ {[webGl.onResizeLayer_h (webGl.closures s)]}.
Proof.
  destruct e; simpl; try reflexivity.
  - destruct (decide _); reflexivity.
  - set_solver.
Qed.

Lemma run_webGl_listeners (evs : list (webGl.Event num)) :
  forall s,
    webGl.closures (webGl.run s evs) = webGl.closures s /\
    onResizeListeners (webGl.layers (webGl.run s evs)) ∖ {[webGl.onResizeLayer_h (webGl.closures s)]}
    = onResizeListeners (webGl.layers s) ∖ {[webGl.onResizeLayer_h (webGl.closures s)]}.
Proof.
  induction evs as [|e evs IH]; intros s; [split; reflexivity|].
  unfold webGl.run in *. simpl.
  destruct (IH (webGl.step s e)) as [Hc Hl].
  rewrite step_webGl_closures in Hc, Hl. split; [exact Hc|].
  rewrite Hl. apply step_webGl_listeners.
Qed.

Lemma init_2d (layers0 : Layers num) (ci0 : CommandInterface num)
    (cl : _2d.Closures) (s : _2d.State num) :
  _2d._2d layers0 ci0 cl = Some s ->
  _2d.closures s = cl /\
  subscriptions (_2d.ci s) =
    subscriptions ci0 ++
      [(onFrameSize, _2d.onResizeFrame_h cl); (onFrame, _2d.onFrame_h cl);
       (onExit, _2d.onExit_h cl)] /\
  commands (_2d.ci s) = commands ci0 /\
  onResizeListeners (_2d.layers s) =
    {[_2d.onResizeLayer_h cl]} ∪ onResizeListeners layers0.
Proof.
  unfold _2d._2d. destruct (has_2d _); [|discriminate].
  intros [= <-]. simpl. rewrite <- !app_assoc. auto.
Qed.

Lemma init_webGl (layers0 : Layers num) (ci0 : CommandInterface num)
    (cl : webGl.Closures) (ctx : webGl.GlContext) (s : webGl.State num) :
  webGl.webGl layers0 ci0 cl ctx = Some s ->
  webGl.closures s = cl /\
  subscriptions (webGl.ci s) =
    subscriptions ci0 ++
      [(onFrameSize, webGl.onResizeFrame_h cl); (onFrame, webGl.onFrame_h cl);
       (onExit, webGl.onExit_h cl)] /\
  commands (webGl.ci s) = commands ci0 /\
  onResizeListeners (webGl.layers s) =
    {[webGl.onResizeLayer_h cl]} ∪ onResizeListeners layers0.
Proof.
  unfold webGl.webGl. destruct (has_webgl _); [|discriminate].
  destruct (webGl.initShaderProgram ctx []) as [calls [|]]; [|discriminate].
  intros [= <-]. simpl. rewrite <- !app_assoc. auto.
Qed.

(** C7: each backend, once its set-up has succeeded, has registered one
    handler on [onFrameSize], [onFrame] and [onExit], in this order, and
    sends no command, whatever events follow; and after the exit event the
    resize listeners of the layers are those from before the set-up,
    [onResizeLayer] being a new closure.  The two backends are taken one
    by one: neither half asks anything of the other backend. *)
Theorem backends_subscribe_and_release
    (layers0 : Layers num) (ci0 : CommandInterface num) :
  (forall (cl2 : _2d.Closures) (s2 : _2d.State num)
          (evs2 : list (_2d.Event num)),
     _2d._2d layers0 ci0 cl2 = Some s2 ->
     _2d.onResizeLayer_h cl2 ∉ onResizeListeners layers0 ->
     subscribed_only ci0 (_2d.ci s2)
       (_2d.ci (_2d.step (_2d.run s2 evs2) _2d.Exit))
       (_2d.onResizeFrame_h cl2) (_2d.onFrame_h cl2) (_2d.onExit_h cl2)
     /\ onResizeListeners (_2d.layers s2) =
          {[_2d.onResizeLayer_h cl2]} ∪ onResizeListeners layers0
     /\ onResizeListeners (_2d.layers (_2d.step (_2d.run s2 evs2) _2d.Exit)) =
          onResizeListeners layers0)
  /\
  (forall (clg : webGl.Closures) (ctx : webGl.GlContext) (sg : webGl.State num)
          (evsg : list (webGl.Event num)),
     webGl.webGl layers0 ci0 clg ctx = Some sg ->
     webGl.onResizeLayer_h clg ∉ onResizeListeners layers0 ->
     subscribed_only ci0 (webGl.ci sg)
       (webGl.ci (webGl.step (webGl.run sg evsg) webGl.Exit))
       (webGl.onResizeFrame_h clg) (webGl.onFrame_h clg) (webGl.onExit_h clg)
     /\ onResizeListeners (webGl.layers sg) =
          {[webGl.onResizeLayer_h clg]} ∪ onResizeListeners layers0
     /\ onResizeListeners (webGl.layers (webGl.step (webGl.run sg evsg) webGl.Exit)) =
          onResizeListeners layers0).
Proof.
  split.
  - intros cl2 s2 evs2 H2 Hfresh2.
    destruct (init_2d _ _ _ _ H2) as (Hcl & Hsub & Hcmd & Hl).
    split; [|split; [exact Hl|]].
    + unfold subscribed_only. rewrite step_2d_ci, run_2d_ci. auto.
    + destruct (run_2d_listeners evs2 s2) as [Hc Hr].
      simpl. rewrite Hc, Hr, Hl, Hcl. set_solver.
  - intros clg ctx sg evsg Hg Hfreshg.
    destruct (init_webGl _ _ _ _ _ Hg) as (Hcl & Hsub & Hcmd & Hl).
    split; [|split; [exact Hl|]].
    + unfold subscribed_only. rewrite step_webGl_ci, run_webGl_ci. auto.
    + destruct (run_webGl_listeners evsg sg) as [Hc Hr].
      simpl. rewrite Hc, Hr, Hl, Hcl. set_solver.
Qed.

End Subscriptions.

Lemma backends_subscribe_and_release_witness :
  ((_2d._2d Sample2d.layers0 Sample.ci1 Sample.closures2d = Some Sample2d.state2d /\
    webGl.webGl Sample2d.layers0 Sample.ci1 Sample.closuresGl Sample.gl0 = None /\
    (_2d.onResizeLayer_h Sample.closures2d ∉ onResizeListeners Sample2d.layers0))
   /\
   subscribed_only Sample.ci1 (_2d.ci Sample2d.state2d)
     (_2d.ci (_2d.step (_2d.run Sample2d.state2d [_2d.Resize 640%Q 480%Q]) _2d.Exit))
     (_2d.onResizeFrame_h Sample.closures2d) (_2d.onFrame_h Sample.closures2d)
     (_2d.onExit_h Sample.closures2d)
   /\ onResizeListeners (_2d.layers Sample2d.state2d) =
        {[_2d.onResizeLayer_h Sample.closures2d]} ∪ onResizeListeners Sample2d.layers0
   /\ onResizeListeners
        (_2d.layers (_2d.step (_2d.run Sample2d.state2d [_2d.Resize 640%Q 480%Q])
                       _2d.Exit)) =
        onResizeListeners Sample2d.layers0)
  /\
  ((webGl.webGl Sample.layers0 Sample.ci1 Sample.closuresGl Sample.gl0
      = Some Sample.stateGl /\
    (webGl.onResizeLayer_h Sample.closuresGl ∉ onResizeListeners Sample.layers0))
   /\
   subscribed_only Sample.ci1 (webGl.ci Sample.stateGl)
     (webGl.ci (webGl.step (webGl.run Sample.stateGl [webGl.Frame Sample.rgb1]) webGl.Exit))
     (webGl.onResizeFrame_h Sample.closuresGl) (webGl.onFrame_h Sample.closuresGl)
     (webGl.onExit_h Sample.closuresGl)
   /\ onResizeListeners (webGl.layers Sample.stateGl) =
        {[webGl.onResizeLayer_h Sample.closuresGl]} ∪ onResizeListeners Sample.layers0
   /\ onResizeListeners
        (webGl.layers (webGl.step (webGl.run Sample.stateGl [webGl.Frame Sample.rgb1]) webGl.Exit)) =
        onResizeListeners Sample.layers0).
Proof.
  assert (Hf2 : _2d.onResizeLayer_h Sample.closures2d
                ∉ onResizeListeners Sample2d.layers0)
    by apply not_elem_of_empty.
  assert (Hfg : webGl.onResizeLayer_h Sample.closuresGl
                ∉ onResizeListeners Sample.layers0)
    by apply not_elem_of_empty.
  split.
  - split; [split; [reflexivity|split; [reflexivity|exact Hf2]]|].
    exact (proj1 (backends_subscribe_and_release Sample2d.layers0 Sample.ci1)
             Sample.closures2d Sample2d.state2d [_2d.Resize 640%Q 480%Q]
             eq_refl Hf2).
  - split; [split; [reflexivity|exact Hfg]|].
    exact (proj2 (backends_subscribe_and_release Sample.layers0 Sample.ci1)
             Sample.closuresGl Sample.gl0 Sample.stateGl [webGl.Frame Sample.rgb1]
             eq_refl Hfg).
Defined.


(** ** [indexOf] and occurrence *)

Section IndexOf.
Import LayersControl.
Local Open Scope string_scope.

Lemma append_cons (c : Ascii.ascii) (a b : string) :
  String c a ++ b = String c (a ++ b).
Proof. reflexivity. Qed.

Lemma append_nil (b : string) : "" ++ b = b.
Proof. reflexivity. Qed.

Lemma substring_0_split (n : nat) (s : string) :
  exists q : string, s = substring 0 n s ++ q.
Proof.
  revert s. induction n as [|n IHn]; intros s.
  - exists s. destruct s; reflexivity.
  - destruct s as [|c s]; simpl.
    + exists "". reflexivity.
    + destruct (IHn s) as [q Hq]. exists q.
      rewrite append_cons. congruence.
Qed.

Lemma substring_split (m n : nat) (s : string) :
  exists p q : string, s = p ++ substring m n s ++ q.
Proof.
  revert n s. induction m as [|m IHm]; intros n s.
  - destruct (substring_0_split n s) as [q Hq].
    exists "", q. rewrite append_nil. exact Hq.
  - destruct s as [|c s]; simpl.
    + exists "", "". reflexivity.
    + destruct (IHm n s) as (p & q & Hpq).
      exists (String c p), q. rewrite append_cons. congruence.
Qed.

Lemma substring_prefix (s q : string) :
  substring 0 (String.length s) (s ++ q) = s.
Proof.
  induction s as [|c s IH].
  - rewrite append_nil. destruct q; reflexivity.
  - rewrite append_cons. simpl. now rewrite IH.
Qed.

Lemma substring_middle (p s q : string) :
  substring (String.length p) (String.length s) (p ++ s ++ q) = s.
Proof.
  induction p as [|c p IH].
  - rewrite append_nil. apply substring_prefix.
  - rewrite append_cons. simpl. exact IH.
Qed.

Lemma indexOf_contains (direction s : string) :
  s <> "" -> ((indexOf direction s >=? 0)%Z = true <-> contains direction s).
Proof.
  intros Hs. unfold indexOf, contains.
  destruct (index 0 s direction) as [m|] eqn:E.
  - split; [intros _|intros _; apply Z.geb_le; lia].
    apply index_correct1 in E.
    destruct (substring_split m (String.length s) direction) as (p & q & Hpq).
    rewrite E in Hpq. eauto.
  - split; [discriminate|]. intros (p & q & ->). exfalso.
    apply (index_correct3 0 (String.length p) s (p ++ s ++ q) E Hs);
      [lia|apply substring_middle].
Qed.

End IndexOf.

(** ** Button handlers of the controls *)

Section Handlers.
Import LayersControl.
Context {num : Type} {Hnum : JsNum num}.

Lemma alter_last {A} (f : A -> A) (l : list A) (x : A) :
  alter f (length l) (l ++ [x]) = l ++ [f x].
Proof.
  replace (length l) with (length l + 0) by lia.
  rewrite alter_app_r. reflexivity.
Qed.

Lemma cell_at_inv (gridConfig : GridConfiguration num) (r c : nat)
    (w : World num) :
  (exists cell : Cell num, cell_at gridConfig r c w = (Ok cell, w)) \/
  cell_at gridConfig r c w = (Throw TypeError, w).
Proof.
  unfold cell_at. destruct (cells gridConfig !! r) as [line|]; [|now right].
  destruct (line !! c) as [cell|]; [left; eexists; reflexivity|now right].
Qed.

(** C1: the button of a Key control created by [createKeyControl] carries an
    [onDown] handler that sends exactly one key event
    [sendKeyEvent(mapTo, true)] and an [onUp] handler that sends exactly one
    key event [sendKeyEvent(mapTo, false)], [mapTo] being the field of the
    control; neither handler does anything else. *)
Theorem key_control_handlers (keyControl : LayerControl)
    (gridConfig : GridConfiguration num) (w w' : World num) (unbind : Value) :
  createKeyControl keyControl gridConfig w = (Ok unbind, w') ->
  exists (b : Button num) (down up : Handler num),
    elements w' = elements w ++ [b] /\
    onDown b = Some down /\ onUp b = Some up /\
    forall w0 : World num,
      commands (w_ci (fire down w0)) =
        commands (w_ci w0) ++ [sendKeyEvent (mapTo keyControl) true] /\
      commands (w_ci (fire up w0)) =
        commands (w_ci w0) ++ [sendKeyEvent (mapTo keyControl) false] /\
      fire down w0 =
        with_ci (send (sendKeyEvent (mapTo keyControl) true) (w_ci w0)) w0 /\
      fire up w0 =
        with_ci (send (sendKeyEvent (mapTo keyControl) false) (w_ci w0)) w0.
Proof.
  unfold createKeyControl, bind.
  destruct (cell_at_inv gridConfig (row keyControl) (column keyControl) w)
    as [[cell ->]| ->]; [|discriminate].
  simpl. rewrite alter_last. intros [= <- <-]. simpl.
  eexists _, _, _. repeat split.
Qed.

(** C9: the button of a ScreenMove control sends, on [onDown],
    [sendMouseMotion(mX, mY)] where [mX] is 1 if the direction contains
    "right", else 0 if it contains "left", else 0.5, and [mY] is 1 if the
    direction contains "down", else 0 if it contains "up", else 0.5; on
    [onUp] it sends [sendMouseMotion(0.5, 0.5)], whatever the direction. *)
Theorem screen_move_handlers (screenMoveControl : LayerControl)
    (gridConfig : GridConfiguration num) (w w' : World num) (unbind : Value) :
  createScreenMoveControl screenMoveControl gridConfig w = (Ok unbind, w') ->
  exists (b : Button num) (down up : Handler num) (mX mY : num),
    elements w' = elements w ++ [b] /\
    onDown b = Some down /\ onUp b = Some up /\
    (contains (direction screenMoveControl) "right" -> mX = num_of_nat 1) /\
    (~ contains (direction screenMoveControl) "right" ->
     contains (direction screenMoveControl) "left" -> mX = num_of_nat 0) /\
    (~ contains (direction screenMoveControl) "right" ->
     ~ contains (direction screenMoveControl) "left" -> mX = num_half) /\
    (contains (direction screenMoveControl) "down" -> mY = num_of_nat 1) /\
    (~ contains (direction screenMoveControl) "down" ->
     contains (direction screenMoveControl) "up" -> mY = num_of_nat 0) /\
    (~ contains (direction screenMoveControl) "down" ->
     ~ contains (direction screenMoveControl) "up" -> mY = num_half) /\
    forall w0 : World num,
      fire down w0 = with_ci (send (sendMouseMotion mX mY) (w_ci w0)) w0 /\
      fire up w0 =
        with_ci (send (sendMouseMotion num_half num_half) (w_ci w0)) w0 /\
      commands (w_ci (fire down w0)) =
        commands (w_ci w0) ++ [sendMouseMotion mX mY] /\
      commands (w_ci (fire up w0)) =
        commands (w_ci w0) ++ [sendMouseMotion num_half num_half].
Proof.
  unfold createScreenMoveControl, bind.
  destruct (cell_at_inv gridConfig (row screenMoveControl)
              (column screenMoveControl) w) as [[cell ->]| ->]; [|discriminate].
  simpl. rewrite alter_last. intros [= <- <-]. simpl.
  pose proof (indexOf_contains (direction screenMoveControl) "up"
                ltac:(discriminate)) as Hup.
  pose proof (indexOf_contains (direction screenMoveControl) "down"
                ltac:(discriminate)) as Hdown.
  pose proof (indexOf_contains (direction screenMoveControl) "left"
                ltac:(discriminate)) as Hleft.
  pose proof (indexOf_contains (direction screenMoveControl) "right"
                ltac:(discriminate)) as Hright.
  eexists _, _, _,
    (if (indexOf (direction screenMoveControl) "right" >=? 0)%Z
     then num_of_nat 1
     else if (indexOf (direction screenMoveControl) "left" >=? 0)%Z
          then num_of_nat 0 else num_half),
    (if (indexOf (direction screenMoveControl) "down" >=? 0)%Z
     then num_of_nat 1
     else if (indexOf (direction screenMoveControl) "up" >=? 0)%Z
          then num_of_nat 0 else num_half).
  split; [reflexivity|]. split; [reflexivity|]. split; [reflexivity|].
  destruct (indexOf (direction screenMoveControl) "up" >=? 0)%Z;
  destruct (indexOf (direction screenMoveControl) "down" >=? 0)%Z;
  destruct (indexOf (direction screenMoveControl) "left" >=? 0)%Z;
  destruct (indexOf (direction screenMoveControl) "right" >=? 0)%Z;
  repeat match goal with
         | |- _ /\ _ => split
         | |- forall _, _ => intro
         end;
  try reflexivity;
  repeat match goal with
         | Hc : contains _ _, Hiff : false = true <-> contains _ _ |- _ =>
             apply Hiff in Hc; discriminate Hc
         | Hn : ~ contains _ _, Hiff : true = true <-> contains _ _ |- _ =>
             exfalso; apply Hn, Hiff; reflexivity
         end.
Qed.

(** C10: the button of a PointerButton control sets, on [onDown],
    [layers.pointerButton] to the [button] field of the control and, on
    [onUp], to 0, whatever that field is; every other field of [layers],
    and everything outside [layers], is left as it was. *)
Theorem pointer_button_handlers (pointerButtonControl : LayerControl)
    (gridConfig : GridConfiguration num) (w w' : World num) (unbind : Value) :
  createPointerButtonControl pointerButtonControl gridConfig w = (Ok unbind, w') ->
  exists (b : Button num) (down up : Handler num),
    elements w' = elements w ++ [b] /\
    onDown b = Some down /\ onUp b = Some up /\
    forall w0 : World num,
      pointerButton (w_layers (fire down w0)) = button pointerButtonControl /\
      pointerButton (w_layers (fire up w0)) = 0%Z /\
      fire down w0 =
        with_layers
          (set_pointerButton (button pointerButtonControl) (w_layers w0)) w0 /\
      fire up w0 = with_layers (set_pointerButton 0%Z (w_layers w0)) w0 /\
      forall h : Handler num, h = down \/ h = up ->
        layers_width (w_layers (fire h w0)) = layers_width (w_layers w0) /\
        layers_height (w_layers (fire h w0)) = layers_height (w_layers w0) /\
        canvas (w_layers (fire h w0)) = canvas (w_layers w0) /\
        onResizeListeners (w_layers (fire h w0)) = onResizeListeners (w_layers w0) /\
        mouseOverlay (w_layers (fire h w0)) = mouseOverlay (w_layers w0) /\
        keyboardToggles (w_layers (fire h w0)) = keyboardToggles (w_layers w0) /\
        onKeyboardVisibility (w_layers (fire h w0)) =
          onKeyboardVisibility (w_layers w0).
Proof.
  unfold createPointerButtonControl, bind.
  destruct (cell_at_inv gridConfig (row pointerButtonControl)
              (column pointerButtonControl) w) as [[cell ->]| ->]; [|discriminate].
  simpl. rewrite alter_last. intros [= <- <-]. simpl.
  eexists _, _, _.
  split; [reflexivity|]. split; [reflexivity|]. split; [reflexivity|].
  intros w0. do 4 (split; [reflexivity|]).
  intros h [-> | ->]; repeat split.
Qed.

End Handlers.

Section HandlersWitnesses.
Import LayersControl.

Lemma key_control_handlers_witness :
  let keyControl := Sample.control "Key" in
  let w := Sample.world [] in
  let w' := snd (createKeyControl keyControl Sample.gridConfig w) in
  createKeyControl keyControl Sample.gridConfig w = (Ok (unbind_button 0), w') /\
  exists (b : Button Q) (down up : Handler Q),
    elements w' = elements w ++ [b] /\
    onDown b = Some down /\ onUp b = Some up /\
    forall w0 : World Q,
      commands (w_ci (fire down w0)) =
        commands (w_ci w0) ++ [sendKeyEvent (mapTo keyControl) true] /\
      commands (w_ci (fire up w0)) =
        commands (w_ci w0) ++ [sendKeyEvent (mapTo keyControl) false] /\
      fire down w0 =
        with_ci (send (sendKeyEvent (mapTo keyControl) true) (w_ci w0)) w0 /\
      fire up w0 =
        with_ci (send (sendKeyEvent (mapTo keyControl) false) (w_ci w0)) w0.
Proof.
  intros keyControl w w'.
  assert (Hc : createKeyControl keyControl Sample.gridConfig w
               = (Ok (unbind_button 0), w')) by reflexivity.
  split; [exact Hc|].
  exact (key_control_handlers keyControl Sample.gridConfig w w'
           (unbind_button 0) Hc).
Defined.

Lemma screen_move_handlers_witness :
  let screenMoveControl := Sample.control "ScreenMove" in
  let w := Sample.world [] in
  let w' := snd (createScreenMoveControl screenMoveControl Sample.gridConfig w) in
  createScreenMoveControl screenMoveControl Sample.gridConfig w
    = (Ok (unbind_button 0), w') /\
  exists (b : Button Q) (down up : Handler Q) (mX mY : Q),
    elements w' = elements w ++ [b] /\
    onDown b = Some down /\ onUp b = Some up /\
    (contains (direction screenMoveControl) "right" -> mX = num_of_nat 1) /\
    (~ contains (direction screenMoveControl) "right" ->
     contains (direction screenMoveControl) "left" -> mX = num_of_nat 0) /\
    (~ contains (direction screenMoveControl) "right" ->
     ~ contains (direction screenMoveControl) "left" -> mX = num_half) /\
    (contains (direction screenMoveControl) "down" -> mY = num_of_nat 1) /\
    (~ contains (direction screenMoveControl) "down" ->
     contains (direction screenMoveControl) "up" -> mY = num_of_nat 0) /\
    (~ contains (direction screenMoveControl) "down" ->
     ~ contains (direction screenMoveControl) "up" -> mY = num_half) /\
    forall w0 : World Q,
      fire down w0 = with_ci (send (sendMouseMotion mX mY) (w_ci w0)) w0 /\
      fire up w0 =
        with_ci (send (sendMouseMotion num_half num_half) (w_ci w0)) w0 /\
      commands (w_ci (fire down w0)) =
        commands (w_ci w0) ++ [sendMouseMotion mX mY] /\
      commands (w_ci (fire up w0)) =
        commands (w_ci w0) ++ [sendMouseMotion num_half num_half].
Proof.
  intros screenMoveControl w w'.
  assert (Hc : createScreenMoveControl screenMoveControl Sample.gridConfig w
               = (Ok (unbind_button 0), w')) by reflexivity.
  split; [exact Hc|].
  exact (screen_move_handlers screenMoveControl Sample.gridConfig w w'
           (unbind_button 0) Hc).
Defined.

Lemma pointer_button_handlers_witness :
  let pointerButtonControl := Sample.control "PointerButton" in
  let w := Sample.world [] in
  let w' := snd (createPointerButtonControl pointerButtonControl
                   Sample.gridConfig w) in
  createPointerButtonControl pointerButtonControl Sample.gridConfig w
    = (Ok (unbind_button 0), w') /\
  exists (b : Button Q) (down up : Handler Q),
    elements w' = elements w ++ [b] /\
    onDown b = Some down /\ onUp b = Some up /\
    forall w0 : World Q,
      pointerButton (w_layers (fire down w0)) = button pointerButtonControl /\
      pointerButton (w_layers (fire up w0)) = 0%Z /\
      fire down w0 =
        with_layers
          (set_pointerButton (button pointerButtonControl) (w_layers w0)) w0 /\
      fire up w0 = with_layers (set_pointerButton 0%Z (w_layers w0)) w0 /\
      forall h : Handler Q, h = down \/ h = up ->
        layers_width (w_layers (fire h w0)) = layers_width (w_layers w0) /\
        layers_height (w_layers (fire h w0)) = layers_height (w_layers w0) /\
        canvas (w_layers (fire h w0)) = canvas (w_layers w0) /\
        onResizeListeners (w_layers (fire h w0)) = onResizeListeners (w_layers w0) /\
        mouseOverlay (w_layers (fire h w0)) = mouseOverlay (w_layers w0) /\
        keyboardToggles (w_layers (fire h w0)) = keyboardToggles (w_layers w0) /\
        onKeyboardVisibility (w_layers (fire h w0)) =
          onKeyboardVisibility (w_layers w0).
Proof.
  intros pointerButtonControl w w'.
  assert (Hc : createPointerButtonControl pointerButtonControl Sample.gridConfig w
               = (Ok (unbind_button 0), w')) by reflexivity.
  split; [exact Hc|].
  exact (pointer_button_handlers pointerButtonControl Sample.gridConfig w w'
           (unbind_button 0) Hc).
Defined.


End HandlersWitnesses.

(** ** Selecting a layer *)

Section Select.
Import LayersControl.
Context {num : Type} {Hnum : JsNum num}.
Variable getConfiguration : string -> num -> num -> option (GridConfiguration num).

Lemma select_loop_first (name : string) (l : LayerConfig)
    (pre post : list LayerConfig) (selected : option LayerConfig) :
  title l = name -> Forall (fun x => title x <> name) pre ->
  select_loop name (pre ++ l :: post) selected = Some l.
Proof.
  intros Hl Hpre. induction Hpre as [|x pre Hx _ IH]; simpl.
  - apply String.eqb_eq in Hl. now rewrite Hl.
  - apply String.eqb_neq in Hx. now rewrite Hx.
Qed.

Lemma select_loop_none (name : string) (ls : list LayerConfig)
    (selected : option LayerConfig) :
  Forall (fun x => title x <> name) ls -> select_loop name ls selected = selected.
Proof.
  intros Hls. induction Hls as [|x ls Hx _ IH]; simpl; [reflexivity|].
  apply String.eqb_neq in Hx. now rewrite Hx.
Qed.

Lemma initLayerConfig_undefined (layers0 : Layers num)
    (ci : CommandInterface num) (elements0 : list (Button num)) (h : handle) :
  fst (initLayerConfig getConfiguration None layers0 ci elements0 h)
  = Throw TypeError.
Proof. reflexivity. Qed.

(** C8: [initLayersControl] selects the first layer whose title is
    [layerName] when [layerName] is given and there is such a layer, and
    [layers[0]] when [layerName] is not given or no title matches; with an
    empty list of layers the selected layer is [undefined] and the
    initialisation throws. *)
Theorem initLayersControl_selects (layers0 : Layers num)
    (layersConfig : LayersConfig) (ci : CommandInterface num)
    (elements0 : list (Button num)) (h : handle) (layerName : option string) :
  initLayersControl getConfiguration layers0 layersConfig ci elements0 h layerName
  = initLayerConfig getConfiguration (selectLayer layersConfig layerName)
      layers0 ci elements0 h
  /\
  (forall (name : string) (l : LayerConfig),
     layerName = Some name -> first_titled name (layers layersConfig) l ->
     selectLayer layersConfig layerName = Some l)
  /\
  (layerName = None \/
   (exists name : string,
      layerName = Some name /\
      Forall (fun x => title x <> name) (layers layersConfig)) ->
   selectLayer layersConfig layerName = layers layersConfig !! 0)
  /\
  (layers layersConfig = [] ->
   selectLayer layersConfig layerName = None /\
   fst (initLayersControl getConfiguration layers0 layersConfig ci elements0 h
          layerName) = Throw TypeError).
Proof.
  split; [reflexivity|]. split; [|split].
  - intros name l -> (pre & post & Hls & Hl & Hpre).
    unfold selectLayer. rewrite Hls. now apply select_loop_first.
  - intros [-> | (name & -> & Hnone)]; [reflexivity|].
    unfold selectLayer. now apply select_loop_none.
  - intros Hempty.
    assert (Hsel : selectLayer layersConfig layerName = None)
      by (unfold selectLayer; rewrite Hempty; destruct layerName; reflexivity).
    split; [exact Hsel|].
    unfold initLayersControl. rewrite Hsel. apply initLayerConfig_undefined.
Qed.

End Select.

(** ** Dispatch on the control type *)

Section Dispatch.
Import LayersControl.

Lemma factoryMapping_own_keys : factoryMapping_own.*1 = six_keys.
Proof. reflexivity. Qed.

Lemma assoc_None {A} (k : string) (l : list (string * A)) :
  k ∉ l.*1 -> assoc k l = None.
Proof.
  induction l as [|[k' v] l IH]; simpl; intros Hk; [reflexivity|].
  destruct (String.eqb_spec k k') as [->|_]; [|apply IH]; set_solver.
Qed.

Lemma existsb_eqb_false (k : string) (l : list string) :
  k ∉ l -> existsb (String.eqb k) l = false.
Proof.
  induction l as [|k' l IH]; simpl; intros Hk; [reflexivity|].
  destruct (String.eqb_spec k k') as [->|_]; [|apply IH]; set_solver.
Qed.

Lemma assoc_Some {A} (k : string) (l : list (string * A)) (v : A) :
  assoc k l = Some v -> k ∈ l.*1.
Proof.
  induction l as [|[k' v'] l IH]; simpl; [discriminate|].
  destruct (String.eqb_spec k k') as [->|_]; [set_solver|].
  intros Hv. apply elem_of_cons. right. now apply IH.
Qed.

Lemma assoc_In {A} (k : string) (l : list (string * A)) :
  k ∈ l.*1 -> exists v, assoc k l = Some v.
Proof.
  induction l as [|[k' v'] l IH]; simpl; [intros Hk; now apply elem_of_nil in Hk|].
  destruct (String.eqb_spec k k') as [->|Hne]; [eauto|].
  intros [Hk|Hk]%elem_of_cons; [contradiction|now apply IH].
Qed.

Lemma existsb_eqb_true (k : string) (l : list string) :
  existsb (String.eqb k) l = true -> k ∈ l.
Proof.
  induction l as [|k' l IH]; simpl; [discriminate|].
  destruct (String.eqb_spec k k') as [->|_]; [set_solver|].
  intros Hk. apply elem_of_cons. right. now apply IH.
Qed.

Lemma existsb_eqb_false_inv (k : string) (l : list string) :
  existsb (String.eqb k) l = false -> k ∉ l.
Proof.
  induction l as [|k' l IH]; simpl; intros Hk Hin;
    [now apply elem_of_nil in Hin|].
  apply orb_false_iff in Hk as [Ek El].
  apply elem_of_cons in Hin as [->|Hin]; [|now apply IH].
  now rewrite String.eqb_refl in Ek.
Qed.

(** The three outcomes of the lookup. *)
Lemma factoryMapping_cases (type : string) :
  ((type ∈ six_keys) /\ exists f, factoryMapping type = own f) \/
  ((type ∉ six_keys) /\ (type ∈ Object_prototype) /\
   factoryMapping type = inherited type) \/
  ((type ∉ six_keys) /\ (type ∉ Object_prototype) /\
   factoryMapping type = undefined).
Proof.
  unfold factoryMapping. rewrite <- factoryMapping_own_keys.
  destruct (assoc type factoryMapping_own) as [f|] eqn:E.
  - left. split; [now apply assoc_Some in E|eauto].
  - right.
    assert (Hsix : type ∉ factoryMapping_own.*1).
    { intros Hin. apply assoc_In in Hin as [v Hv]. congruence. }
    destruct (existsb (String.eqb type) Object_prototype) eqn:Ep.
    + left. split; [exact Hsix|]. split; [now apply existsb_eqb_true|reflexivity].
    + right. split; [exact Hsix|]. split; [|reflexivity].
      now apply existsb_eqb_false_inv.
Qed.

(** Each of the six keys has its factory. *)
Lemma factoryMapping_six :
  factoryMapping "Key" = own createKeyControl_f /\
  factoryMapping "Options" = own createOptionsControl_f /\
  factoryMapping "Keyboard" = own createKeyboardControl_f /\
  factoryMapping "Switch" = own createSwitchControl_f /\
  factoryMapping "ScreenMove" = own createScreenMoveControl_f /\
  factoryMapping "PointerButton" = own createPointerButtonControl_f.
Proof. repeat split. Qed.

Lemma factoryMapping_undefined (type : string) :
  type ∉ six_keys -> type ∉ Object_prototype -> factoryMapping type = undefined.
Proof.
  intros Hsix Hproto. unfold factoryMapping.
  rewrite assoc_None by (rewrite factoryMapping_own_keys; exact Hsix).
  now rewrite existsb_eqb_false.
Qed.

Context {num : Type} {Hnum : JsNum num}.

Lemma forOf_app {A} (l1 l2 : list A) (body : A -> M num unit) (w : World num) :
  forOf (l1 ++ l2) body w = bind (forOf l1 body) (fun _ => forOf l2 body) w.
Proof.
  revert w. induction l1 as [|x l1 IH]; intros w; simpl; [reflexivity|].
  unfold bind in *. destruct (body x w) as [[[]|e] w1]; [apply IH|reflexivity].
Qed.

(** A control whose type is neither one of the six keys nor a property
    name of [Object.prototype] is skipped: the error is logged, nothing is
    pushed and the loop goes on. *)
Lemma onResize_body_skips (gridConfig : GridConfiguration num)
    (next : LayerControl) (w : World num) :
  type next ∉ six_keys -> type next ∉ Object_prototype ->
  onResize_body gridConfig next w =
    (Ok tt,
     with_console
       (console w ++
          ["Factory for control '" ++ type next ++ "' is not defined"]%string)
       w).
Proof.
  intros Hsix Hproto. unfold onResize_body.
  now rewrite factoryMapping_undefined.
Qed.

Lemma forOf_skips (gridConfig : GridConfiguration num)
    (next : LayerControl) (rest : list LayerControl) (w : World num) :
  type next ∉ six_keys -> type next ∉ Object_prototype ->
  forOf (next :: rest) (onResize_body gridConfig) w =
  forOf rest (onResize_body gridConfig)
    (with_console
       (console w ++
          ["Factory for control '" ++ type next ++ "' is not defined"]%string)
       w).
Proof.
  intros Hsix Hproto. simpl. unfold bind.
  now rewrite onResize_body_skips.
Qed.

End Dispatch.

Section InheritedTypes.
Import LayersControl.
Local Open Scope string_scope.

(** C4, at the type "constructor", which is none of the six keys: the
    control is not skipped.  No error is logged and the control object
    itself is pushed on [unbindControls], before the unbind function of the
    Key control that follows.  At the type "__proto__" the call throws and
    the Key control that follows is not processed. *)
Theorem inherited_type_is_not_skipped :
  ("constructor" ∉ six_keys) /\ ("__proto__" ∉ six_keys) /\
  (let r := onResize Sample.getConfiguration 800%Q 600%Q
              (Sample.world ["constructor"; "Key"]) in
   fst r = Ok tt /\
   console (snd r) = [] /\
   unbindControls (snd r) =
     [object_value (Sample.control "constructor"); unbind_button 0]) /\
  (let r := onResize Sample.getConfiguration 800%Q 600%Q
              (Sample.world ["__proto__"; "Key"]) in
   fst r = Throw TypeError /\
   console (snd r) = [] /\
   unbindControls (snd r) = [] /\
   elements (snd r) = []).
Proof.
  split; [unfold six_keys; set_solver|].
  split; [unfold six_keys; set_solver|].
  split; vm_compute; repeat split.
Qed.

(** C6, with a control of type "toString" after a Key control: the first
    resize leaves a string on [unbindControls], which is no unbind function
    and belongs to no control that was created; the second resize throws on
    calling it, before the list is emptied, so the unbind function of the
    first layout is still on the list although its button has been removed
    from the overlay. *)
Theorem inherited_type_breaks_unbinding :
  let r1 := onResize Sample.getConfiguration 800%Q 600%Q
              (Sample.world ["Key"; "toString"]) in
  let r2 := onResize Sample.getConfiguration 1024%Q 768%Q (snd r1) in
  fst r1 = Ok tt /\
  unbindControls (snd r1) =
    [unbind_button 0; string_value "[object Undefined]"] /\
  mouseOverlay (w_layers (snd r1)) = [0] /\
  fst r2 = Throw TypeError /\
  unbindControls (snd r2) =
    [unbind_button 0; string_value "[object Undefined]"] /\
  mouseOverlay (w_layers (snd r2)) = [].
Proof. vm_compute. repeat split. Qed.

End InheritedTypes.

(** ** The resize handler of the controls *)

Section Unbinding.
Import LayersControl.
Context {num : Type} {Hnum : JsNum num}.

(** A factory either throws before it has done anything, or returns its
    closure; a button factory has then created one element and made it the
    last child of the overlay. *)
Lemma call_factory_result (f : ControlFactory) (c : LayerControl)
    (g : GridConfiguration num) (w : World num) :
  call_factory f c g w = (Throw TypeError, w) \/
  exists (v : Value) (w' : World num),
    call_factory f c g w = (Ok v, w') /\
    made_by f v /\
    unbindControls w' = unbindControls w /\
    console w' = console w /\
    layerConfig w' = layerConfig w /\
    ((unbind_node v = None /\ elements w' = elements w /\
      mouseOverlay (w_layers w') = mouseOverlay (w_layers w)) \/
     (unbind_node v = Some (length (elements w)) /\
      length (elements w') = S (length (elements w)) /\
      mouseOverlay (w_layers w') =
        filter (fun n => n ≠ length (elements w)) (mouseOverlay (w_layers w))
        ++ [length (elements w)])).
Proof.
  destruct f; simpl;
    [unfold createKeyControl|unfold createOptionsControl
    |unfold createKeyboardControl|unfold createSwitchControl
    |unfold createScreenMoveControl|unfold createPointerButtonControl];
    unfold bind;
    (destruct (cell_at_inv g (row c) (column c) w) as [[cell ->]| ->];
     [right|now left]);
    simpl; rewrite ?alter_last;
    eexists _, _; (split; [reflexivity|]); simpl;
    (split; [eexists; reflexivity|]);
    repeat (split; [reflexivity|]);
    try (left; repeat split; reflexivity);
    right; repeat split; rewrite ?length_app; simpl; lia.
Qed.

(** Calling one unbind closure whose button is a child of the overlay. *)
Lemma removeChild_result (b : node) (w : World num) :
  b ∈ mouseOverlay (w_layers w) ->
  exists w' : World num,
    removeChild b w = (Ok tt, w') /\
    unbindControls w' = unbindControls w /\
    elements w' = elements w /\
    console w' = console w /\
    layerConfig w' = layerConfig w /\
    forall n, n ∈ mouseOverlay (w_layers w') <->
              n ∈ mouseOverlay (w_layers w) /\ n <> b.
Proof.
  intros Hb. unfold removeChild.
  destruct (decide (b ∈ mouseOverlay (w_layers w))) as [_|Hn]; [|contradiction].
  eexists. split; [reflexivity|]. simpl.
  split; [reflexivity|]. split; [reflexivity|].
  split; [reflexivity|]. split; [reflexivity|].
  intros n. rewrite list_elem_of_filter. tauto.
Qed.

Lemma call_unbind_result (v : Value) (w : World num) :
  is_unbind v ->
  (forall b, unbind_node v = Some b -> b ∈ mouseOverlay (w_layers w)) ->
  exists w' : World num,
    call_unbind v w = (Ok tt, w') /\
    unbindControls w' = unbindControls w /\
    elements w' = elements w /\
    console w' = console w /\
    layerConfig w' = layerConfig w /\
    forall n, n ∈ mouseOverlay (w_layers w') <->
              n ∈ mouseOverlay (w_layers w) /\ unbind_node v <> Some n.
Proof.
  intros Hv Hin. destruct v as [b|b h|id|c|s]; simpl in *; try contradiction.
  - destruct (removeChild_result b w (Hin b eq_refl))
      as (w' & Hc & Hu & He & Hco & Hl & Ho).
    exists w'. repeat (split; [assumption|]).
    intros n. rewrite Ho. split; intros [Hn Hne]; (split; [exact Hn|congruence]).
  - destruct (removeChild_result b w (Hin b eq_refl))
      as (w' & Hc & Hu & He & Hco & Hl & Ho).
    unfold bind. rewrite Hc. eexists. split; [reflexivity|]. simpl.
    repeat (split; [assumption|]).
    intros n. rewrite Ho. split; intros [Hn Hne]; (split; [exact Hn|congruence]).
  - eexists. split; [reflexivity|]. simpl.
    repeat (split; [reflexivity|]).
    intros n. split; [intros Hn; split; [exact Hn|discriminate]|tauto].
Qed.

(** The first loop of [onResize]: every closure is called, none throws, and
    their buttons leave the overlay. *)
Lemma unbind_phase (vs : list Value) :
  forall w : World num,
    Forall is_unbind vs ->
    NoDup (omap unbind_node vs) ->
    (forall b, b ∈ omap unbind_node vs -> b ∈ mouseOverlay (w_layers w)) ->
    exists w' : World num,
      forOf vs call_unbind w = (Ok tt, w') /\
      unbindControls w' = unbindControls w /\
      elements w' = elements w /\
      console w' = console w /\
      layerConfig w' = layerConfig w /\
      forall n, n ∈ mouseOverlay (w_layers w') <->
                n ∈ mouseOverlay (w_layers w) /\ n ∉ omap unbind_node vs.
Proof.
  induction vs as [|v vs IH]; intros w Hvs Hnd Hin.
  - exists w. simpl. repeat (split; [reflexivity|]).
    intros n. split; [intros Hn; split; [exact Hn|apply not_elem_of_nil]|tauto].
  - inversion Hvs as [|? ? Hv Hvs']; subst.
    assert (Hnodes : forall n, n ∈ omap unbind_node (v :: vs) <->
                               unbind_node v = Some n \/ n ∈ omap unbind_node vs).
    { intros n. simpl. destruct (unbind_node v) as [b|].
      - rewrite elem_of_cons.
        split; (intros [Hn|Hn]; [left; congruence|right; exact Hn]).
      - split; [auto|intros [?|?]; [discriminate|assumption]]. }
    assert (Hsplit : NoDup (omap unbind_node vs) /\
                     forall b, unbind_node v = Some b -> b ∉ omap unbind_node vs).
    { simpl in Hnd. destruct (unbind_node v) as [b|];
        [|split; [exact Hnd|discriminate]].
      apply NoDup_cons in Hnd as [Hb Hnd]. split; [exact Hnd|].
      now intros ? [= <-]. }
    destruct Hsplit as [Hnd' Hfresh].
    destruct (call_unbind_result v w Hv) as (w1 & Hc & Hu & He & Hco & Hl & Ho).
    { intros b Hb. apply Hin, Hnodes. now left. }
    destruct (IH w1 Hvs' Hnd') as (w' & Hc' & Hu' & He' & Hco' & Hl' & Ho').
    { intros b Hb. apply Ho. split.
      - apply Hin, Hnodes. now right.
      - intros Hvb. exact (Hfresh b Hvb Hb). }
    exists w'. simpl. unfold bind. rewrite Hc.
    split; [exact Hc'|]. repeat (split; [congruence|]).
    intros n. rewrite Ho', Ho, Hnodes. tauto.
Qed.

Lemma made_by_is_unbind (f : ControlFactory) (v : Value) :
  made_by f v -> is_unbind v.
Proof. destruct f; intros [x ->]; exact I. Qed.

(** Pushing the closure that a factory has just returned keeps the
    invariant. *)
Lemma bound_push (w w' : World num) (f : ControlFactory) (v : Value) :
  bound w -> made_by f v ->
  unbindControls w' = unbindControls w ->
  (unbind_node v = None /\ elements w' = elements w /\
   mouseOverlay (w_layers w') = mouseOverlay (w_layers w)) \/
  (unbind_node v = Some (length (elements w)) /\
   length (elements w') = S (length (elements w)) /\
   mouseOverlay (w_layers w') =
     filter (fun n => n ≠ length (elements w)) (mouseOverlay (w_layers w))
     ++ [length (elements w)]) ->
  bound (with_unbindControls (unbindControls w' ++ [v]) w').
Proof.
  intros (Hall & Hnd & Hin) Hv Hu Hcase. unfold bound. simpl.
  rewrite Hu, omap_app. simpl.
  split; [apply Forall_app; split;
            [exact Hall|repeat constructor; eapply made_by_is_unbind, Hv]|].
  destruct Hcase as [(Hnone & He & Ho)|(Hsome & He & Ho)].
  - rewrite Hnone, app_nil_r, He, Ho. split; assumption.
  - rewrite Hsome. split.
    + apply NoDup_app. split; [exact Hnd|]. split; [|apply NoDup_singleton].
      intros b Hb ->%list_elem_of_singleton. apply Hin in Hb. lia.
    + intros b [Hb|Hb]%elem_of_app.
      * destruct (Hin b Hb) as [Hbo Hbl]. rewrite Ho, He. split; [|lia].
        apply elem_of_app. left. apply list_elem_of_filter. split; [lia|exact Hbo].
      * apply list_elem_of_singleton in Hb as ->. rewrite Ho, He. split; [|lia].
        apply elem_of_app. right. apply list_elem_of_here.
Qed.

(** One pass of the second loop, for a type that is not a property name of
    [Object.prototype]. *)
Lemma onResize_body_result (g : GridConfiguration num) (c : LayerControl)
    (w : World num) :
  type c ∉ Object_prototype -> bound w ->
  exists (r : Result unit) (w1 : World num),
    onResize_body g c w = (r, w1) /\
    bound w1 /\
    length (elements w) <= length (elements w1) /\
    (forall n, n ∈ mouseOverlay (w_layers w1) ->
               n ∈ mouseOverlay (w_layers w) \/ length (elements w) <= n) /\
    ((r = Throw TypeError /\ w1 = w) \/
     (r = Ok tt /\ (type c ∉ six_keys) /\
      unbindControls w1 = unbindControls w) \/
     (r = Ok tt /\ (type c ∈ six_keys) /\
      exists v : Value,
        unbindControls w1 = unbindControls w ++ [v] /\ made_for c v /\
        forall b, unbind_node v = Some b -> length (elements w) <= b)).
Proof.
  intros Hplain Hw. unfold onResize_body, made_for.
  destruct (factoryMapping_cases (type c))
    as [(Hsix & f & ->)|[(_ & Hp & _)|(Hsix & _ & ->)]]; [| contradiction |].
  - unfold bind.
    destruct (call_factory_result f c g w)
      as [-> | (v & w' & -> & Hv & Hu & _ & _ & Hcase)].
    + eexists _, _. split; [reflexivity|]. split; [exact Hw|].
      split; [lia|]. split; [now left|]. left. split; reflexivity.
    + eexists _, _. split; [reflexivity|].
      split; [now apply (bound_push w w' f v)|].
      split; [simpl; destruct Hcase as [(_ & -> & _)|(_ & -> & _)]; lia|].
      split.
      { simpl. intros n Hn.
        destruct Hcase as [(_ & _ & Ho)|(_ & _ & Ho)]; rewrite Ho in Hn;
          [now left|].
        apply elem_of_app in Hn as [Hn|Hn].
        - apply list_elem_of_filter in Hn as [_ Hn]. now left.
        - apply list_elem_of_singleton in Hn as ->. right. lia. }
      right. right. split; [reflexivity|]. split; [exact Hsix|].
      exists v. simpl. rewrite Hu. split; [reflexivity|]. split; [exact Hv|].
      intros b Hb. destruct Hcase as [(Hn & _)|(Hs & _)]; [congruence|].
      rewrite Hs in Hb. injection Hb as <-. lia.
  - eexists _, _. split; [reflexivity|]. split; [exact Hw|].
    split; [simpl; lia|]. split; [now left|].
    right. left. repeat split. exact Hsix.
Qed.

(** The second loop of [onResize].  [done] are the controls that were
    processed and [rest] those that were not, because a factory threw. *)
Lemma create_phase (g : GridConfiguration num) (cs : list LayerControl) :
  forall w : World num,
    Forall (fun c => type c ∉ Object_prototype) cs -> bound w ->
    exists (r : Result unit) (w1 : World num)
           (done rest : list LayerControl) (new : list Value),
      forOf cs (onResize_body g) w = (r, w1) /\
      bound w1 /\
      length (elements w) <= length (elements w1) /\
      (forall n, n ∈ mouseOverlay (w_layers w1) ->
                 n ∈ mouseOverlay (w_layers w) \/ length (elements w) <= n) /\
      cs = done ++ rest /\
      (r = Ok tt -> rest = []) /\
      unbindControls w1 = unbindControls w ++ new /\
      Forall2 made_for (filter (fun c => type c ∈ six_keys) done) new /\
      Forall (fun v => forall b, unbind_node v = Some b ->
                                 length (elements w) <= b) new.
Proof.
  induction cs as [|c cs IH]; intros w Hplain Hw.
  - exists (Ok tt), w, [], [], []. simpl. rewrite app_nil_r.
    split; [reflexivity|]. split; [exact Hw|]. split; [lia|].
    split; [now left|].
    split; [reflexivity|]. split; [reflexivity|]. split; [reflexivity|].
    split; constructor.
  - inversion Hplain as [|? ? Hc Hcs]; subst.
    destruct (onResize_body_result g c w Hc Hw)
      as (r0 & w0 & Hbody & Hw0 & Hlen0 & Hov0 & Hcase).
    simpl. unfold bind. rewrite Hbody.
    destruct Hcase as [(-> & ->)|[(-> & Hsix & Hu)|(-> & Hsix & v & Hu & Hv & Hnode)]].
    + exists (Throw TypeError), w, [], (c :: cs), [].
      simpl. rewrite app_nil_r.
      split; [reflexivity|]. split; [exact Hw|]. split; [lia|].
      split; [now left|].
      split; [reflexivity|]. split; [discriminate|]. split; [reflexivity|].
      split; constructor.
    + destruct (IH w0 Hcs Hw0)
        as (r & w1 & done & rest & new & Hrun & Hw1 & Hlen & Hov & -> & Hr & Hu1 & Hmade & Hnew).
      exists r, w1, (c :: done), rest, new.
      split; [exact Hrun|]. split; [exact Hw1|]. split; [lia|].
      split; [intros n Hn; destruct (Hov n Hn) as [Hn'|Hn'];
                [apply Hov0 in Hn'; tauto|right; lia]|].
      split; [reflexivity|]. split; [exact Hr|].
      split; [congruence|]. split.
      * rewrite filter_cons_False by exact Hsix. exact Hmade.
      * eapply Forall_impl; [exact Hnew|]. intros x Hx b Hb.
        specialize (Hx b Hb). lia.
    + destruct (IH w0 Hcs Hw0)
        as (r & w1 & done & rest & new & Hrun & Hw1 & Hlen & Hov & -> & Hr & Hu1 & Hmade & Hnew).
      exists r, w1, (c :: done), rest, (v :: new).
      split; [exact Hrun|]. split; [exact Hw1|]. split; [lia|].
      split; [intros n Hn; destruct (Hov n Hn) as [Hn'|Hn'];
                [apply Hov0 in Hn'; tauto|right; lia]|].
      split; [reflexivity|]. split; [exact Hr|].
      split; [rewrite Hu1, Hu, <- app_assoc; reflexivity|]. split.
      * rewrite filter_cons_True by exact Hsix. constructor; assumption.
      * constructor; [exact Hnode|].
        eapply Forall_impl; [exact Hnew|]. intros x Hx b Hb.
        specialize (Hx b Hb). lia.
Qed.

Variable getConfiguration : string -> num -> num -> option (GridConfiguration num).

(** What [onResize] does when no control type is a property name of
    [Object.prototype], from a state that satisfies the invariant: the
    buttons of the earlier layout have left the overlay, [unbindControls]
    holds one closure for each control of known type that was processed, in
    order, and only closures of this pass; and the invariant holds again. *)
Lemma onResize_rebuilds (width height : num) (w : World num)
    (lc : LayerConfig) :
  layerConfig w = Some lc ->
  Forall (fun c => type c ∉ Object_prototype) (controls lc) ->
  bound w ->
  exists (r : Result unit) (w1 : World num) (done rest : list LayerControl),
    onResize getConfiguration width height w = (r, w1) /\
    bound w1 /\
    controls lc = done ++ rest /\
    (r = Ok tt -> rest = []) /\
    Forall2 made_for (filter (fun c => type c ∈ six_keys) done)
      (unbindControls w1) /\
    Forall (fun v => forall b, unbind_node v = Some b ->
                               length (elements w) <= b) (unbindControls w1) /\
    (forall b, b ∈ omap unbind_node (unbindControls w) ->
               (b ∉ mouseOverlay (w_layers w1)) /\
               (b ∉ omap unbind_node (unbindControls w1))).
Proof.
  intros Hlc Hplain (Hall & Hnd & Hin).
  destruct (unbind_phase (unbindControls w) w Hall Hnd)
    as (w0 & Hun & Hu0 & He0 & _ & Hl0 & Ho0); [apply Hin|].
  assert (Hw0 : bound (with_unbindControls [] w0)).
  { unfold bound. simpl. split; [constructor|]. split; [constructor|].
    intros b Hb. now apply elem_of_nil in Hb. }
  assert (Hold : forall (new : list Value) b,
             Forall (fun v => forall b, unbind_node v = Some b ->
                                        length (elements w) <= b) new ->
             b ∈ omap unbind_node (unbindControls w) ->
             b ∉ omap unbind_node new).
  { intros new b Hnew Hb Hb'. apply list_elem_of_omap in Hb' as (v & Hv & Hvb).
    rewrite Forall_forall in Hnew. specialize (Hnew v Hv b Hvb).
    apply Hin in Hb. lia. }
  unfold onResize, bind. simpl. rewrite Hun. simpl. rewrite Hlc.
  destruct (getConfiguration (grid lc) width height) as [g|].
  - destruct (create_phase g (controls lc) _ Hplain Hw0)
      as (r & w1 & done & rest & new & Hrun & Hw1 & Hlen & Hov & Hcs & Hr & Hu1 & Hmade & Hnew).
    simpl in Hu1, Hnew, Hov. rewrite He0 in Hnew, Hov.
    exists r, w1, done, rest. rewrite Hu1.
    repeat (split; [assumption|]). intros b Hb. split; [|now apply Hold].
    intros Hb1. destruct (Hov b Hb1) as [Hb0|Hb0].
    + apply Ho0 in Hb0 as [_ Hb0]. contradiction.
    + apply Hin in Hb. lia.
  - exists (Throw GridError), (with_unbindControls [] w0), [], (controls lc).
    simpl. split; [reflexivity|]. split; [exact Hw0|].
    split; [reflexivity|]. split; [discriminate|].
    split; [constructor|]. split; [constructor|].
    intros b Hb. split; [|apply not_elem_of_nil].
    intros Hb0. apply Ho0 in Hb0 as [_ Hb0]. contradiction.
Qed.

(** The invariant holds when [initLayerConfig] starts. *)
Lemma bound_initial (layers0 : Layers num) (ci : CommandInterface num)
    (elements0 : list (Button num)) (lc : option LayerConfig) (h : handle) :
  bound (mkWorld layers0 ci elements0 [] [] lc h []).
Proof.
  unfold bound. simpl. split; [constructor|]. split; [constructor|].
  intros b Hb. now apply elem_of_nil in Hb.
Qed.

End Unbinding.


(** ** The backends over a run of events *)

Section BackendRuns.
Context {num : Type} {Hnum : JsNum num}.

Lemma onResize_2d_idem (cw ch fw fh : num) (c : Canvas num) :
  _2d.onResize cw ch fw fh (_2d.onResize cw ch fw fh c) = _2d.onResize cw ch fw fh c.
Proof. unfold _2d.onResize. destruct (num_gt _ _); reflexivity. Qed.

Lemma onResize_2d_bitmap (cw ch fw fh : num) (c : Canvas num) :
  canvas_width (_2d.onResize cw ch fw fh c) = canvas_width c /\
  canvas_height (_2d.onResize cw ch fw fh c) = canvas_height c.
Proof. unfold _2d.onResize. destruct (num_gt _ _); split; reflexivity. Qed.




Lemma last_viewport_app (calls more : list webGl.GlCall) :
  last_viewport (calls ++ more) =
  match last_viewport more with
  | Some v => Some v
  | None => last_viewport calls
  end.
Proof.
  unfold last_viewport. rewrite foldl_app.
  generalize (foldl (fun acc c => match c with
                                  | webGl.viewport _ _ w h => Some (w, h)
                                  | _ => acc
                                  end) None calls) as acc.
  induction more as [|c more IH] using rev_ind; intros acc; [reflexivity|].
  rewrite !foldl_app. simpl. destruct c; try apply IH; reflexivity.
Qed.

Lemma placed_webGl_step (s : webGl.State num) (e : webGl.Event num) :
  placed_webGl s -> placed_webGl (webGl.step s e).
Proof.
  unfold placed_webGl. intros (Hc & Hw & Hh & Hv).
  destruct e as [w h|w h|rgb|]; simpl.
  - destruct (decide _); simpl; [|auto].
    split; [symmetry; apply onResize_2d_idem|].
    destruct (onResize_2d_bitmap w h (num_of_nat (webGl.frameWidth s))
                (num_of_nat (webGl.frameHeight s)) (canvas (webGl.layers s)))
      as [Hbw Hbh].
    split; [exact (eq_trans Hbw Hw)|]. split; [exact (eq_trans Hbh Hh)|exact Hv].
  - split; [symmetry; apply onResize_2d_idem|].
    match goal with
    | |- context [webGl.onResize ?a ?b ?c ?d ?x] =>
        destruct (onResize_2d_bitmap a b c d x) as [Hbw Hbh]
    end.
    split; [exact Hbw|]. split; [exact Hbh|].
    rewrite last_viewport_app. reflexivity.
  - rewrite last_viewport_app. auto.
  - auto.
Qed.

Lemma placed_webGl_run (evs : list (webGl.Event num)) :
  forall s, placed_webGl s -> placed_webGl (webGl.run s evs).
Proof.
  induction evs as [|e evs IH]; intros s Hs; [exact Hs|].
  apply IH, placed_webGl_step, Hs.
Qed.

Lemma placed_webGl_init (layers0 : Layers num) (ci0 : CommandInterface num)
    (cl : webGl.Closures) (ctx : webGl.GlContext) (s : webGl.State num) :
  webGl.webGl layers0 ci0 cl ctx = Some s -> placed_webGl s.
Proof.
  unfold webGl.webGl. destruct (has_webgl _); [|discriminate].
  destruct (webGl.initShaderProgram ctx []) as [calls [|]]; [|discriminate].
  intros [= <-]. unfold placed_webGl. simpl.
  split; [symmetry; apply onResize_2d_idem|].
  match goal with
  | |- context [webGl.onResize ?a ?b ?c ?d ?x] =>
      destruct (onResize_2d_bitmap a b c d x) as [Hbw Hbh]
  end.
  split; [exact Hbw|]. split; [exact Hbh|].
  rewrite last_viewport_app. reflexivity.
Qed.


End BackendRuns.


Section BackendsAgree.
Context {num : Type} {Hnum : JsNum num}.

Lemma step_same_display (s2 : _2d.State num) (sg : webGl.State num)
    (e : _2d.Event num) :
  same_display s2 sg ->
  same_display (_2d.step s2 e) (webGl.step sg (event_to_webGl e)).
Proof.
  destruct s2 as [l2 c2 cl2 cw2 ch2 fw2 fh2 r2 x2].
  destruct sg as [lg cg clg cwg chg fwg fhg gg].
  unfold same_display. simpl.
  intros (Hc & -> & -> & -> & -> & Hiff).
  destruct e as [w h|w h|rgb|]; simpl.
  - destruct (decide (_2d.onResizeLayer_h cl2 ∈ onResizeListeners l2)) as [H2|H2];
    destruct (decide (webGl.onResizeLayer_h clg ∈ onResizeListeners lg)) as [Hg|Hg];
      simpl; try tauto.
    rewrite Hc. repeat (split; [reflexivity|]). exact Hiff.
  - rewrite Hc. repeat (split; [reflexivity|]). exact Hiff.
  - repeat (split; [assumption || reflexivity|]). exact Hiff.
  - repeat (split; [assumption || reflexivity|]). set_solver.
Qed.

Lemma run_same_display (evs : list (_2d.Event num)) :
  forall (s2 : _2d.State num) (sg : webGl.State num),
    same_display s2 sg ->
    same_display (_2d.run s2 evs) (webGl.run sg (event_to_webGl <$> evs)).
Proof.
  induction evs as [|e evs IH]; intros s2 sg Hv; [exact Hv|].
  apply IH, step_same_display, Hv.
Qed.

Lemma init_same_display (layers0 : Layers num) (ci0 : CommandInterface num)
    (cl2 : _2d.Closures) (clg : webGl.Closures) (ctx : webGl.GlContext)
    (s2 : _2d.State num) (sg : webGl.State num) :
  _2d._2d layers0 ci0 cl2 = Some s2 ->
  webGl.webGl layers0 ci0 clg ctx = Some sg ->
  same_display s2 sg.
Proof.
  unfold _2d._2d, webGl.webGl.
  destruct (has_2d _); [|discriminate].
  destruct (has_webgl _); [|discriminate].
  destruct (webGl.initShaderProgram ctx []) as [calls [|]]; [|discriminate].
  intros [= <-] [= <-]. unfold same_display. simpl.
  repeat (split; [reflexivity|]). set_solver.
Qed.

(** X2: set up on the same layers and command interface, each with its own
    closures, and sent the same events, the two backends show the same
    canvas (style and bitmap size) and hold the same container and frame
    sizes at every time, and the resize listener of the one is registered
    exactly when that of the other is. *)
Theorem backends_agree_on_events
    (layers0 : Layers num) (ci0 : CommandInterface num)
    (cl2 : _2d.Closures) (clg : webGl.Closures) (ctx : webGl.GlContext)
    (s2 : _2d.State num) (sg : webGl.State num) (evs : list (_2d.Event num)) :
  _2d._2d layers0 ci0 cl2 = Some s2 ->
  webGl.webGl layers0 ci0 clg ctx = Some sg ->
  let s2' := _2d.run s2 evs in
  let sg' := webGl.run sg (event_to_webGl <$> evs) in
  canvas (_2d.layers s2') = canvas (webGl.layers sg') /\
  _2d.containerWidth s2' = webGl.containerWidth sg' /\
  _2d.containerHeight s2' = webGl.containerHeight sg' /\
  _2d.frameWidth s2' = webGl.frameWidth sg' /\
  _2d.frameHeight s2' = webGl.frameHeight sg' /\
  (_2d.onResizeLayer_h cl2 ∈ onResizeListeners (_2d.layers s2') <->
   webGl.onResizeLayer_h clg ∈ onResizeListeners (webGl.layers sg')).
Proof.
  intros H2 Hg s2' sg'.
  destruct (run_same_display evs s2 sg (init_same_display _ _ _ _ _ _ _ H2 Hg))
    as (Hc & Hcw & Hch & Hfw & Hfh & Hiff).
  destruct (run_2d_listeners evs s2) as [Hcl2 _].
  destruct (run_webGl_listeners (event_to_webGl <$> evs) sg) as [Hclg _].
  destruct (init_2d _ _ _ _ H2) as (Hi2 & _).
  destruct (init_webGl _ _ _ _ _ Hg) as (Hig & _).
  rewrite Hcl2, Hclg, Hi2, Hig in Hiff.
  repeat (split; [assumption|]). exact Hiff.
Qed.

End BackendsAgree.

Lemma backends_agree_on_events_witness :
  let evs := [_2d.Resize 640%Q 480%Q; _2d.FrameSize 4 3; _2d.Exit;
              _2d.Resize 320%Q 240%Q] in
  (_2d._2d Sample.layers0 Sample.ci1 Sample.closures2d = Some Sample.state2d /\
   webGl.webGl Sample.layers0 Sample.ci1 Sample.closuresGl Sample.gl0
     = Some Sample.stateGl) /\
  let s2' := _2d.run Sample.state2d evs in
  let sg' := webGl.run Sample.stateGl (event_to_webGl <$> evs) in
  canvas (_2d.layers s2') = canvas (webGl.layers sg') /\
  _2d.containerWidth s2' = webGl.containerWidth sg' /\
  _2d.containerHeight s2' = webGl.containerHeight sg' /\
  _2d.frameWidth s2' = webGl.frameWidth sg' /\
  _2d.frameHeight s2' = webGl.frameHeight sg' /\
  (_2d.onResizeLayer_h Sample.closures2d ∈ onResizeListeners (_2d.layers s2') <->
   webGl.onResizeLayer_h Sample.closuresGl ∈ onResizeListeners (webGl.layers sg')).
Proof.
  intros evs.
  split; [split; reflexivity|].
  apply (backends_agree_on_events Sample.layers0 Sample.ci1 Sample.closures2d
           Sample.closuresGl Sample.gl0 Sample.state2d Sample.stateGl evs);
    reflexivity.
Defined.

(** ** Letterboxing over a run of events *)

Section LetterboxRuns.
Local Open Scope Q_scope.

Lemma onResize_fills (cw ch fw fh : Q) (c : Canvas Q) :
  0 < fw -> 0 < fh ->
  exists p, placement (_2d.onResize cw ch fw fh c) = Some p /\
            fills_one_axis cw ch p.
Proof.
  intros Hw Hh. rewrite onResize_placement_Q. eexists. split; [reflexivity|].
  pose proof (aspect_pos fw fh Hw Hh) as Ha.
  assert (Ha0 : ~ fw / fh == 0) by (intros E; rewrite E in Ha; discriminate).
  unfold fills_one_axis.
  destruct (Qle_bool (cw / (fw / fh)) ch) eqn:E; simpl.
  - apply Qle_bool_iff in E. left.
    split; [reflexivity|]. split; [field|].
    apply Qle_shift_div_l; [reflexivity|]. rewrite Qmult_0_l.
    now apply (Qplus_le_r _ _ (cw / (fw / fh))); ring_simplify.
  - assert (Hlt : ch < cw / (fw / fh)).
    { apply Qnot_le_lt. intros Hle. apply Qle_bool_iff in Hle. congruence. }
    right. split; [reflexivity|]. split; [field|].
    apply Qle_shift_div_l; [reflexivity|]. rewrite Qmult_0_l.
    apply (Qplus_le_r _ _ (ch * (fw / fh))). ring_simplify.
    apply Qlt_le_weak.
    assert (Hw0 : ~ fw == 0) by (intros E'; rewrite E' in Hw; discriminate).
    assert (Hh0 : ~ fh == 0) by (intros E'; rewrite E' in Hh; discriminate).
    assert (Heq : cw / (fw / fh) * (fw / fh) == cw)
      by (field; split; assumption).
    rewrite <- Heq. apply Qmult_lt_compat_r; assumption.
Qed.

(** X3: for every container size and every frame size with positive width
    and height, over the rationals, the canvas that [onResize] of either
    backend displays touches the container on one axis (its width is the
    container's and its left offset is 0, or its height is the container's
    and its top offset is 0) and has a non-negative offset on the other
    axis; the bitmap size of the canvas is not changed. *)
Theorem onResize_fills_one_axis (cw ch fw fh : Q) (c : Canvas Q) :
  0 < fw -> 0 < fh ->
  (exists p, placement (_2d.onResize cw ch fw fh c) = Some p /\
             fills_one_axis cw ch p) /\
  (exists p, placement (webGl.onResize cw ch fw fh c) = Some p /\
             fills_one_axis cw ch p) /\
  canvas_width (_2d.onResize cw ch fw fh c) = canvas_width c /\
  canvas_height (_2d.onResize cw ch fw fh c) = canvas_height c /\
  canvas_width (webGl.onResize cw ch fw fh c) = canvas_width c /\
  canvas_height (webGl.onResize cw ch fw fh c) = canvas_height c.
Proof.
  intros Hw Hh.
  split; [now apply onResize_fills|].
  split; [change (webGl.onResize cw ch fw fh c) with (_2d.onResize cw ch fw fh c);
          now apply onResize_fills|].
  change (webGl.onResize cw ch fw fh c) with (_2d.onResize cw ch fw fh c).
  destruct (onResize_2d_bitmap cw ch fw fh c) as [H1 H2]. auto.
Qed.

Lemma onResize_fills_one_axis_witness :
  (0 < 320 /\ 0 < 200) /\
  (exists p, placement (_2d.onResize 800 600 320 200 Sample.canvas0) = Some p /\
             fills_one_axis 800 600 p) /\
  (exists p, placement (webGl.onResize 800 600 320 200 Sample.canvas0) = Some p /\
             fills_one_axis 800 600 p) /\
  canvas_width (_2d.onResize 800 600 320 200 Sample.canvas0)
    = canvas_width Sample.canvas0 /\
  canvas_height (_2d.onResize 800 600 320 200 Sample.canvas0)
    = canvas_height Sample.canvas0 /\
  canvas_width (webGl.onResize 800 600 320 200 Sample.canvas0)
    = canvas_width Sample.canvas0 /\
  canvas_height (webGl.onResize 800 600 320 200 Sample.canvas0)
    = canvas_height Sample.canvas0.
Proof.
  split; [split; reflexivity|].
  apply (onResize_fills_one_axis 800 600 320 200 Sample.canvas0); reflexivity.
Defined.



End LetterboxRuns.


(** ** The frame buffer of the 2D backend as a function of the frame *)

Section Pixels.

Lemma pixels_length (rgb : list Byte.byte) (n : nat) :
  forall i, length (pixels rgb i n) = 4 * n.
Proof. induction n as [|n IH]; intros i; simpl; [reflexivity|]. rewrite IH. lia. Qed.

Lemma pixels_lookup (rgb : list Byte.byte) (n : nat) :
  forall i0 i, i < n ->
    pixels rgb i0 n !! (4 * i) = Some (_2d.toUint8Clamped (rgb !! (3 * (i0 + i)))) /\
    pixels rgb i0 n !! (4 * i + 1)
      = Some (_2d.toUint8Clamped (rgb !! (3 * (i0 + i) + 1))) /\
    pixels rgb i0 n !! (4 * i + 2)
      = Some (_2d.toUint8Clamped (rgb !! (3 * (i0 + i) + 2))) /\
    pixels rgb i0 n !! (4 * i + 3) = Some Byte.xff.
Proof.
  induction n as [|n IH]; intros i0 i Hi; [lia|].
  destruct i as [|i].
  - replace (i0 + 0) with i0 by lia. cbn [pixels]. repeat split.
  - destruct (IH (S i0) i ltac:(lia)) as (H0 & H1 & H2 & H3).
    replace (i0 + S i) with (S i0 + i) by lia.
    replace (4 * S i) with (S (S (S (S (4 * i))))) by lia.
    cbn [pixels]. auto.
Qed.

Lemma convert_is_pixels (rgb rgba : list Byte.byte) (n : nat) :
  length rgba = 4 * n -> _2d.convert rgb 0 0 rgba = pixels rgb 0 n.
Proof.
  intros Hlen.
  destruct (convert_from rgb n n 0 rgba ltac:(lia) ltac:(lia) Hlen)
    as (Hr & _ & Hfill).
  change (3 * 0) with 0 in *. change (4 * 0) with 0 in *.
  apply list_eq. intros j.
  destruct (decide (j < 4 * n)) as [Hj|Hj].
  - pose proof (Nat.div_mod_eq j 4) as Hdiv.
    pose proof (Nat.mod_upper_bound j 4 ltac:(lia)) as Hmod.
    destruct (Hfill (j / 4) ltac:(lia)) as (H0 & H1 & H2 & H3).
    destruct (pixels_lookup rgb n 0 (j / 4) ltac:(lia)) as (P0 & P1 & P2 & P3).
    change (0 + j / 4) with (j / 4) in *.
    destruct (j mod 4) as [|[|[|[|m]]]] eqn:Em; [| | | |lia].
    + replace j with (4 * (j / 4)) by lia. congruence.
    + replace j with (4 * (j / 4) + 1) by lia. congruence.
    + replace j with (4 * (j / 4) + 2) by lia. congruence.
    + replace j with (4 * (j / 4) + 3) by lia. congruence.
  - rewrite !lookup_ge_None_2; [reflexivity| |]; rewrite ?pixels_length; lia.
Qed.

Context {num : Type} {Hnum : JsNum num}.

(** X5: after a frame event, in any state the 2D backend reaches, the
    buffer [rgba] is a function of the incoming [rgb] and of the frame size
    alone: pixel by pixel the three colour bytes of [rgb] (0 where [rgb] is
    too short) followed by 255.  Nothing of an earlier frame is left, and
    the image put on the canvas is this buffer. *)
Theorem onFrame_overwrites_rgba (layers0 : Layers num)
    (ci0 : CommandInterface num) (cl : _2d.Closures) (s0 : _2d.State num)
    (evs : list (_2d.Event num)) (rgb : list Byte.byte) :
  _2d._2d layers0 ci0 cl = Some s0 ->
  let s := _2d.run s0 evs in
  let s' := _2d.step s (_2d.Frame rgb) in
  _2d.rgba s' = pixels rgb 0 (_2d.frameWidth s * _2d.frameHeight s) /\
  length (_2d.rgba s') = length (_2d.rgba s) /\
  last (_2d.context s') =
    Some (_2d.putImageData
            (pixels rgb 0 (_2d.frameWidth s * _2d.frameHeight s))
            (_2d.frameWidth s) (_2d.frameHeight s) 0 0) /\
  _2d.layers s' = _2d.layers s /\ _2d.ci s' = _2d.ci s.
Proof.
  intros Hinit s s'.
  assert (Hs : _2d.rgba_sized s)
    by (apply rgba_sized_run, (rgba_sized_init _ _ _ _ Hinit)).
  assert (Hr : _2d.rgba s' = pixels rgb 0 (_2d.frameWidth s * _2d.frameHeight s))
    by (apply convert_is_pixels, Hs).
  split; [exact Hr|]. split; [rewrite Hr, pixels_length; symmetry; exact Hs|].
  split; [|split; reflexivity].
  subst s'. unfold _2d.step, _2d.onFrameHandler in *. cbn [_2d.context _2d.rgba] in *.
  rewrite last_snoc, Hr. reflexivity.
Qed.

End Pixels.

Lemma onFrame_overwrites_rgba_witness :
  _2d._2d Sample.layers0 Sample.ci1 Sample.closures2d = Some Sample.state2d /\
  let s := _2d.run Sample.state2d [_2d.Frame [Byte.xff]] in
  let s' := _2d.step s (_2d.Frame Sample.rgb1) in
  _2d.rgba s' = pixels Sample.rgb1 0 (_2d.frameWidth s * _2d.frameHeight s) /\
  length (_2d.rgba s') = length (_2d.rgba s) /\
  last (_2d.context s') =
    Some (_2d.putImageData
            (pixels Sample.rgb1 0 (_2d.frameWidth s * _2d.frameHeight s))
            (_2d.frameWidth s) (_2d.frameHeight s) 0 0) /\
  _2d.layers s' = _2d.layers s /\ _2d.ci s' = _2d.ci s.
Proof.
  split; [reflexivity|].
  apply (onFrame_overwrites_rgba Sample.layers0 Sample.ci1 Sample.closures2d
           Sample.state2d [_2d.Frame [Byte.xff]] Sample.rgb1).
  reflexivity.
Defined.

(** C3 as stated fails for a frame of two pixels by one and an incoming
    buffer of the single byte 255: 0 is a pixel index of the frame,
    [rgba[1]] is 0 and [rgb[1]] is not there. *)
Lemma onFrame_rgb_to_rgba_counterexample :
  _2d._2d Sample.layers0 Sample.ci1 Sample.closures2d = Some Sample.state2d /\
  let s := _2d.run Sample.state2d [] in
  let s' := _2d.step s (_2d.Frame [Byte.xff]) in
  0 < _2d.frameWidth s * _2d.frameHeight s /\
  _2d.rgba s' !! (4 * 0 + 1) = Some Byte.x00 /\
  [Byte.xff] !! (3 * 0 + 1) = None /\
  _2d.rgba s' !! (4 * 0 + 1) <> [Byte.xff] !! (3 * 0 + 1).
Proof.
  split; [reflexivity|]. intros s s'.
  assert (Hr : _2d.rgba s' = pixels [Byte.xff] 0 2).
  { apply convert_is_pixels.
    exact (rgba_sized_init Sample.layers0 Sample.ci1 Sample.closures2d
             Sample.state2d eq_refl). }
  rewrite Hr. split; [unfold s; simpl; lia|].
  split; [reflexivity|]. split; [reflexivity|]. discriminate.
Qed.

(** ** The WebGL backend: frames and set-up errors *)

Section WebGlFrames.
Context {num : Type} {Hnum : JsNum num}.

(** X6: on a frame event, in any state the WebGL backend reaches, the
    incoming [rgb] is uploaded unchanged as a texture whose size is that of
    the viewport set last and of the canvas bitmap, and then six vertices
    are drawn; these are the only two calls, and the layers and the command
    interface are left alone. *)
Theorem webGl_frame_upload (layers0 : Layers num) (ci0 : CommandInterface num)
    (cl : webGl.Closures) (ctx : webGl.GlContext) (s0 : webGl.State num)
    (evs : list (webGl.Event num)) (rgb : list Byte.byte) :
  webGl.webGl layers0 ci0 cl ctx = Some s0 ->
  let s := webGl.run s0 evs in
  let s' := webGl.step s (webGl.Frame rgb) in
  exists w h : nat,
    webGl.gl s' = webGl.gl s ++ [webGl.texImage2D w h rgb; webGl.drawArrays 0 6] /\
    last_viewport (webGl.gl s) = Some (w, h) /\
    canvas_width (canvas (webGl.layers s)) = w /\
    canvas_height (canvas (webGl.layers s)) = h /\
    webGl.layers s' = webGl.layers s /\ webGl.ci s' = webGl.ci s.
Proof.
  intros Hinit s s'.
  destruct (placed_webGl_run evs s0 (placed_webGl_init _ _ _ _ _ Hinit))
    as (_ & Hw & Hh & Hv).
  exists (webGl.frameWidth s), (webGl.frameHeight s).
  split; [reflexivity|]. split; [exact Hv|]. split; [exact Hw|].
  split; [exact Hh|]. split; reflexivity.
Qed.

End WebGlFrames.

Lemma webGl_frame_upload_witness :
  webGl.webGl Sample.layers0 Sample.ci1 Sample.closuresGl Sample.gl0
    = Some Sample.stateGl /\
  let s := webGl.run Sample.stateGl [webGl.FrameSize 4 3] in
  let s' := webGl.step s (webGl.Frame Sample.rgb1) in
  exists w h : nat,
    webGl.gl s' =
      webGl.gl s ++ [webGl.texImage2D w h Sample.rgb1; webGl.drawArrays 0 6] /\
    last_viewport (webGl.gl s) = Some (w, h) /\
    canvas_width (canvas (webGl.layers s)) = w /\
    canvas_height (canvas (webGl.layers s)) = h /\
    webGl.layers s' = webGl.layers s /\ webGl.ci s' = webGl.ci s.
Proof.
  split; [reflexivity|].
  apply (webGl_frame_upload Sample.layers0 Sample.ci1 Sample.closuresGl
           Sample.gl0 Sample.stateGl [webGl.FrameSize 4 3] Sample.rgb1).
  reflexivity.
Defined.

Section SetUpErrors.

(** X7: [initShaderProgram] succeeds exactly when both shaders compile and
    the program links.  The vertex shader is compiled first; a shader that
    does not compile is deleted and nothing is compiled or linked after it;
    the program is linked only when both shaders compiled. *)
Theorem initShaderProgram_outcomes (ctx : webGl.GlContext)
    (calls : list webGl.GlCall) :
  let r := webGl.initShaderProgram ctx calls in
  (r.2 = true <->
   webGl.COMPILE_STATUS ctx webGl.VERTEX_SHADER = true /\
   webGl.COMPILE_STATUS ctx webGl.FRAGMENT_SHADER = true /\
   webGl.LINK_STATUS ctx = true) /\
  (webGl.COMPILE_STATUS ctx webGl.VERTEX_SHADER = false ->
   r.1 = calls ++ [webGl.compileShader webGl.VERTEX_SHADER;
                   webGl.deleteShader webGl.VERTEX_SHADER]) /\
  (webGl.COMPILE_STATUS ctx webGl.VERTEX_SHADER = true ->
   webGl.COMPILE_STATUS ctx webGl.FRAGMENT_SHADER = false ->
   r.1 = calls ++ [webGl.compileShader webGl.VERTEX_SHADER;
                   webGl.compileShader webGl.FRAGMENT_SHADER;
                   webGl.deleteShader webGl.FRAGMENT_SHADER]) /\
  (webGl.COMPILE_STATUS ctx webGl.VERTEX_SHADER = true ->
   webGl.COMPILE_STATUS ctx webGl.FRAGMENT_SHADER = true ->
   r.1 = calls ++ [webGl.compileShader webGl.VERTEX_SHADER;
                   webGl.compileShader webGl.FRAGMENT_SHADER;
                   webGl.linkProgram]).
Proof.
  unfold webGl.initShaderProgram, webGl.loadShader.
  destruct (webGl.COMPILE_STATUS ctx webGl.VERTEX_SHADER) eqn:Ev;
  destruct (webGl.COMPILE_STATUS ctx webGl.FRAGMENT_SHADER) eqn:Ef;
  destruct (webGl.LINK_STATUS ctx) eqn:El; simpl;
  rewrite <- ?app_assoc; simpl;
  (split; [split; [try discriminate; auto|intros (? & ? & ?); congruence]|]);
  repeat split; intros; try congruence; try discriminate.
Qed.

End SetUpErrors.

(** ** The factories of the controls *)

Section Factories.
Import LayersControl.
Context {num : Type} {Hnum : JsNum num}.

Lemma cell_at_cell_of (g : GridConfiguration num) (r c : nat) (w : World num) :
  cell_at g r c w =
  match cell_of g r c with
  | Some cell => (Ok cell, w)
  | None => (Throw TypeError, w)
  end.
Proof.
  unfold cell_at, cell_of. destruct (cells g !! r) as [line|]; [|reflexivity].
  destruct (line !! c); reflexivity.
Qed.

Lemma filter_ne_fresh (b : nat) (l : list nat) :
  b ∉ l -> filter (fun n => n ≠ b) l = l.
Proof.
  induction l as [|x l IH]; intros Hb; [reflexivity|].
  apply not_elem_of_cons in Hb as [Hx Hl].
  rewrite filter_cons_True by congruence. now rewrite IH.
Qed.

(** X9: each of the six factories throws a [TypeError], before it has
    created, attached or registered anything, when the grid has no cell at
    the row and column of the control; when the cell is there the factory
    does not throw and returns an unbind closure of its kind. *)
Theorem factory_needs_its_cell (f : ControlFactory) (c : LayerControl)
    (g : GridConfiguration num) (w : World num) :
  (cell_of g (row c) (column c) = None ->
   call_factory f c g w = (Throw TypeError, w)) /\
  (is_Some (cell_of g (row c) (column c)) ->
   exists (v : Value) (w' : World num),
     call_factory f c g w = (Ok v, w') /\ made_by f v).
Proof.
  split.
  - intros Hnone.
    destruct f; simpl;
      [unfold createKeyControl|unfold createOptionsControl
      |unfold createKeyboardControl|unfold createSwitchControl
      |unfold createScreenMoveControl|unfold createPointerButtonControl];
      unfold bind; rewrite cell_at_cell_of, Hnone; reflexivity.
  - intros [cell Hcell].
    destruct (call_factory_result f c g w) as [Hthrow|(v & w' & Hok & Hv & _)].
    + exfalso. revert Hthrow.
      destruct f; simpl;
        [unfold createKeyControl|unfold createOptionsControl
        |unfold createKeyboardControl|unfold createSwitchControl
        |unfold createScreenMoveControl|unfold createPointerButtonControl];
        unfold bind; rewrite cell_at_cell_of, Hcell; discriminate.
    + eauto.
Qed.

(** X13: the button of a Keyboard control has the symbol "keyboard" and no
    [onDown] handler; its [onUp] handler calls [layers.toggleKeyboard] once
    and does nothing else, so it sends nothing to the emulator. *)
Theorem keyboard_control_handlers (keyboardControl : LayerControl)
    (g : GridConfiguration num) (w w' : World num) (unbind : Value) :
  createKeyboardControl keyboardControl g w = (Ok unbind, w') ->
  exists (b : Button num) (up : Handler num),
    elements w' = elements w ++ [b] /\
    button_symbol b = "keyboard"%string /\
    onDown b = None /\ onUp b = Some up /\
    w_ci w' = w_ci w /\
    forall w0 : World num,
      fire up w0 =
        with_layers
          (set_keyboardToggles (S (keyboardToggles (w_layers w0))) (w_layers w0))
          w0 /\
      w_ci (fire up w0) = w_ci w0.
Proof.
  unfold createKeyboardControl, bind. rewrite cell_at_cell_of.
  destruct (cell_of g _ _) as [cell|]; [|discriminate].
  simpl. rewrite alter_last. intros [= <- <-]. simpl.
  eexists _, _. do 5 (split; [reflexivity|]). intros w0. split; reflexivity.
Qed.

(** X14: the button of a Switch control has no [onDown] handler; its [onUp]
    handler calls [dosInstance.setLayersConfig] with the [layerName] of the
    control, once, and does nothing else. *)
Theorem switch_control_handlers (switchControl : LayerControl)
    (g : GridConfiguration num) (w w' : World num) (unbind : Value) :
  createSwitchControl switchControl g w = (Ok unbind, w') ->
  exists (b : Button num) (up : Handler num),
    elements w' = elements w ++ [b] /\
    button_symbol b = symbol switchControl /\
    onDown b = None /\ onUp b = Some up /\
    external w' = external w /\
    forall w0 : World num,
      fire up w0 =
        with_external
          (external w0 ++ [setLayersConfig_call (layerName switchControl)]) w0 /\
      w_ci (fire up w0) = w_ci w0 /\
      w_layers (fire up w0) = w_layers w0.
Proof.
  unfold createSwitchControl, bind. rewrite cell_at_cell_of.
  destruct (cell_of g _ _) as [cell|]; [|discriminate].
  simpl. rewrite alter_last. intros [= <- <-]. simpl.
  eexists _, _. do 5 (split; [reflexivity|]). intros w0. repeat split.
Qed.

End Factories.

(** ** What the controls leave alone *)

Section Untouched.
Import LayersControl.
Context {num : Type} {Hnum : JsNum num}.

Ltac solve_untouched :=
  unfold untouched; simpl; repeat split; try reflexivity;
  first [exists []; symmetry; apply app_nil_r | eexists; reflexivity].

Lemma untouched_refl (w : World num) : untouched w w.
Proof. solve_untouched. Qed.

Lemma untouched_trans (w1 w2 w3 : World num) :
  untouched w1 w2 -> untouched w2 w3 -> untouched w1 w3.
Proof.
  unfold untouched.
  intros (A1 & A2 & A3 & A4 & A5 & A6 & A7 & A8 & A9 & [e1 E1] & [c1 C1] & [x1 X1])
         (B1 & B2 & B3 & B4 & B5 & B6 & B7 & B8 & B9 & [e2 E2] & [c2 C2] & [x2 X2]).
  repeat (split; [congruence|]).
  split; [exists (e1 ++ e2); rewrite E2, E1; symmetry; apply app_assoc|].
  split; [exists (c1 ++ c2); rewrite C2, C1; symmetry; apply app_assoc|].
  exists (x1 ++ x2). rewrite X2, X1. symmetry. apply app_assoc.
Qed.

Lemma bind_untouched {A B} (m : M num A) (k : A -> M num B) (w : World num) :
  untouched w (m w).2 ->
  (forall a w', untouched w' (k a w').2) ->
  untouched w (bind m k w).2.
Proof.
  intros Hm Hk. unfold bind. destruct (m w) as [[a|e] w']; simpl in *.
  - eapply untouched_trans; [exact Hm|apply Hk].
  - exact Hm.
Qed.

Lemma forOf_untouched {A} (body : A -> M num unit) (l : list A) :
  (forall x w, untouched w (body x w).2) ->
  forall w, untouched w (forOf l body w).2.
Proof.
  intros Hbody. induction l as [|x l IH]; intros w; simpl.
  - apply untouched_refl.
  - apply bind_untouched; [apply Hbody|intros _ w'; apply IH].
Qed.

Lemma removeChild_untouched (b : node) (w : World num) :
  untouched w (removeChild b w).2.
Proof.
  unfold removeChild. destruct (decide _); [solve_untouched|apply untouched_refl].
Qed.

Lemma call_unbind_untouched (v : Value) (w : World num) :
  untouched w (call_unbind v w).2.
Proof.
  destruct v as [b|b h|id|c|s]; simpl.
  - apply removeChild_untouched.
  - apply bind_untouched; [apply removeChild_untouched|].
    intros _ w'. solve_untouched.
  - solve_untouched.
  - apply untouched_refl.
  - apply untouched_refl.
Qed.

Lemma call_factory_untouched (f : ControlFactory) (c : LayerControl)
    (g : GridConfiguration num) (w : World num) :
  untouched w (call_factory f c g w).2.
Proof.
  destruct f; simpl;
    [unfold createKeyControl|unfold createOptionsControl
    |unfold createKeyboardControl|unfold createSwitchControl
    |unfold createScreenMoveControl|unfold createPointerButtonControl];
    unfold bind;
    (destruct (cell_at_inv g (row c) (column c) w) as [[cell ->]| ->];
     [|apply untouched_refl]);
    simpl; rewrite ?alter_last; solve_untouched.
Qed.

Lemma call_inherited_untouched (name : string) (c : LayerControl) (w : World num) :
  untouched w (call_inherited name c w).2.
Proof.
  unfold call_inherited.
  destruct (String.eqb name "constructor"); [apply untouched_refl|].
  destruct (String.eqb name "toString"); apply untouched_refl.
Qed.

Lemma onResize_body_untouched (g : GridConfiguration num) (c : LayerControl)
    (w : World num) :
  untouched w (onResize_body g c w).2.
Proof.
  unfold onResize_body. destruct (factoryMapping (type c)) as [f|name|].
  - apply bind_untouched; [apply call_factory_untouched|].
    intros v w'. solve_untouched.
  - apply bind_untouched; [apply call_inherited_untouched|].
    intros v w'. solve_untouched.
  - solve_untouched.
Qed.

Variable getConfiguration : string -> num -> num -> option (GridConfiguration num).

Lemma onResize_untouched (width height : num) (w : World num) :
  untouched w (onResize getConfiguration width height w).2.
Proof.
  unfold onResize.
  apply bind_untouched; [apply untouched_refl|]. intros w0 w1.
  apply bind_untouched;
    [apply forOf_untouched; intros; apply call_unbind_untouched|].
  intros _ w2.
  apply bind_untouched; [solve_untouched|]. intros _ w3.
  destruct (layerConfig w0) as [lc|]; [|apply untouched_refl].
  destruct (getConfiguration (grid lc) width height) as [g|];
    [|apply untouched_refl].
  apply forOf_untouched. intros. apply onResize_body_untouched.
Qed.

Lemma resize_all_untouched (sizes : list (num * num)) (w : World num) :
  untouched w (resize_all getConfiguration sizes w).
Proof.
  revert w. induction sizes as [|[width height] sizes IH]; intros w.
  - apply untouched_refl.
  - unfold resize_all in *. simpl.
    eapply untouched_trans; [apply onResize_untouched|apply IH].
Qed.

(** X15: resize events never reach the emulator or the rest of the layers.
    Whatever the configuration and the sizes, and whether [onResize] throws
    or not, a series of resize events leaves the command interface, the
    canvas, the size, the resize listeners, [pointerButton] and the
    keyboard of [layers] as they were; the elements created before, the
    console and the calls to collaborators are kept, new ones come after
    them. *)
Theorem resizes_leave_the_rest (sizes : list (num * num)) (w : World num) :
  untouched w (resize_all getConfiguration sizes w).
Proof.
  revert w. induction sizes as [|[width height] sizes IH]; intros w.
  - apply untouched_refl.
  - unfold resize_all in *. simpl.
    eapply untouched_trans; [apply onResize_untouched|apply IH].
Qed.

End Untouched.

(** ** Creating and removing buttons *)

Section RoundTrip.
Import LayersControl.
Context {num : Type} {Hnum : JsNum num}.

Lemma call_unbind_removes (v : Value) (b : node) (w : World num) :
  unbind_node v = Some b -> b ∈ mouseOverlay (w_layers w) ->
  exists w' : World num,
    call_unbind v w = (Ok tt, w') /\
    mouseOverlay (w_layers w') =
      filter (fun n => n ≠ b) (mouseOverlay (w_layers w)) /\
    unbindControls w' = unbindControls w /\
    elements w' = elements w.
Proof.
  intros Hv Hb. destruct v as [b0|b0 h|id|c|s]; simpl in Hv; try discriminate;
    injection Hv as ->; simpl; unfold bind, removeChild;
    (destruct (decide (b ∈ mouseOverlay (w_layers w))); [|contradiction]);
    eexists; repeat split.
Qed.

Lemma call_unbind_no_node (v : Value) (w : World num) :
  is_unbind v -> unbind_node v = None ->
  exists w' : World num,
    call_unbind v w = (Ok tt, w') /\
    mouseOverlay (w_layers w') = mouseOverlay (w_layers w) /\
    unbindControls w' = unbindControls w /\
    elements w' = elements w.
Proof.
  intros Hu Hv. destruct v as [b0|b0 h|id|c|s]; simpl in *;
    try discriminate; try contradiction.
  eexists. repeat split.
Qed.

Lemma call_unbind_not_child (v : Value) (b : node) (w : World num) :
  unbind_node v = Some b -> b ∉ mouseOverlay (w_layers w) ->
  call_unbind v w = (Throw NotFoundError, w).
Proof.
  intros Hv Hb. destruct v as [b0|b0 h|id|c|s]; simpl in Hv; try discriminate;
    injection Hv as ->; simpl; unfold bind, removeChild;
    (destruct (decide (b ∈ mouseOverlay (w_layers w))); [contradiction|]);
    reflexivity.
Qed.

Lemma made_by_button (f : ControlFactory) (v : Value) :
  f <> createOptionsControl_f -> made_by f v -> is_Some (unbind_node v).
Proof. destruct f; intros Hf [b ->]; try contradiction; simpl; eauto. Qed.

(** X11: a button control that has just been created is undone by its
    unbind closure: the overlay has the children it had before the
    creation, provided these were elements that existed already, and
    nothing was sent to the emulator on the way.  A second call of the
    closure throws [NotFoundError], the button being no child of the
    overlay any more. *)
Theorem create_then_unbind (f : ControlFactory) (c : LayerControl)
    (g : GridConfiguration num) (w w' : World num) (v : Value) :
  f <> createOptionsControl_f ->
  Forall (fun n => n < length (elements w)) (mouseOverlay (w_layers w)) ->
  call_factory f c g w = (Ok v, w') ->
  exists w'' : World num,
    call_unbind v w' = (Ok tt, w'') /\
    mouseOverlay (w_layers w'') = mouseOverlay (w_layers w) /\
    elements w'' = elements w' /\
    w_ci w'' = w_ci w /\
    call_unbind v w'' = (Throw NotFoundError, w'').
Proof.
  intros Hf Hold Hcall.
  assert (Hnot : length (elements w) ∉ mouseOverlay (w_layers w)).
  { intros Hin. rewrite Forall_forall in Hold. specialize (Hold _ Hin). lia. }
  pose proof (call_factory_untouched f c g w) as Hun1.
  destruct (call_factory_result f c g w)
    as [Hthrow|(v0 & w0 & Hok & Hv & _ & _ & _ & Hcase)]; [congruence|].
  rewrite Hcall in Hok, Hun1. injection Hok as <- <-. simpl in Hun1.
  destruct (made_by_button f v Hf Hv) as [b Hb].
  destruct Hcase as [(Hnone & _)|(Hsome & _ & Ho)]; [congruence|].
  rewrite Hsome in Hb. injection Hb as <-.
  destruct (call_unbind_removes v _ w' Hsome) as (w'' & Hc & Ho' & _ & He).
  { rewrite Ho. apply elem_of_app. right. apply list_elem_of_here. }
  pose proof (call_unbind_untouched v w') as Hun2. rewrite Hc in Hun2.
  simpl in Hun2.
  assert (Hback : mouseOverlay (w_layers w'') = mouseOverlay (w_layers w)).
  { unfold node in *. rewrite Ho', Ho, (filter_ne_fresh _ _ Hnot).
    rewrite filter_app, filter_cons_False, filter_nil by tauto.
    rewrite app_nil_r. apply (filter_ne_fresh _ _ Hnot). }
  exists w''. split; [exact Hc|]. split; [exact Hback|]. split; [exact He|].
  split; [destruct Hun1 as [H1 _], Hun2 as [H2 _]; congruence|].
  apply (call_unbind_not_child v _ w'' Hsome). now rewrite Hback.
Qed.

End RoundTrip.

(** ** Where the controls are put *)

Section Geometry.
Import LayersControl.
Local Open Scope Q_scope.

(** X10: a button control (Key, Keyboard, Switch, ScreenMove or
    PointerButton) created on a cell is one new element, as wide as a
    column, positioned absolutely so that the box of one column by one row
    that starts at its [left] and [top] has the centre of the cell as its
    centre; the element is the last child of the overlay and the node that
    the returned closure removes.  Arithmetic over the rationals. *)
Theorem button_is_centred (f : ControlFactory) (c : LayerControl)
    (g : GridConfiguration Q) (w w' : World Q) (v : Value) (cell : Cell Q) :
  f <> createOptionsControl_f ->
  cell_of g (row c) (column c) = Some cell ->
  call_factory f c g w = (Ok v, w') ->
  exists (b : Button Q) (l t : Q),
    elements w' = elements w ++ [b] /\
    button_position b = "absolute"%string /\
    button_left b = px l /\ button_top b = px t /\
    button_size b = columnWidth g /\
    l + columnWidth g / 2 == centerX cell /\
    t + rowHeight g / 2 == centerY cell /\
    last (mouseOverlay (w_layers w')) = Some (length (elements w)) /\
    unbind_node v = Some (length (elements w)).
Proof.
  intros Hf Hcell.
  destruct f; try contradiction; simpl;
    [unfold createKeyControl|unfold createKeyboardControl
    |unfold createSwitchControl|unfold createScreenMoveControl
    |unfold createPointerButtonControl];
    unfold bind; rewrite cell_at_cell_of, Hcell;
    simpl; rewrite ?alter_last; intros [= <- <-];
    eexists _, _, _; simpl;
    (split; [reflexivity|]); (split; [reflexivity|]);
    (split; [reflexivity|]); (split; [reflexivity|]);
    (split; [reflexivity|]);
    (split; [field|]); (split; [field|]);
    (split; [apply last_snoc|reflexivity]).
Qed.

(** X12: on a cell that exists, [createOptionsControl] calls [options]
    once, with the column width as size, with a [top] that centres one row
    on the cell, and with the distance [right] from the right edge of the
    column centred on the cell to the right edge of the grid; what it
    returns is the closure that this call of [options] returned.
    Arithmetic over the rationals. *)
Theorem options_control_geometry (c : LayerControl) (g : GridConfiguration Q)
    (w w' : World Q) (v : Value) (cell : Cell Q) :
  cell_of g (row c) (column c) = Some cell ->
  createOptionsControl c g w = (Ok v, w') ->
  exists (id : nat) (top right : Q),
    v = unbind_options id /\
    external w' = external w ++ [options_call id (columnWidth g) top right] /\
    top + rowHeight g / 2 == centerY cell /\
    centerX cell + columnWidth g / 2 + right == grid_width g.
Proof.
  intros Hcell. unfold createOptionsControl, bind.
  rewrite cell_at_cell_of, Hcell. simpl. intros [= <- <-].
  eexists _, _, _. simpl.
  split; [reflexivity|]. split; [reflexivity|].
  split; field.
Qed.

End Geometry.

Lemma button_is_centred_witness :
  let c := Sample.control "ScreenMove" in
  let w := Sample.world [] in
  let r := LayersControl.call_factory LayersControl.createScreenMoveControl_f
             c Sample.gridConfig w in
  let cell := LayersControl.mkCell 400%Q 300%Q in
  (LayersControl.createScreenMoveControl_f <> LayersControl.createOptionsControl_f /\
   cell_of Sample.gridConfig (LayersControl.row c) (LayersControl.column c)
     = Some cell /\
   r = (LayersControl.Ok (LayersControl.unbind_button 0), r.2)) /\
  exists (b : LayersControl.Button Q) (l t : Q),
    LayersControl.elements r.2 = LayersControl.elements w ++ [b] /\
    LayersControl.button_position b = "absolute"%string /\
    LayersControl.button_left b = px l /\ LayersControl.button_top b = px t /\
    LayersControl.button_size b = LayersControl.columnWidth Sample.gridConfig /\
    (l + LayersControl.columnWidth Sample.gridConfig / 2
       == LayersControl.centerX cell)%Q /\
    (t + LayersControl.rowHeight Sample.gridConfig / 2
       == LayersControl.centerY cell)%Q /\
    last (mouseOverlay (LayersControl.w_layers r.2))
      = Some (length (LayersControl.elements w)) /\
    LayersControl.unbind_node (LayersControl.unbind_button 0)
      = Some (length (LayersControl.elements w)).
Proof.
  intros c w r cell.
  assert (Hf : LayersControl.createScreenMoveControl_f
               <> LayersControl.createOptionsControl_f) by discriminate.
  assert (Hcell : cell_of Sample.gridConfig (LayersControl.row c)
                    (LayersControl.column c) = Some cell) by reflexivity.
  assert (Hr : r = (LayersControl.Ok (LayersControl.unbind_button 0), r.2))
    by reflexivity.
  split; [repeat split; assumption|].
  exact (button_is_centred LayersControl.createScreenMoveControl_f c
           Sample.gridConfig w r.2 (LayersControl.unbind_button 0) cell
           Hf Hcell Hr).
Defined.

Lemma options_control_geometry_witness :
  let c := Sample.control "Options" in
  let w := Sample.world [] in
  let r := LayersControl.createOptionsControl c Sample.gridConfig w in
  let cell := LayersControl.mkCell 400%Q 300%Q in
  (cell_of Sample.gridConfig (LayersControl.row c) (LayersControl.column c)
     = Some cell /\
   r = (LayersControl.Ok (LayersControl.unbind_options 0), r.2)) /\
  exists (id : nat) (top right : Q),
    LayersControl.unbind_options 0 = LayersControl.unbind_options id /\
    LayersControl.external r.2 =
      LayersControl.external w ++
        [LayersControl.options_call id
           (LayersControl.columnWidth Sample.gridConfig) top right] /\
    (top + LayersControl.rowHeight Sample.gridConfig / 2
       == LayersControl.centerY cell)%Q /\
    (LayersControl.centerX cell + LayersControl.columnWidth Sample.gridConfig / 2
       + right == LayersControl.grid_width Sample.gridConfig)%Q.
Proof.
  intros c w r cell.
  assert (Hcell : cell_of Sample.gridConfig (LayersControl.row c)
                    (LayersControl.column c) = Some cell) by reflexivity.
  assert (Hr : r = (LayersControl.Ok (LayersControl.unbind_options 0), r.2))
    by reflexivity.
  split; [split; assumption|].
  exact (options_control_geometry c Sample.gridConfig w r.2
           (LayersControl.unbind_options 0) cell Hcell Hr).
Defined.

(** ** The overlay over a series of resize events *)

Section OverlayTracks.
Import LayersControl.
Context {num : Type} {Hnum : JsNum num}.

(** Calling all the closures of a list whose buttons are the last children
    of the overlay leaves the children before them. *)
Lemma unbind_list (before : list node) (vs : list Value) :
  forall w : World num,
    Forall is_unbind vs ->
    NoDup (omap unbind_node vs) ->
    (forall n, n ∈ before -> n ∉ omap unbind_node vs) ->
    mouseOverlay (w_layers w) = before ++ omap unbind_node vs ->
    exists w' : World num,
      forOf vs call_unbind w = (Ok tt, w') /\
      mouseOverlay (w_layers w') = before /\
      elements w' = elements w /\
      unbindControls w' = unbindControls w.
Proof.
  induction vs as [|v vs IH]; intros w Hall Hnd Hdis Ho.
  - exists w. simpl in *. rewrite app_nil_r in Ho. auto.
  - inversion Hall as [|? ? Hv Hvs]; subst. simpl in *.
    destruct (unbind_node v) as [b|] eqn:Eb.
    + apply NoDup_cons in Hnd as [Hb Hnd].
      destruct (call_unbind_removes v b w Eb) as (w1 & Hc & Ho1 & Hu1 & He1).
      { rewrite Ho. apply elem_of_app. right. apply list_elem_of_here. }
      assert (Hb0 : b ∉ before).
      { intros Hin. apply (Hdis b Hin). apply list_elem_of_here. }
      destruct (IH w1 Hvs Hnd) as (w' & Hc' & Ho' & He' & Hu').
      { intros n Hn Hin. apply (Hdis n Hn). now apply list_elem_of_further. }
      { unfold node in *. rewrite Ho1, Ho, filter_app, filter_cons_False by tauto.
        now rewrite !filter_ne_fresh. }
      exists w'. unfold bind. rewrite Hc.
      split; [exact Hc'|]. split; [exact Ho'|]. split; congruence.
    + destruct (call_unbind_no_node v w Hv Eb) as (w1 & Hc & Ho1 & Hu1 & He1).
      destruct (IH w1 Hvs Hnd Hdis) as (w' & Hc' & Ho' & He' & Hu');
        [rewrite Ho1; exact Ho|].
      exists w'. unfold bind. rewrite Hc.
      split; [exact Hc'|]. split; [exact Ho'|]. split; congruence.
Qed.

Lemma overlay_tracks_disjoint (before : list node) (n0 : nat) (w : World num) :
  overlay_tracks before n0 w ->
  forall n, n ∈ before -> n ∉ omap unbind_node (unbindControls w).
Proof.
  intros (_ & _ & _ & Hb & _ & Hn) n Hin Hin'.
  rewrite Forall_forall in Hb, Hn. specialize (Hb n Hin). specialize (Hn n Hin'). lia.
Qed.

Lemma overlay_tracks_unbind (before : list node) (n0 : nat) (w : World num) :
  overlay_tracks before n0 w ->
  exists w' : World num,
    forOf (unbindControls w) call_unbind w = (Ok tt, w') /\
    mouseOverlay (w_layers w') = before /\
    elements w' = elements w /\
    unbindControls w' = unbindControls w.
Proof.
  intros Ht. pose proof (overlay_tracks_disjoint _ _ _ Ht) as Hdis.
  destruct Ht as (Ho & Hall & Hnd & _).
  now apply unbind_list.
Qed.

Lemma overlay_tracks_empty (before : list node) (n0 : nat) (w : World num) :
  mouseOverlay (w_layers w) = before ->
  Forall (fun n => n < n0) before -> n0 <= length (elements w) ->
  overlay_tracks before n0 (with_unbindControls [] w).
Proof.
  intros Ho Hb Hn. unfold overlay_tracks. simpl. rewrite app_nil_r.
  split; [exact Ho|]. split; [constructor|]. split; [constructor|].
  split; [exact Hb|]. split; [exact Hn|constructor].
Qed.

Lemma overlay_tracks_body (before : list node) (n0 : nat)
    (g : GridConfiguration num) (c : LayerControl) (w : World num) :
  type c ∉ Object_prototype -> overlay_tracks before n0 w ->
  overlay_tracks before n0 (onResize_body g c w).2.
Proof.
  intros Hplain Ht. unfold onResize_body.
  destruct (factoryMapping_cases (type c))
    as [(_ & f & ->)|[(_ & Hp & _)|(_ & _ & ->)]]; [|contradiction|exact Ht].
  unfold bind.
  destruct (call_factory_result f c g w)
    as [-> | (v & w' & -> & Hv & Hu & _ & _ & Hcase)]; [exact Ht|].
  pose proof (overlay_tracks_disjoint _ _ _ Ht) as Hdis.
  destruct Ht as (Ho & Hall & Hnd & Hb & Hn & Hnodes).
  unfold overlay_tracks. simpl. rewrite Hu, omap_app. simpl.
  assert (Hall' : Forall is_unbind (unbindControls w ++ [v])).
  { apply Forall_app. split; [exact Hall|].
    repeat constructor. eapply made_by_is_unbind, Hv. }
  destruct Hcase as [(Hnone & He & Ho')|(Hsome & He & Ho')].
  - rewrite Hnone, app_nil_r, He, Ho'. auto 10.
  - rewrite Hsome.
    assert (Hfresh1 : length (elements w) ∉ before).
    { intros Hin. rewrite Forall_forall in Hb. specialize (Hb _ Hin). lia. }
    assert (Hfresh2 : length (elements w) ∉ omap unbind_node (unbindControls w)).
    { intros Hin. rewrite Forall_forall in Hnodes. specialize (Hnodes _ Hin). lia. }
    split.
    { unfold node in *. rewrite Ho', Ho, filter_app, !filter_ne_fresh by assumption.
      symmetry. apply app_assoc. }
    split; [exact Hall'|]. split.
    { apply NoDup_app. split; [exact Hnd|]. split; [|apply NoDup_singleton].
      intros b Hb1 ->%list_elem_of_singleton. contradiction. }
    split; [exact Hb|]. split; [lia|].
    apply Forall_app. split.
    + eapply Forall_impl; [exact Hnodes|]. intros b Hb1. simpl in Hb1. lia.
    + repeat constructor; lia.
Qed.

Lemma overlay_tracks_loop (before : list node) (n0 : nat)
    (g : GridConfiguration num) (cs : list LayerControl) :
  forall w : World num,
    Forall (fun c => type c ∉ Object_prototype) cs ->
    overlay_tracks before n0 w ->
    overlay_tracks before n0 (forOf cs (onResize_body g) w).2.
Proof.
  induction cs as [|c cs IH]; intros w Hplain Ht; [exact Ht|].
  inversion Hplain as [|? ? Hc Hcs]; subst.
  pose proof (overlay_tracks_body before n0 g c w Hc Ht) as Ht1.
  simpl. unfold bind. destruct (onResize_body g c w) as [[[]|e] w1]; simpl in *.
  - now apply IH.
  - exact Ht1.
Qed.

Variable getConfiguration : string -> num -> num -> option (GridConfiguration num).

(** The configuration of the world has no control whose type is a property
    name of [Object.prototype]. *)
Lemma overlay_tracks_onResize (before : list node) (n0 : nat)
    (width height : num) (w : World num) :
  (forall lc, layerConfig w = Some lc ->
              Forall (fun c => type c ∉ Object_prototype) (controls lc)) ->
  overlay_tracks before n0 w ->
  overlay_tracks before n0 (onResize getConfiguration width height w).2.
Proof.
  intros Hplain Ht.
  destruct (overlay_tracks_unbind _ _ _ Ht) as (w0 & Hun & Ho0 & He0 & _).
  assert (Ht0 : overlay_tracks before n0 (with_unbindControls [] w0)).
  { destruct Ht as (_ & _ & _ & Hb & Hn & _).
    apply overlay_tracks_empty; [exact Ho0|exact Hb|congruence]. }
  unfold onResize, bind. simpl. rewrite Hun. simpl.
  destruct (layerConfig w) as [lc|] eqn:Elc; [|exact Ht0].
  destruct (getConfiguration (grid lc) width height) as [g|]; [|exact Ht0].
  apply overlay_tracks_loop; [now apply Hplain|exact Ht0].
Qed.

Lemma onResize_layerConfig (width height : num) (w : World num) :
  layerConfig (onResize getConfiguration width height w).2 = layerConfig w.
Proof.
  pose proof (onResize_untouched getConfiguration width height w) as Hu.
  unfold untouched in Hu. tauto.
Qed.

Lemma overlay_tracks_resize_all (before : list node) (n0 : nat)
    (sizes : list (num * num)) :
  forall w : World num,
    (forall lc, layerConfig w = Some lc ->
                Forall (fun c => type c ∉ Object_prototype) (controls lc)) ->
    overlay_tracks before n0 w ->
    overlay_tracks before n0 (resize_all getConfiguration sizes w).
Proof.
  induction sizes as [|[width height] sizes IH]; intros w Hplain Ht; [exact Ht|].
  unfold resize_all in *. simpl. apply IH.
  - rewrite onResize_layerConfig. exact Hplain.
  - now apply overlay_tracks_onResize.
Qed.

Lemma init_resizes_tracks (lc : LayerConfig)
    (layers0 : Layers num) (ci : CommandInterface num)
    (elements0 : list (Button num)) (h : handle) (sizes : list (num * num)) :
  Forall (fun c => type c ∉ Object_prototype) (controls lc) ->
  Forall (fun n => n < length elements0) (mouseOverlay layers0) ->
  overlay_tracks (mouseOverlay layers0) (length elements0)
    (resize_all getConfiguration sizes
       (initLayerConfig getConfiguration (Some lc) layers0 ci elements0 h).2).
Proof.
  intros Hplain Hold.
  apply overlay_tracks_resize_all.
  - intros lc'. unfold initLayerConfig, bind. simpl.
    rewrite onResize_layerConfig. simpl. now intros [= <-].
  - unfold initLayerConfig, bind. simpl.
    apply overlay_tracks_onResize; [simpl; now intros lc' [= <-]|].
    unfold overlay_tracks. simpl. rewrite app_nil_r.
    split; [reflexivity|]. split; [constructor|]. split; [constructor|].
    split; [exact Hold|]. split; [lia|constructor].
Qed.

(** X17: with a layer none of whose control types is a property name of
    [Object.prototype], set up on an overlay whose children are existing
    elements: after [initLayerConfig] and any series of resize events,
    thrown or not, the overlay holds the children it had before, followed
    by exactly the buttons that the closures of [unbindControls] remove, in
    the order of their creation, each once.  No button of an earlier
    layout is left on the overlay. *)
Theorem overlay_follows_unbindControls (lc : LayerConfig)
    (layers0 : Layers num) (ci : CommandInterface num)
    (elements0 : list (Button num)) (h : handle) (sizes : list (num * num)) :
  Forall (fun c => type c ∉ Object_prototype) (controls lc) ->
  Forall (fun n => n < length elements0) (mouseOverlay layers0) ->
  overlay_tracks (mouseOverlay layers0) (length elements0)
    (resize_all getConfiguration sizes
       (initLayerConfig getConfiguration (Some lc) layers0 ci elements0 h).2).
Proof.
  intros Hplain Hold.
  apply overlay_tracks_resize_all.
  - intros lc'. unfold initLayerConfig, bind. simpl.
    rewrite onResize_layerConfig. simpl. now intros [= <-].
  - unfold initLayerConfig, bind. simpl.
    apply overlay_tracks_onResize; [simpl; now intros lc' [= <-]|].
    apply overlay_tracks_empty with (w := mkWorld (addOnResize h layers0) ci
      elements0 [] [keyboard_call; mouse_call] (Some lc) h []);
      [reflexivity|exact Hold|simpl; lia].
Qed.

Lemma init_untouched (lc : option LayerConfig)
    (layers0 : Layers num) (ci : CommandInterface num)
    (elements0 : list (Button num)) (h : handle) :
  untouched
    (mkWorld (addOnResize h layers0) ci elements0 []
       [keyboard_call; mouse_call] lc h [])
    (initLayerConfig getConfiguration lc layers0 ci elements0 h).2.
Proof.
  unfold initLayerConfig, bind. simpl. apply onResize_untouched.
Qed.

(** X19: [initLayerConfig] first binds the keyboard and the mouse and
    registers [onResize] as a resize listener, and only then lays the
    controls out.  Whether this first [onResize] throws or not, the two
    bindings and the listener are there afterwards and nothing was sent to
    the emulator; with no layer selected it throws a [TypeError] and has
    created no element. *)
Theorem initLayerConfig_binds_first (lc : option LayerConfig)
    (layers0 : Layers num) (ci : CommandInterface num)
    (elements0 : list (Button num)) (h : handle) :
  let r := initLayerConfig getConfiguration lc layers0 ci elements0 h in
  (exists rest, external r.2 = [keyboard_call; mouse_call] ++ rest) /\
  onResizeListeners (w_layers r.2) = {[h]} ∪ onResizeListeners layers0 /\
  w_ci r.2 = ci /\
  (lc = None ->
   r.1 = Throw TypeError /\ elements r.2 = elements0 /\
   unbindControls r.2 = [] /\ external r.2 = [keyboard_call; mouse_call]).
Proof.
  intros r. subst r.
  destruct (init_untouched lc layers0 ci elements0 h)
    as (Hci & _ & _ & _ & Hl & _ & _ & _ & _ & _ & _ & Hx).
  simpl in *. split; [exact Hx|]. split; [exact Hl|]. split; [exact Hci|].
  intros ->. repeat split.
Qed.

(** X18: the closure that [initLayerConfig] returns undoes the set-up.
    With a layer none of whose control types is a property name of
    [Object.prototype], set up on an overlay whose children are existing
    elements, with [onResize] a new listener: after any series of resize
    events, calling the closure does not throw, takes [onResize] off the
    resize listeners, which are then those from before the set-up, unbinds
    the keyboard and the mouse, and leaves on the overlay the children it
    had before the set-up. *)
Theorem dispose_undoes_set_up (lc : LayerConfig)
    (layers0 : Layers num) (ci : CommandInterface num)
    (elements0 : list (Button num)) (h : handle) (sizes : list (num * num)) :
  Forall (fun c => type c ∉ Object_prototype) (controls lc) ->
  Forall (fun n => n < length elements0) (mouseOverlay layers0) ->
  h ∉ onResizeListeners layers0 ->
  (initLayerConfig getConfiguration (Some lc) layers0 ci elements0 h).1 = Ok tt ->
  let w := resize_all getConfiguration sizes
             (initLayerConfig getConfiguration (Some lc) layers0 ci elements0 h).2 in
  exists wf : World num,
    dispose w = (Ok tt, wf) /\
    mouseOverlay (w_layers wf) = mouseOverlay layers0 /\
    onResizeListeners (w_layers wf) = onResizeListeners layers0 /\
    w_ci wf = ci /\
    exists rest,
      external wf = external w ++ [unbindKeyboard_call; unbindMouse_call] ++ rest.
Proof.
  intros Hplain Hold Hh _ w.
  pose proof (init_resizes_tracks lc layers0 ci elements0 h sizes Hplain Hold)
    as Ht. fold w in Ht.
  assert (Hun : untouched
                  (mkWorld (addOnResize h layers0) ci elements0 []
                     [keyboard_call; mouse_call] (Some lc) h []) w).
  { eapply untouched_trans; [apply init_untouched|apply resize_all_untouched]. }
  destruct Hun as (Hci & _ & _ & _ & Hl & _ & _ & _ & Hoh & _).
  simpl in Hci, Hl, Hoh.
  set (w3 := with_external
               (external
                  (with_external (external (with_layers
                       (removeOnResize (onResize_h w) (w_layers w)) w)
                     ++ [unbindKeyboard_call])
                     (with_layers (removeOnResize (onResize_h w) (w_layers w)) w))
                ++ [unbindMouse_call])
               (with_external (external (with_layers
                       (removeOnResize (onResize_h w) (w_layers w)) w)
                     ++ [unbindKeyboard_call])
                  (with_layers (removeOnResize (onResize_h w) (w_layers w)) w))).
  assert (Ht3 : overlay_tracks (mouseOverlay layers0) (length elements0) w3)
    by exact Ht.
  destruct (overlay_tracks_unbind _ _ _ Ht3) as (wf & Hrun & Ho & _ & _).
  pose proof (forOf_untouched call_unbind (unbindControls w3)
                (fun x w' => call_unbind_untouched x w') w3) as Huf.
  rewrite Hrun in Huf. simpl in Huf.
  destruct Huf as (Hci' & _ & _ & _ & Hl' & _ & _ & _ & _ & _ & _ & [rest Hx]).
  exists wf. split; [exact Hrun|]. split; [exact Ho|].
  split; [rewrite Hl'; simpl; rewrite Hl, Hoh; set_solver|].
  split; [rewrite Hci'; exact Hci|].
  exists rest. rewrite Hx. simpl. now rewrite <- !app_assoc.
Qed.

End OverlayTracks.

(** ** Controls without factory, and the selected layer *)

Section Skipping.
Import LayersControl.
Context {num : Type} {Hnum : JsNum num}.

Lemma forOf_all_skipped (g : GridConfiguration num) (cs : list LayerControl) :
  forall w : World num,
    Forall (fun c => (type c ∉ six_keys) /\ (type c ∉ Object_prototype)) cs ->
    forOf cs (onResize_body g) w =
      (Ok tt, with_console (console w ++ (skip_message ∘ type <$> cs)) w).
Proof.
  induction cs as [|c cs IH]; intros w Hcs.
  - simpl. rewrite app_nil_r. destruct w; reflexivity.
  - inversion Hcs as [|? ? [Hsix Hproto] Hcs']; subst.
    rewrite forOf_skips by assumption. rewrite IH by assumption.
    simpl. now rewrite <- app_assoc.
Qed.

Variable getConfiguration : string -> num -> num -> option (GridConfiguration num).

(** X16: when every control of the layer has a type that is neither one of
    the six keys nor a property name of [Object.prototype], a resize that
    starts with no closure to call does not throw, creates no element,
    leaves [unbindControls] empty and logs one error for each control, in
    the order of the configuration, naming its type. *)
Theorem unknown_types_are_all_skipped (width height : num) (w : World num)
    (lc : LayerConfig) (g : GridConfiguration num) :
  layerConfig w = Some lc ->
  getConfiguration (grid lc) width height = Some g ->
  unbindControls w = [] ->
  Forall (fun c => (type c ∉ six_keys) /\ (type c ∉ Object_prototype))
    (controls lc) ->
  onResize getConfiguration width height w =
    (Ok tt,
     with_console (console w ++ (skip_message ∘ type <$> controls lc))
       (with_unbindControls [] w)).
Proof.
  intros Hlc Hg Hu Hcs. unfold onResize, bind. simpl.
  rewrite Hu, Hlc, Hg. simpl. now rewrite forOf_all_skipped.
Qed.

End Skipping.

Lemma unknown_types_are_all_skipped_witness :
  let w := Sample.world ["Nipple"; "Joystick"] in
  let lc := Sample.layer "main" ["Nipple"; "Joystick"] in
  (LayersControl.layerConfig w = Some lc /\
   Sample.getConfiguration (LayersControl.grid lc) 800%Q 600%Q
     = Some Sample.gridConfig /\
   LayersControl.unbindControls w = [] /\
   Forall (fun c => (LayersControl.type c ∉ LayersControl.six_keys) /\
                    (LayersControl.type c ∉ LayersControl.Object_prototype))
     (LayersControl.controls lc)) /\
  LayersControl.onResize Sample.getConfiguration 800%Q 600%Q w =
    (LayersControl.Ok tt,
     LayersControl.with_console
       (LayersControl.console w ++
          (skip_message ∘ LayersControl.type <$> LayersControl.controls lc))
       (LayersControl.with_unbindControls [] w)).
Proof.
  intros w lc.
  assert (Hcs : Forall (fun c => (LayersControl.type c ∉ LayersControl.six_keys) /\
                                 (LayersControl.type c ∉ LayersControl.Object_prototype))
                  (LayersControl.controls lc)).
  { repeat (constructor;
            [split; apply existsb_eqb_false_inv; reflexivity|]).
    constructor. }
  split; [repeat split; exact Hcs|].
  exact (unknown_types_are_all_skipped Sample.getConfiguration 800%Q 600%Q w lc
           Sample.gridConfig eq_refl eq_refl eq_refl Hcs).
Defined.

Section Selected.
Import LayersControl.

Lemma select_loop_result (name : string) (ls : list LayerConfig)
    (selected : option LayerConfig) :
  (exists l, select_loop name ls selected = Some l /\ l ∈ ls /\ title l = name) \/
  (select_loop name ls selected = selected /\
   Forall (fun x => title x <> name) ls).
Proof.
  induction ls as [|x ls IH]; simpl; [right; split; [reflexivity|constructor]|].
  destruct (String.eqb_spec (title x) name) as [Hx|Hx].
  - left. exists x. split; [reflexivity|]. split; [apply list_elem_of_here|exact Hx].
  - destruct IH as [(l & Hl & Hin & Ht)|[Hsel Hall]].
    + left. exists l. split; [exact Hl|]. split; [now apply list_elem_of_further|exact Ht].
    + right. split; [exact Hsel|]. constructor; assumption.
Qed.

(** X20: the layer that [initLayersControl] selects is [undefined] exactly
    when the configuration has no layer; otherwise it is one of the layers
    of the configuration, and if a [layerName] was given and is not the
    title of the selected layer, then no layer has that title and the
    selected layer is the first one. *)
Theorem selected_layer_is_a_layer (layersConfig : LayersConfig)
    (layerName : option string) :
  (selectLayer layersConfig layerName = None <-> layers layersConfig = []) /\
  (forall l : LayerConfig,
     selectLayer layersConfig layerName = Some l ->
     l ∈ layers layersConfig /\
     forall name : string,
       layerName = Some name -> title l <> name ->
       Forall (fun x => title x <> name) (layers layersConfig) /\
       layers layersConfig !! 0 = Some l).
Proof.
  unfold selectLayer. destruct layersConfig as [ls]. simpl.
  destruct layerName as [name|].
  - destruct (select_loop_result name ls (ls !! 0))
      as [(l & -> & Hin & Ht)|[-> Hall]].
    + split.
      * split; [discriminate|]. intros ->. now apply elem_of_nil in Hin.
      * intros l' [= <-]. split; [exact Hin|]. intros n [= <-] Hne. contradiction.
    + split.
      * destruct ls; simpl; split; congruence.
      * intros l Hl. split; [eapply list_elem_of_lookup_2, Hl|].
        intros n [= <-] _. auto.
  - split.
    + destruct ls; simpl; split; congruence.
    + intros l Hl. split; [eapply list_elem_of_lookup_2, Hl|]. discriminate.
Qed.

End Selected.

(** ** Instances of the properties of the controls *)

Section ControlWitnesses.
Import LayersControl.

Lemma create_then_unbind_witness :
  let c := Sample.control "Keyboard" in
  let w := Sample.world [] in
  let r := call_factory createKeyboardControl_f c Sample.gridConfig w in
  (createKeyboardControl_f <> createOptionsControl_f /\
   Forall (fun n => n < length (elements w)) (mouseOverlay (w_layers w)) /\
   r = (Ok (unbind_keyboard 0 0), r.2)) /\
  exists w'' : World Q,
    call_unbind (unbind_keyboard 0 0) r.2 = (Ok tt, w'') /\
    mouseOverlay (w_layers w'') = mouseOverlay (w_layers w) /\
    elements w'' = elements r.2 /\
    w_ci w'' = w_ci w /\
    call_unbind (unbind_keyboard 0 0) w'' = (Throw NotFoundError, w'').
Proof.
  intros c w r.
  assert (Hf : createKeyboardControl_f <> createOptionsControl_f) by discriminate.
  assert (Hold : Forall (fun n => n < length (elements w))
                   (mouseOverlay (w_layers w))) by constructor.
  assert (Hr : r = (Ok (unbind_keyboard 0 0), r.2)) by reflexivity.
  split; [repeat split; assumption|].
  exact (create_then_unbind createKeyboardControl_f c Sample.gridConfig w r.2
           (unbind_keyboard 0 0) Hf Hold Hr).
Defined.

Lemma keyboard_control_handlers_witness :
  let keyboardControl := Sample.control "Keyboard" in
  let w := Sample.world [] in
  let w' := (createKeyboardControl keyboardControl Sample.gridConfig w).2 in
  createKeyboardControl keyboardControl Sample.gridConfig w
    = (Ok (unbind_keyboard 0 0), w') /\
  exists (b : Button Q) (up : Handler Q),
    elements w' = elements w ++ [b] /\
    button_symbol b = "keyboard"%string /\
    onDown b = None /\ onUp b = Some up /\
    w_ci w' = w_ci w /\
    forall w0 : World Q,
      fire up w0 =
        with_layers
          (set_keyboardToggles (S (keyboardToggles (w_layers w0))) (w_layers w0))
          w0 /\
      w_ci (fire up w0) = w_ci w0.
Proof.
  intros keyboardControl w w'.
  assert (Hc : createKeyboardControl keyboardControl Sample.gridConfig w
               = (Ok (unbind_keyboard 0 0), w')) by reflexivity.
  split; [exact Hc|].
  exact (keyboard_control_handlers keyboardControl Sample.gridConfig w w'
           (unbind_keyboard 0 0) Hc).
Defined.

Lemma switch_control_handlers_witness :
  let switchControl := Sample.control "Switch" in
  let w := Sample.world [] in
  let w' := (createSwitchControl switchControl Sample.gridConfig w).2 in
  createSwitchControl switchControl Sample.gridConfig w
    = (Ok (unbind_button 0), w') /\
  exists (b : Button Q) (up : Handler Q),
    elements w' = elements w ++ [b] /\
    button_symbol b = symbol switchControl /\
    onDown b = None /\ onUp b = Some up /\
    external w' = external w /\
    forall w0 : World Q,
      fire up w0 =
        with_external
          (external w0 ++ [setLayersConfig_call (layerName switchControl)]) w0 /\
      w_ci (fire up w0) = w_ci w0 /\
      w_layers (fire up w0) = w_layers w0.
Proof.
  intros switchControl w w'.
  assert (Hc : createSwitchControl switchControl Sample.gridConfig w
               = (Ok (unbind_button 0), w')) by reflexivity.
  split; [exact Hc|].
  exact (switch_control_handlers switchControl Sample.gridConfig w w'
           (unbind_button 0) Hc).
Defined.

Lemma sample_layer_plain :
  Forall (fun c => type c ∉ Object_prototype)
    (controls (Sample.layer "main" ["Key"; "Options"; "Nipple"])).
Proof.
  repeat (constructor; [apply existsb_eqb_false_inv; reflexivity|]).
  constructor.
Qed.

Lemma overlay_follows_unbindControls_witness :
  let lc := Sample.layer "main" ["Key"; "Options"; "Nipple"] in
  let sizes := [(1024%Q, 768%Q); (640%Q, 480%Q)] in
  (Forall (fun c => type c ∉ Object_prototype) (controls lc) /\
   Forall (fun n => n < length (@nil (Button Q))) (mouseOverlay Sample.layers0)) /\
  overlay_tracks (mouseOverlay Sample.layers0) (length (@nil (Button Q)))
    (resize_all Sample.getConfiguration sizes
       (initLayerConfig Sample.getConfiguration (Some lc) Sample.layers0
          Sample.ci0 [] 9).2).
Proof.
  intros lc sizes.
  assert (Hold : Forall (fun n => n < length (@nil (Button Q)))
                   (mouseOverlay Sample.layers0)) by constructor.
  split; [split; [exact sample_layer_plain|exact Hold]|].
  exact (overlay_follows_unbindControls Sample.getConfiguration lc Sample.layers0
           Sample.ci0 [] 9 sizes sample_layer_plain Hold).
Defined.

Lemma dispose_undoes_set_up_witness :
  let lc := Sample.layer "main" ["Key"; "Options"; "Nipple"] in
  let sizes := [(1024%Q, 768%Q); (640%Q, 480%Q)] in
  let init := initLayerConfig Sample.getConfiguration (Some lc) Sample.layers0
                Sample.ci0 [] 9 in
  (Forall (fun c => type c ∉ Object_prototype) (controls lc) /\
   Forall (fun n => n < length (@nil (Button Q))) (mouseOverlay Sample.layers0) /\
   (9 ∉ onResizeListeners Sample.layers0) /\
   init.1 = Ok tt) /\
  let w := resize_all Sample.getConfiguration sizes init.2 in
  exists wf : World Q,
    dispose w = (Ok tt, wf) /\
    mouseOverlay (w_layers wf) = mouseOverlay Sample.layers0 /\
    onResizeListeners (w_layers wf) = onResizeListeners Sample.layers0 /\
    w_ci wf = Sample.ci0 /\
    exists rest,
      external wf = external w ++ [unbindKeyboard_call; unbindMouse_call] ++ rest.
Proof.
  intros lc sizes init.
  assert (Hold : Forall (fun n => n < length (@nil (Button Q)))
                   (mouseOverlay Sample.layers0)) by constructor.
  assert (Hh : 9 ∉ onResizeListeners Sample.layers0) by apply not_elem_of_empty.
  assert (Hinit : init.1 = Ok tt) by (vm_compute; reflexivity).
  split; [split; [exact sample_layer_plain|];
          split; [exact Hold|]; split; [exact Hh|exact Hinit]|].
  exact (dispose_undoes_set_up Sample.getConfiguration lc Sample.layers0
           Sample.ci0 [] 9 sizes sample_layer_plain Hold Hh Hinit).
Defined.

End ControlWitnesses.

(** ** A resize that lays every control out *)

Section FullLayout.
Import LayersControl.
Context {num : Type} {Hnum : JsNum num}.

Lemma call_factory_ok (f : ControlFactory) (c : LayerControl)
    (g : GridConfiguration num) (w : World num) :
  is_Some (cell_of g (row c) (column c)) ->
  exists v, (call_factory f c g w).1 = Ok v.
Proof.
  intros [cell Hcell].
  destruct f; simpl;
    [unfold createKeyControl|unfold createOptionsControl
    |unfold createKeyboardControl|unfold createSwitchControl
    |unfold createScreenMoveControl|unfold createPointerButtonControl];
    unfold bind; rewrite cell_at_cell_of, Hcell; simpl; eauto.
Qed.

Lemma onResize_body_ok (g : GridConfiguration num) (c : LayerControl)
    (w : World num) :
  type c ∉ Object_prototype ->
  is_Some (cell_of g (row c) (column c)) ->
  (onResize_body g c w).1 = Ok tt.
Proof.
  intros Hplain Hcell. unfold onResize_body.
  destruct (factoryMapping_cases (type c))
    as [(_ & f & ->)|[(_ & Hp & _)|(_ & _ & ->)]]; [|contradiction|reflexivity].
  unfold bind. destruct (call_factory_ok f c g w Hcell) as [v Hv].
  destruct (call_factory f c g w) as [[v'|e] w']; [reflexivity|discriminate].
Qed.

Lemma forOf_body_ok (g : GridConfiguration num) (cs : list LayerControl) :
  forall w : World num,
    Forall (fun c => type c ∉ Object_prototype) cs ->
    Forall (fun c => is_Some (cell_of g (row c) (column c))) cs ->
    (forOf cs (onResize_body g) w).1 = Ok tt.
Proof.
  induction cs as [|c cs IH]; intros w Hplain Hcells; [reflexivity|].
  inversion Hplain as [|? ? Hc Hcs]; subst.
  inversion Hcells as [|? ? Hcell Hcells']; subst.
  simpl. unfold bind.
  pose proof (onResize_body_ok g c w Hc Hcell) as Hok.
  destruct (onResize_body g c w) as [[[]|e] w1]; [now apply IH|discriminate].
Qed.

Variable getConfiguration : string -> num -> num -> option (GridConfiguration num).

(** X21: a resize that finds a grid in which every control has its cell,
    with no control type that is a property name of [Object.prototype],
    from a state in which [unbindControls] holds distinct buttons of the
    overlay: it does not throw; the buttons of the earlier layout have left
    the overlay and none of their closures is kept; and [unbindControls]
    then holds exactly one closure for each control whose type is one of
    the six keys, in the order of the configuration, of the kind that the
    factory of that type returns. *)
Theorem onResize_lays_out_every_control (width height : num) (w : World num)
    (lc : LayerConfig) (g : GridConfiguration num) :
  layerConfig w = Some lc ->
  getConfiguration (grid lc) width height = Some g ->
  Forall (fun c => type c ∉ Object_prototype) (controls lc) ->
  Forall (fun c => is_Some (cell_of g (row c) (column c))) (controls lc) ->
  bound w ->
  exists w1 : World num,
    onResize getConfiguration width height w = (Ok tt, w1) /\
    bound w1 /\
    Forall2 made_for (filter (fun c => type c ∈ six_keys) (controls lc))
      (unbindControls w1) /\
    (forall b, b ∈ omap unbind_node (unbindControls w) ->
               (b ∉ mouseOverlay (w_layers w1)) /\
               (b ∉ omap unbind_node (unbindControls w1))).
Proof.
  intros Hlc Hg Hplain Hcells Hw.
  destruct (onResize_rebuilds getConfiguration width height w lc Hlc Hplain Hw)
    as (r & w1 & done & rest & Hrun & Hw1 & Hcs & Hr & Hmade & _ & Hgone).
  assert (Hok : r = Ok tt).
  { destruct Hw as (Hall & Hnd & Hin).
    destruct (unbind_phase (unbindControls w) w Hall Hnd)
      as (w0 & Hun & _); [apply Hin|].
    pose proof (forOf_body_ok g (controls lc) (with_unbindControls [] w0)
                  Hplain Hcells) as Hloop.
    revert Hrun. unfold onResize, bind. simpl. rewrite Hun. simpl.
    rewrite Hlc, Hg. intros Hrun. rewrite Hrun in Hloop. exact Hloop. }
  subst r. rewrite (Hr eq_refl), app_nil_r in Hcs. subst done.
  exists w1. auto.
Qed.

End FullLayout.

Lemma overlay_tracks_bound {num} `{JsNum num} (before : list node) (n0 : nat)
    (w : LayersControl.World num) :
  overlay_tracks before n0 w -> LayersControl.bound w.
Proof.
  intros (Ho & Hall & Hnd & _ & _ & Hn).
  split; [exact Hall|]. split; [exact Hnd|].
  intros b Hb. split.
  - rewrite Ho. apply elem_of_app. now right.
  - rewrite Forall_forall in Hn. specialize (Hn b Hb). lia.
Qed.

Lemma onResize_lays_out_every_control_witness :
  let lc := Sample.layer "main" ["Key"; "Options"; "Nipple"] in
  let w := (LayersControl.initLayerConfig Sample.getConfiguration (Some lc)
              Sample.layers0 Sample.ci0 [] 9).2 in
  let g := LayersControl.mkGridConfiguration
             [[LayersControl.mkCell 400%Q 300%Q]] 100%Q 100%Q 1024%Q 768%Q in
  (LayersControl.layerConfig w = Some lc /\
   Sample.getConfiguration (LayersControl.grid lc) 1024%Q 768%Q = Some g /\
   Forall (fun c => LayersControl.type c ∉ LayersControl.Object_prototype)
     (LayersControl.controls lc) /\
   Forall (fun c => is_Some (cell_of g (LayersControl.row c) (LayersControl.column c)))
     (LayersControl.controls lc) /\
   LayersControl.bound w) /\
  exists w1 : LayersControl.World Q,
    LayersControl.onResize Sample.getConfiguration 1024%Q 768%Q w
      = (LayersControl.Ok tt, w1) /\
    LayersControl.bound w1 /\
    Forall2 LayersControl.made_for
      (filter (fun c => LayersControl.type c ∈ LayersControl.six_keys)
         (LayersControl.controls lc))
      (LayersControl.unbindControls w1) /\
    (forall b,
       b ∈ omap LayersControl.unbind_node (LayersControl.unbindControls w) ->
       (b ∉ mouseOverlay (LayersControl.w_layers w1)) /\
       (b ∉ omap LayersControl.unbind_node (LayersControl.unbindControls w1))).
Proof.
  intros lc w g.
  assert (Hlc : LayersControl.layerConfig w = Some lc) by reflexivity.
  assert (Hcells : Forall (fun c => is_Some (cell_of g (LayersControl.row c)
                                               (LayersControl.column c)))
                     (LayersControl.controls lc))
    by (repeat constructor; eexists; reflexivity).
  assert (Hw : LayersControl.bound w).
  { apply (overlay_tracks_bound (mouseOverlay Sample.layers0) 0).
    exact (init_resizes_tracks Sample.getConfiguration lc Sample.layers0
             Sample.ci0 [] 9 [] sample_layer_plain
             (List.Forall_nil (fun n => n < length (@nil (LayersControl.Button Q))))). }
  split; [split; [exact Hlc|]; split; [reflexivity|];
          split; [exact sample_layer_plain|]; split; [exact Hcells|exact Hw]|].
  exact (onResize_lays_out_every_control Sample.getConfiguration 1024%Q 768%Q w
           lc g Hlc eq_refl sample_layer_plain Hcells Hw).
Defined.
